(** * py3status / i3status.py : a shallow embedding and its specification

    The module [py3status/i3status.py] supervises the external [i3status]
    process.  It reads the user's configuration, writes a configuration file
    for the child, parses the child's output stream and keeps the clock
    entries ([time], [tztime]) ticking between two polls.

    The development follows the source file from top to bottom:
    - [Py]         the Python primitives the module relies on
                   (string methods, [int], [sorted], [datetime]);
    - [Clock]      class [Tz] and class [I3statusModule];
    - [Reader]     [I3status.i3status_config_reader] and its local functions;
    - [Emitter]    [I3status.write_tmp_i3status_config];
    - [Supervisor] [I3status.set_responses] and the loop of [I3status.run];
    then come the vocabulary of the properties and the properties.

    How the program is read:
    - a string is a sequence of code points below 256;
    - a dictionary whose iteration order the code observes (the settings of
      a section) is an association list in insertion order; the others
      ([config], the click table, the entries of a snapshot) are [gmap]s,
      so that two of them are equal when they hold the same keys and
      values, as two Python dictionaries are;
    - a method of an object is a function of the state of the object that
      returns the new state and either a value or the exception raised:
      what the method has changed before it raises stays changed;
    - the clock is read once for each update of an entry ([wall]);
    - [self.item] is held by value: that it is the very dictionary of
      [self.json_list] is not followed, and nothing below reads
      [json_list] after an update;
    - the collaborators ([parse_config], [print_line], [jsonify],
      [notify_update], the pollers and the child) are not in the file:
      what they give is an input, what they receive is recorded. *)

From Stdlib Require Import ZArith Lia Ascii String List.
From Stdlib Require Import Numbers.DecimalString.
From stdpp Require Import base option list gmap strings sorting.

Local Open Scope Z_scope.
Local Set Warnings "-register-all".

(** ** Exceptions

    The Python exceptions that the modelled code can raise, each with the
    text it carries. *)
Inductive exn : Type :=
  | IndexError (msg : string)
  | ValueError (msg : string)
  | KeyError (key : string)
  | AttributeError (msg : string)
  | TypeError (msg : string)
  | IOError (msg : string).

Global Instance exn_eq_dec : EqDecision exn.
Proof. solve_decision. Defined.

(** [except IOError] in [run]: which exceptions that clause catches. *)
Definition is_IOError (e : exn) : bool :=
  match e with IOError _ => true | _ => false end.

(** Results of fallible pure code. *)
Inductive result (A : Type) : Type :=
  | Ok (a : A)
  | Raise (e : exn).
Arguments Ok {A} a.
Arguments Raise {A} e.

Global Instance result_ret : MRet result := fun _ a => Ok a.
Global Instance result_bind : MBind result := fun _ _ k r =>
  match r with Ok a => k a | Raise e => Raise e end.

(** Stateful code that may raise: the state reached is kept when an exception
    is raised, as the attributes of a Python object are. *)
Definition stateM (S A : Type) : Type := S -> S * result A.

Global Instance stateM_ret {S} : MRet (stateM S) := fun _ a s => (s, Ok a).
Global Instance stateM_bind {S} : MBind (stateM S) := fun _ _ k c s =>
  match c s with
  | (s', Ok a) => k a s'
  | (s', Raise e) => (s', Raise e)
  end.

Definition get {S} : stateM S S := fun s => (s, Ok s).
Definition put {S} (s : S) : stateM S unit := fun _ => (s, Ok tt).
Definition modify {S} (f : S -> S) : stateM S unit := fun s => (f s, Ok tt).
Definition raise {S A} (e : exn) : stateM S A := fun s => (s, Raise e).
Definition lift {S A} (r : result A) : stateM S A := fun s => (s, r).

Module Py.

(** *** Characters and strings *)

Definition code (c : ascii) : Z := Z.of_N (N_of_ascii c).

Definition chr (n : Z) : ascii := ascii_of_N (Z.to_N n).

Definition dquote : string := String (chr 34) "".
Definition newline : string := String (chr 10) "".

(** [str.isspace] on one code point (Python 3, code points below 256). *)
Definition isspace (c : ascii) : bool :=
  let n := code c in
  ((9 <=? n) && (n <=? 13)) || ((28 <=? n) && (n <=? 32))
  || (n =? 133) || (n =? 160).

Definition isdigit (c : ascii) : bool :=
  let n := code c in (48 <=? n) && (n <=? 57).

Definition digit_val (c : ascii) : Z := code c - 48.

(** [s.split()] : the maximal runs of non-space characters.  [cur] is the
    token being read, reversed. *)
Fixpoint split_go (cur : option string) (s : string) : list string :=
  match s with
  | EmptyString => option_list (String.rev <$> cur)
  | String a s' =>
      if isspace a
      then option_list (String.rev <$> cur) ++ split_go None s'
      else split_go (Some (String a (default "" cur))) s'
  end.

Definition split (s : string) : list string := split_go None s.

(** [s.split(sep)] for a one-character separator: every occurrence cuts,
    empty pieces are kept, the result is never empty. *)
Fixpoint split_on_go (sep : ascii) (cur : string) (s : string) : list string :=
  match s with
  | EmptyString => [String.rev cur]
  | String a s' =>
      if decide (a = sep)
      then String.rev cur :: split_on_go sep "" s'
      else split_on_go sep (String a cur) s'
  end.

Definition split_on (sep : ascii) (s : string) : list string :=
  split_on_go sep "" s.

(** [sep.join(l)] *)
Fixpoint join (sep : string) (l : list string) : string :=
  match l with
  | [] => ""
  | [x] => x
  | x :: l' => x +:+ sep +:+ join sep l'
  end.

(** [s.startswith(p)] *)
Fixpoint startswith (p s : string) : bool :=
  match p, s with
  | EmptyString, _ => true
  | String a p', String b s' => if decide (a = b) then startswith p' s' else false
  | String _ _, EmptyString => false
  end.

(** [sub in s] on strings *)
Fixpoint contains (sub s : string) : bool :=
  startswith sub s ||
  match s with
  | EmptyString => false
  | String _ s' => contains sub s'
  end.

(** [s.replace(old, new)] for a non-empty [old]: the occurrences are
    replaced from left to right, without overlap.  [fuel] bounds the length
    of [s]. *)
Fixpoint drop_chars (n : nat) (s : string) : string :=
  match n, s with
  | O, _ => s
  | S n', String _ s' => drop_chars n' s'
  | S _, EmptyString => ""
  end.

Fixpoint replace_go (fuel : nat) (old new s : string) : string :=
  match fuel with
  | O => s
  | S fuel' =>
      match s with
      | EmptyString => ""
      | String a s' =>
          if startswith old s
          then new +:+ replace_go fuel' old new (drop_chars (String.length old) s)
          else String a (replace_go fuel' old new s')
      end
  end.

Definition replace (old new s : string) : string :=
  replace_go (String.length s) old new s.

(** [x in l] on a list of strings *)
Definition inb (x : string) (l : list string) : bool := bool_decide (x ∈ l).

(** [str(n)], ['%s' % n], ['{}'.format(n)] for an integer *)
Definition str_of_int (n : Z) : string := NilEmpty.string_of_int (Z.to_int n).

(** *** [int(token)]

    Base ten, for a token without white space: an optional sign, then digits
    that single underscores may separate.  [None] stands for [ValueError]. *)
Fixpoint int_digits (acc : Z) (after_digit : bool) (s : string) : option Z :=
  match s with
  | EmptyString => if after_digit then Some acc else None
  | String a s' =>
      if isdigit a then int_digits (10 * acc + digit_val a) true s'
      else if decide (a = "_"%char)
           then (if after_digit then int_digits acc false s' else None)
           else None
  end.

Definition int (s : string) : option Z :=
  match s with
  | String "-" s' => Z.opp <$> int_digits 0 false s'
  | String "+" s' => int_digits 0 false s'
  | _ => int_digits 0 false s
  end.

(** [repr(s)] as it appears in the message of a failed [int]. *)
Definition hex_digit (n : Z) : ascii :=
  if n <? 10 then chr (48 + n) else chr (87 + n).

Definition printable (c : ascii) : bool :=
  let n := code c in
  ((32 <=? n) && (n <? 127)) || ((161 <=? n) && negb (n =? 173)).

Definition repr_char (quote : ascii) (c : ascii) : string :=
  if decide (c = quote) then String "\" (String c "")
  else if decide (c = "\"%char) then "\\"
  else if decide (c = chr 9) then "\t"
  else if decide (c = chr 10) then "\n"
  else if decide (c = chr 13) then "\r"
  else if printable c then String c ""
  else String "\" (String "x" (String (hex_digit (code c / 16))
                                (String (hex_digit (code c mod 16)) ""))).

Fixpoint repr_body (quote : ascii) (s : string) : string :=
  match s with
  | EmptyString => ""
  | String c s' => repr_char quote c +:+ repr_body quote s'
  end.

Definition repr (s : string) : string :=
  let q := if contains "'" s && negb (contains dquote s)
           then chr 34 else "'"%char in
  String q (repr_body q s +:+ String q "").

Definition int_error (s : string) : string :=
  "invalid literal for int() with base 10: " +:+ repr s.

(** *** Ordered dictionaries

    A [dict] whose iteration order the code observes: the keys are unique
    and kept in insertion order; assigning to a key that is present keeps
    its position. *)
Section dict.
Context {V : Type}.

Fixpoint dict_get (k : string) (d : list (string * V)) : option V :=
  match d with
  | [] => None
  | (k', v) :: d' => if decide (k' = k) then Some v else dict_get k d'
  end.

Definition dict_has (k : string) (d : list (string * V)) : bool :=
  bool_decide (is_Some (dict_get k d)).

Fixpoint dict_set (k : string) (v : V) (d : list (string * V))
  : list (string * V) :=
  match d with
  | [] => [(k, v)]
  | (k', v') :: d' =>
      if decide (k' = k) then (k, v) :: d' else (k', v') :: dict_set k v d'
  end.

(** [d.update(other)] *)
Definition dict_update (other d : list (string * V)) : list (string * V) :=
  foldl (fun acc kv => dict_set kv.1 kv.2 acc) d other.
End dict.

(** [l.remove(x)]: the first occurrence goes; [None] stands for the
    [ValueError] of a missing element. *)
Fixpoint list_remove (x : string) (l : list string) : option (list string) :=
  match l with
  | [] => None
  | y :: l' => if decide (y = x) then Some l' else (y ::.) <$> list_remove x l'
  end.

(** [sorted(l)] on strings, and on the items of a dictionary (whose keys
    differ, so that the first components decide). *)
Definition sorted (l : list string) : list string := merge_sort String.le l.

Definition key_le {V} (a b : string * V) : Prop := String.le a.1 b.1.

Global Instance key_le_dec {V} : RelDecision (@key_le V).
Proof. intros a b. unfold key_le. apply _. Defined.

Definition sorted_items {V} (l : list (string * V)) : list (string * V) :=
  merge_sort key_le l.

(** *** [datetime]

    The proleptic Gregorian calendar of the [datetime] module, with its own
    helper functions.  Microseconds are left out. *)
Record datetime : Type := mk_datetime {
  year : Z; month : Z; day : Z; hour : Z; minute : Z; second : Z
}.

(** A [timedelta], as its total number of seconds. *)
Definition timedelta : Type := Z.

Definition is_leap (y : Z) : bool :=
  (y mod 4 =? 0) && (negb (y mod 100 =? 0) || (y mod 400 =? 0)).

Definition days_before_year (y : Z) : Z :=
  let y' := y - 1 in y' * 365 + y' / 4 - y' / 100 + y' / 400.

Definition DAYS_IN_MONTH : list Z :=
  [-1; 31; 28; 31; 30; 31; 30; 31; 31; 30; 31; 30; 31].

Definition DAYS_BEFORE_MONTH : list Z :=
  [-1; 0; 31; 59; 90; 120; 151; 181; 212; 243; 273; 304; 334].

Definition days_in_month (y m : Z) : Z :=
  if (m =? 2) && is_leap y then 29
  else default 0 (DAYS_IN_MONTH !! Z.to_nat m).

Definition days_before_month (y m : Z) : Z :=
  default 0 (DAYS_BEFORE_MONTH !! Z.to_nat m)
  + (if (2 <? m) && is_leap y then 1 else 0).

Definition ymd2ord (y m d : Z) : Z :=
  days_before_year y + days_before_month y m + d.

Definition ord2ymd (n : Z) : Z * Z * Z :=
  let n := n - 1 in
  let n400 := n / 146097 in let n := n mod 146097 in
  let y := n400 * 400 + 1 in
  let n100 := n / 36524 in let n := n mod 36524 in
  let n4 := n / 1461 in let n := n mod 1461 in
  let n1 := n / 365 in let n := n mod 365 in
  let y := y + n100 * 100 + n4 * 4 + n1 in
  if (n1 =? 4) || (n100 =? 4) then (y - 1, 12, 31)
  else
    let leapyear := (n1 =? 3) && (negb (n4 =? 24) || (n100 =? 3)) in
    let m := Z.shiftr (n + 50) 5 in
    let preceding := default 0 (DAYS_BEFORE_MONTH !! Z.to_nat m)
                     + (if (2 <? m) && leapyear then 1 else 0) in
    if n <? preceding
    then
      let m' := m - 1 in
      let preceding' := preceding
        - (default 0 (DAYS_IN_MONTH !! Z.to_nat m')
           + (if (m' =? 2) && leapyear then 1 else 0)) in
      (y, m', n - preceding' + 1)
    else (y, m, n - preceding + 1).

(** [datetime(y, m, d, H, M, S)], with the checks of the constructor. *)
Definition datetime_new (y m d H M S : Z) : result datetime :=
  if negb ((1 <=? y) && (y <=? 9999))
  then Raise (ValueError ("year " +:+ str_of_int y +:+ " is out of range"))
  else if negb ((1 <=? m) && (m <=? 12))
  then Raise (ValueError "month must be in 1..12")
  else if negb ((1 <=? d) && (d <=? days_in_month y m))
  then Raise (ValueError "day is out of range for month")
  else if negb ((0 <=? H) && (H <=? 23))
  then Raise (ValueError "hour must be in 0..23")
  else if negb ((0 <=? M) && (M <=? 59))
  then Raise (ValueError "minute must be in 0..59")
  else if negb ((0 <=? S) && (S <=? 59))
  then Raise (ValueError "second must be in 0..59")
  else Ok (mk_datetime y m d H M S).

(** The seconds between 0001-01-01 00:00:00 and a naive [datetime]; the
    difference of two of them is [a - b]. *)
Definition to_seconds (dt : datetime) : Z :=
  (ymd2ord (year dt) (month dt) (day dt)) * 86400
  + hour dt * 3600 + minute dt * 60 + second dt.

Definition datetime_sub (a b : datetime) : timedelta :=
  to_seconds a - to_seconds b.

(** The civil time that lies [t] seconds after 1970-01-01 00:00:00. *)
Definition of_timestamp (t : Z) : datetime :=
  let '(y, m, d) := ord2ymd (t / 86400 + 719163) in
  let r := t mod 86400 in
  mk_datetime y m d (r / 3600) (r mod 3600 / 60) (r mod 60).

(** *** [datetime.strptime]

    The format is compiled to a pattern as [_strptime] does: a run of white
    space stands for one or more white-space characters, a directive for the
    alternatives of its regular expression, tried from left to right with
    backtracking; the match is anchored at the start only, and what is left
    of the text afterwards is an error.  The directives are those of the
    formats of this module: [%Y %m %d %H %M %S] and [%%], each used once. *)
Inductive directive : Type := DY | Dm | Dd | DH | DM | DS.

Inductive piece : Type :=
  | PLit (c : ascii)
  | PSpaces
  | PField (f : directive).

Fixpoint compile_format (after_space : bool) (fmt : string)
  : option (list piece) :=
  match fmt with
  | EmptyString => Some []
  | String "%" EmptyString => None
  | String "%" (String c rest) =>
      p ← (if decide (c = "Y"%char) then Some (PField DY)
           else if decide (c = "m"%char) then Some (PField Dm)
           else if decide (c = "d"%char) then Some (PField Dd)
           else if decide (c = "H"%char) then Some (PField DH)
           else if decide (c = "M"%char) then Some (PField DM)
           else if decide (c = "S"%char) then Some (PField DS)
           else if decide (c = "%"%char) then Some (PLit "%")
           else None);
      ps ← compile_format false rest;
      Some (p :: ps)
  | String c rest =>
      if isspace c
      then ps ← compile_format true rest;
           Some (if after_space then ps else PSpaces :: ps)
      else ps ← compile_format false rest; Some (PLit c :: ps)
  end.

Definition between (a b : ascii) (c : ascii) : bool :=
  (code a <=? code c) && (code c <=? code b).

Definition is_char (a : ascii) (c : ascii) : bool := bool_decide (a = c).

(** The alternatives of each directive, each a sequence of character
    classes. *)
Definition alternatives (f : directive) : list (list (ascii -> bool)) :=
  let d := between "0" "9" in
  match f with
  | DY => [[d; d; d; d]]
  | Dm => [[is_char "1"; between "0" "2"]; [is_char "0"; between "1" "9"];
           [between "1" "9"]]
  | Dd => [[is_char "3"; between "0" "1"]; [between "1" "2"; d];
           [is_char "0"; between "1" "9"]; [between "1" "9"];
           [is_char " "; between "1" "9"]]
  | DH => [[is_char "2"; between "0" "3"]; [between "0" "1"; d]; [d]]
  | DM => [[between "0" "5"; d]; [d]]
  | DS => [[is_char "6"; between "0" "1"]; [between "0" "5"; d]; [d]]
  end.

(** One alternative against the start of the text: the number read (a
    leading blank counts for nothing) and the rest of the text. *)
Fixpoint match_alt (alt : list (ascii -> bool)) (acc : Z) (s : string)
  : option (Z * string) :=
  match alt with
  | [] => Some (acc, s)
  | cl :: alt' =>
      match s with
      | String a s' =>
          if cl a
          then match_alt alt' (if isdigit a then 10 * acc + digit_val a else acc) s'
          else None
      | EmptyString => None
      end
  end.

Record fields : Type := mk_fields {
  fY : Z; fm : Z; fd : Z; fH : Z; fM : Z; fS : Z
}.

Definition default_fields : fields := mk_fields 1900 1 1 0 0 0.

Definition set_field (f : directive) (v : Z) (x : fields) : fields :=
  match f with
  | DY => mk_fields v (fm x) (fd x) (fH x) (fM x) (fS x)
  | Dm => mk_fields (fY x) v (fd x) (fH x) (fM x) (fS x)
  | Dd => mk_fields (fY x) (fm x) v (fH x) (fM x) (fS x)
  | DH => mk_fields (fY x) (fm x) (fd x) v (fM x) (fS x)
  | DM => mk_fields (fY x) (fm x) (fd x) (fH x) v (fS x)
  | DS => mk_fields (fY x) (fm x) (fd x) (fH x) (fM x) v
  end.

Definition lower (c : ascii) : ascii :=
  if between "A" "Z" c then chr (code c + 32) else c.

(** One or more white-space characters, as many as possible first. *)
Fixpoint spaces_then {A} (k : string -> option A) (s : string) : option A :=
  match s with
  | String a s' =>
      if isspace a
      then match spaces_then k s' with
           | Some r => Some r
           | None => k s'
           end
      else None
  | EmptyString => None
  end.

Fixpoint first_alt {A} (k : Z -> string -> option A)
    (alts : list (list (ascii -> bool))) (s : string) : option A :=
  match alts with
  | [] => None
  | alt :: alts' =>
      match match_alt alt 0 s ≫= (fun '(v, s') => k v s') with
      | Some r => Some r
      | None => first_alt k alts' s
      end
  end.

Fixpoint match_pieces (ps : list piece) (x : fields) (s : string)
  : option (fields * string) :=
  match ps with
  | [] => Some (x, s)
  | PLit c :: ps' =>
      match s with
      | String a s' =>
          if decide (lower a = lower c) then match_pieces ps' x s' else None
      | EmptyString => None
      end
  | PSpaces :: ps' => spaces_then (match_pieces ps' x) s
  | PField f :: ps' =>
      first_alt (fun v s' => match_pieces ps' (set_field f v x) s')
                (alternatives f) s
  end.

Definition strptime (data fmt : string) : result datetime :=
  match compile_format false fmt with
  | None => Raise (ValueError ("bad directive in format " +:+ repr fmt))
  | Some ps =>
      match match_pieces ps default_fields data with
      | None =>
          Raise (ValueError ("time data " +:+ repr data
                             +:+ " does not match format " +:+ repr fmt))
      | Some (x, EmptyString) =>
          datetime_new (fY x) (fm x) (fd x) (fH x) (fM x) (fS x)
      | Some (_, rest) =>
          Raise (ValueError ("unconverted data remains: " +:+ rest))
      end
  end.

(** *** [datetime.strftime]

    [zone] is the name and the offset that the [tzinfo] of the value gives,
    [None] for a naive value.  [%Z] and [%z] are written by [datetime]
    itself; the other conversions are those of the [strftime] of the C
    library (glibc), in the C locale: after [%], one of the characters
    [a A b B c C d D e F g G h H I j k l m M n p P r R S t T u U V w W x X
    y Y] and [%].  What is outside these ([covered] tells): a flag, a width
    or a modifier [E], [O] after [%], the conversions [%s] and [%f], which
    depend on the zone of the machine and on the microseconds of the clock,
    and a [%] at the end; there the characters are copied as they are. *)
Definition pad2 (n : Z) : string :=
  if n <? 10 then "0" +:+ str_of_int n else str_of_int n.

Definition pad3 (n : Z) : string :=
  if n <? 10 then "00" +:+ str_of_int n
  else if n <? 100 then "0" +:+ str_of_int n else str_of_int n.

Definition space2 (n : Z) : string :=
  if n <? 10 then " " +:+ str_of_int n else str_of_int n.

Definition fmt_offset (off : timedelta) : string :=
  let a := Z.abs off in
  (if off <? 0 then "-" else "+") +:+ pad2 (a / 3600) +:+ pad2 (a mod 3600 / 60)
  +:+ (if a mod 60 =? 0 then "" else pad2 (a mod 60)).

Definition DAY_NAMES : list string :=
  ["Sunday"; "Monday"; "Tuesday"; "Wednesday"; "Thursday"; "Friday"; "Saturday"].

Definition DAY_ABBREVIATIONS : list string :=
  ["Sun"; "Mon"; "Tue"; "Wed"; "Thu"; "Fri"; "Sat"].

Definition MONTH_NAMES : list string :=
  ["January"; "February"; "March"; "April"; "May"; "June"; "July"; "August";
   "September"; "October"; "November"; "December"].

Definition MONTH_ABBREVIATIONS : list string :=
  ["Jan"; "Feb"; "Mar"; "Apr"; "May"; "Jun"; "Jul"; "Aug"; "Sep"; "Oct"; "Nov";
   "Dec"].

(** [tm_wday], from 0 for Sunday, and [tm_yday], from 0 for the first of
    January. *)
Definition tm_wday (dt : datetime) : Z :=
  ymd2ord (year dt) (month dt) (day dt) mod 7.

Definition tm_yday (dt : datetime) : Z :=
  days_before_month (year dt) (month dt) + day dt - 1.

(** The year and the week of ISO 8601, as [isocalendar] finds them. *)
Definition isoweek1monday (y : Z) : Z :=
  let firstday := ymd2ord y 1 1 in
  let firstweekday := (firstday + 6) mod 7 in
  let week1monday := firstday - firstweekday in
  if 3 <? firstweekday then week1monday + 7 else week1monday.

Definition isocalendar (dt : datetime) : Z * Z :=
  let y := year dt in
  let today := ymd2ord y (month dt) (day dt) in
  let week := (today - isoweek1monday y) / 7 in
  if week <? 0 then (y - 1, (today - isoweek1monday (y - 1)) / 7 + 1)
  else if (52 <=? week) && (isoweek1monday (y + 1) <=? today) then (y + 1, 1)
  else (y, week + 1).

Definition hour12 (dt : datetime) : Z :=
  let h := hour dt mod 12 in if h =? 0 then 12 else h.

Definition am_pm (dt : datetime) : string :=
  if hour dt <? 12 then "AM" else "PM".

Definition name_at (names : list string) (i : Z) : string :=
  default "?" (names !! Z.to_nat i).

(** What one conversion writes; [None] for a character that is none. *)
Definition conversion (c : ascii) (dt : datetime)
    (zone : option (string * timedelta)) : option string :=
  let date := pad2 (month dt) +:+ "/" +:+ pad2 (day dt) +:+ "/"
              +:+ pad2 (year dt mod 100) in
  let clock := pad2 (hour dt) +:+ ":" +:+ pad2 (minute dt) +:+ ":"
               +:+ pad2 (second dt) in
  if decide (c = "Y"%char) then Some (str_of_int (year dt))
  else if decide (c = "m"%char) then Some (pad2 (month dt))
  else if decide (c = "d"%char) then Some (pad2 (day dt))
  else if decide (c = "H"%char) then Some (pad2 (hour dt))
  else if decide (c = "M"%char) then Some (pad2 (minute dt))
  else if decide (c = "S"%char) then Some (pad2 (second dt))
  else if decide (c = "Z"%char) then Some (from_option fst "" zone)
  else if decide (c = "z"%char) then Some (from_option (fmt_offset ∘ snd) "" zone)
  else if decide (c = "%"%char) then Some "%"
  else if decide (c = "a"%char) then Some (name_at DAY_ABBREVIATIONS (tm_wday dt))
  else if decide (c = "A"%char) then Some (name_at DAY_NAMES (tm_wday dt))
  else if decide (c = "b"%char) then Some (name_at MONTH_ABBREVIATIONS (month dt - 1))
  else if decide (c = "h"%char) then Some (name_at MONTH_ABBREVIATIONS (month dt - 1))
  else if decide (c = "B"%char) then Some (name_at MONTH_NAMES (month dt - 1))
  else if decide (c = "c"%char)
  then Some (name_at DAY_ABBREVIATIONS (tm_wday dt) +:+ " "
             +:+ name_at MONTH_ABBREVIATIONS (month dt - 1) +:+ " "
             +:+ space2 (day dt) +:+ " " +:+ clock +:+ " "
             +:+ str_of_int (year dt))
  else if decide (c = "C"%char) then Some (str_of_int (year dt / 100))
  else if decide (c = "D"%char) then Some date
  else if decide (c = "x"%char) then Some date
  else if decide (c = "e"%char) then Some (space2 (day dt))
  else if decide (c = "F"%char)
  then Some (str_of_int (year dt) +:+ "-" +:+ pad2 (month dt) +:+ "-"
             +:+ pad2 (day dt))
  else if decide (c = "g"%char) then Some (pad2 ((isocalendar dt).1 mod 100))
  else if decide (c = "G"%char) then Some (str_of_int (isocalendar dt).1)
  else if decide (c = "V"%char) then Some (pad2 (isocalendar dt).2)
  else if decide (c = "I"%char) then Some (pad2 (hour12 dt))
  else if decide (c = "l"%char) then Some (space2 (hour12 dt))
  else if decide (c = "k"%char) then Some (space2 (hour dt))
  else if decide (c = "j"%char) then Some (pad3 (tm_yday dt + 1))
  else if decide (c = "n"%char) then Some newline
  else if decide (c = "t"%char) then Some (String (chr 9) "")
  else if decide (c = "p"%char) then Some (am_pm dt)
  else if decide (c = "P"%char) then Some (if hour dt <? 12 then "am" else "pm")
  else if decide (c = "r"%char)
  then Some (pad2 (hour12 dt) +:+ ":" +:+ pad2 (minute dt) +:+ ":"
             +:+ pad2 (second dt) +:+ " " +:+ am_pm dt)
  else if decide (c = "R"%char) then Some (pad2 (hour dt) +:+ ":" +:+ pad2 (minute dt))
  else if decide (c = "T"%char) then Some clock
  else if decide (c = "X"%char) then Some clock
  else if decide (c = "u"%char) then Some (str_of_int ((tm_wday dt + 6) mod 7 + 1))
  else if decide (c = "w"%char) then Some (str_of_int (tm_wday dt))
  else if decide (c = "U"%char) then Some (pad2 ((tm_yday dt + 7 - tm_wday dt) / 7))
  else if decide (c = "W"%char)
  then Some (pad2 ((tm_yday dt + 7 - (tm_wday dt + 6) mod 7) / 7))
  else if decide (c = "y"%char) then Some (pad2 (year dt mod 100))
  else None.

Fixpoint strftime (fmt : string) (dt : datetime)
    (zone : option (string * timedelta)) : string :=
  match fmt with
  | EmptyString => ""
  | String "%" (String c rest) =>
      default (String "%" (String c "")) (conversion c dt zone)
      +:+ strftime rest dt zone
  | String c rest => String c (strftime rest dt zone)
  end.

(** The formats on which [strftime] above is the one of the library: every
    [%] is followed by the character of a conversion. *)
Fixpoint covered (fmt : string) : bool :=
  match fmt with
  | EmptyString => true
  | String "%" (String c rest) =>
      bool_decide (is_Some (conversion c (mk_datetime 1 1 1 0 0 0) None))
      && covered rest
  | String "%" EmptyString => false
  | String _ rest => covered rest
  end.

End Py.

(** ** Data model *)

(** The values of a parsed configuration: scalars, lists of names, and
    nested module definitions ([ModuleDefinition], an ordered dictionary). *)
Inductive value : Type :=
  | VStr (s : string)
  | VBool (b : bool)
  | VInt (n : Z)
  | VList (l : list string)
  | VModule (body : list (string * value)).

(** The settings of one section, in insertion order. *)
Abbreviation settings := (list (string * value)).

Definition is_module (v : value) : bool :=
  match v with VModule _ => true | _ => false end.

(** What the dictionary [config] holds under a key: the settings of a
    section, a list of names ([order], [.group_extras], [i3s_modules],
    [py3_modules]), the click table ([on_click]) or the groups of each
    member ([.module_groups]). *)
Inductive cval : Type :=
  | CDict (d : settings)
  | CNames (l : list string)
  | COnClick (m : gmap string (gmap Z value))
  | CGroups (m : gmap string (list string)).

Abbreviation config := (gmap string cval).

(** One entry of a snapshot: a JSON object with scalar fields.  Two entries
    are equal when they have the same fields, in whatever order. *)
Inductive jvalue : Type :=
  | JStr (s : string)
  | JInt (n : Z)
  | JBool (b : bool)
  | JNull.

Global Instance jvalue_eq_dec : EqDecision jvalue.
Proof. solve_decision. Defined.

Abbreviation item := (gmap string jvalue).

(** The clock of the machine at one reading: [time()] truncated to the
    second, and the offset of the local zone from UTC, in seconds. *)
Record wall : Type := mk_wall { time : Z; utc_offset : Z }.

Definition TIME_FORMAT : string := "%Y-%m-%d %H:%M:%S".
Definition TZTIME_FORMAT : string := "%Y-%m-%d %H:%M:%S %Z".
Definition TIME_MODULES : list string := ["time"; "tztime"].

(** [name.split()[0]] *)
Definition first_token (name : string) : result string :=
  match Py.split name with
  | t :: _ => Ok t
  | [] => Raise (IndexError "list index out of range")
  end.

(** ** class Tz, class I3statusModule *)
Module Clock.

Record Tz : Type := mk_Tz { _name : string; _offset : Py.timedelta }.

Global Instance Tz_eq_dec : EqDecision Tz.
Proof. solve_decision. Defined.

Definition utcoffset (tz : Tz) : Py.timedelta := _offset tz.
Definition tzname (tz : Tz) : string := _name tz.
Definition dst (tz : Tz) : Py.timedelta := 0.

(** [datetime.now(tz)]: the local civil time without a zone; with one, the
    UTC time moved by the offset of the zone, which has to lie strictly
    within a day. *)
Definition now (w : wall) (tz : option Tz)
  : result (Py.datetime * option (string * Py.timedelta)) :=
  match tz with
  | None => Ok (Py.of_timestamp (time w + utc_offset w), None)
  | Some z =>
      if (-86400 <? utcoffset z) && (utcoffset z <? 86400)
      then Ok (Py.of_timestamp (time w + utcoffset z - dst z + dst z),
               Some (tzname z, utcoffset z))
      else Raise (ValueError "offset must be a timedelta strictly between -timedelta(hours=24) and timedelta(hours=24)")
  end.

(** The attributes of an [I3statusModule].  [tz] and [time_format] exist
    on clock entries only; elsewhere they keep their initial value and are
    never read. *)
Record I3statusModule : Type := mk_module {
  module_name : string;
  is_time_module : bool;
  item : item;
  tz : option Tz;
  time_format : value
}.

Definition set_item (i : gmap string jvalue) (m : I3statusModule) :=
  mk_module (module_name m) (is_time_module m) i (tz m) (time_format m).
Definition set_tz (z : option Tz) (m : I3statusModule) :=
  mk_module (module_name m) (is_time_module m) (item m) z (time_format m).
Definition set_fmt (f : value) (m : I3statusModule) :=
  mk_module (module_name m) (is_time_module m) (item m) (tz m) f.

(** [config.get(module_name, {})] followed by the reads of [format] and
    [format_time]. *)
Definition set_time_format (cfg : config) : stateM I3statusModule unit :=
  m ← get;
  conf ← lift (match cfg !! module_name m with
               | None => Ok []
               | Some (CDict d) => Ok d
               | Some _ => Raise (AttributeError "'list' object has no attribute 'get'")
               end);
  let time_format := default (VStr TIME_FORMAT) (Py.dict_get "format" conf) in
  time_format ← lift (match Py.dict_get "format_time" conf with
                      | None => Ok time_format
                      | Some ft =>
                          match time_format, ft with
                          | VStr f, VStr t => Ok (VStr (Py.replace "%time" t f))
                          | VStr _, _ => Raise (TypeError "replace() argument 2 must be str")
                          | _, _ => Raise (AttributeError "object has no attribute 'replace'")
                          end
                      end);
  modify (set_fmt time_format).

(** [I3statusModule(module_name, py3_wrapper)] *)
Definition init (name : string) (cfg : config) : result I3statusModule :=
  base ← first_token name;
  let m := mk_module name (Py.inb base TIME_MODULES) ∅ None (VStr TIME_FORMAT) in
  if is_time_module m
  then match set_time_format cfg m with
       | (m', Ok _) => Ok m'
       | (_, Raise e) => Raise e
       end
  else Ok m.

Definition get_latest (m : I3statusModule) : list (gmap string jvalue) := [item m].

(** [self.item['full_text']] *)
Definition full_text : stateM I3statusModule jvalue :=
  m ← get;
  match item m !! "full_text" with
  | Some v => mret v
  | None => raise (KeyError "full_text")
  end.

Definition update_time_value (w : wall) : stateM I3statusModule bool :=
  m ← get;
  '(date, zone) ← lift (now w (tz m));
  new_value ← lift (match time_format m with
                    | VStr f => Ok (Py.strftime f date zone)
                    | _ => Raise (TypeError "strftime() argument 1 must be str")
                    end);
  old ← full_text;
  let updated := bool_decide (old ≠ JStr new_value) in
  (if updated
   then modify (fun m => set_item (<["full_text" := JStr new_value]> (item m)) m)
   else mret tt);;
  mret updated.

Definition set_time_zone (w : wall) : stateM I3statusModule unit :=
  v ← full_text;
  i3s_time ← lift (match v with
                   | JStr s => Ok s
                   | _ => Raise (AttributeError "object has no attribute 'encode'")
                   end);
  let parts := Py.split i3s_time in
  let i3s_datetime := Py.join " " (take 2 parts) in
  i3s_time_tz ← lift (match parts !! 2%nat with
                      | Some t => Ok t
                      | None => Raise (IndexError "list index out of range")
                      end);
  date ← lift (Py.strptime i3s_datetime TIME_FORMAT);
  '(utcnow, _) ← lift (now w None);
  a ← lift (Py.datetime_new (Py.year date) (Py.month date) (Py.day date)
                            (Py.hour date) (Py.minute date) 0);
  b ← lift (Py.datetime_new (Py.year utcnow) (Py.month utcnow) (Py.day utcnow)
                            (Py.hour utcnow) (Py.minute utcnow) 0);
  let delta := Py.datetime_sub a b in
  modify (set_tz (Some (mk_Tz i3s_time_tz delta))).

(** The test that guards the inference in [update_from_item]:
    [not self.tz or int(time()) % 60 != 0]. *)
Definition time_zone_due (w : wall) (m : I3statusModule) : bool :=
  negb (bool_decide (is_Some (tz m))) || negb (time w mod 60 =? 0).

Definition update_from_item (w : wall) (i : gmap string jvalue)
  : stateM I3statusModule bool :=
  m ← get;
  let is_updated := bool_decide (item m ≠ i) in
  modify (set_item i);;
  if is_time_module m
  then
    m ← get;
    (if time_zone_due w m then set_time_zone w else mret tt);;
    update_time_value w
  else mret is_updated.

End Clock.

(** ** class I3status: the configuration *)

(** [self.i3status_module_names] *)
Definition i3status_module_names : list string :=
  ["battery"; "cpu_temperature"; "cpu_usage"; "ddate"; "disk"; "ethernet";
   "ipv6"; "load"; "path_exists"; "run_watch"; "time"; "tztime"; "volume";
   "wireless"].

(** [param_name.split(' ')[0]] *)
Definition first_word (name : string) : string :=
  default "" (head (Py.split_on " " name)).

Definition valid_config_param (param_name : string) (cleanup : bool) : bool :=
  let valid_config_params :=
    if cleanup
    then filter (fun n => n ∉ ["cpu_usage"; "ddate"; "ipv6"; "load"; "time"])
                i3status_module_names
    else i3status_module_names ++ ["general"; "order"] in
  Py.inb (first_word param_name) valid_config_params.

(** The truth value of [config.get(name)]: a missing key and an empty
    container are false. *)
Definition truthy (o : option cval) : bool :=
  match o with
  | None => false
  | Some (CDict d) => negb (bool_decide (d = []))
  | Some (CNames l) => negb (bool_decide (l = []))
  | Some (COnClick m) => negb (bool_decide (m = ∅))
  | Some (CGroups m) => negb (bool_decide (m = ∅))
  end.

(** [config[key]] where the code calls a method of lists on it.  The reader
    holds a list under [i3s_modules], and under [order] and [.group_extras]
    unless a module has that very name: its settings, a dictionary, then
    stand there, and a dictionary has none of the list methods. *)
Definition names_at (key : string) (c : config) : result (list string) :=
  match c !! key with
  | Some (CNames l) => Ok l
  | Some _ => Raise (AttributeError "'dict' object has no list methods")
  | None => Raise (KeyError key)
  end.

(** The list of names under [key], empty when there is none. *)
Definition names_of (key : string) (c : config) : list string :=
  match c !! key with
  | Some (CNames l) => l
  | _ => []
  end.

Module Reader.

Inductive module_type : Type := i3status | py3status.

Definition get_module_type (name : string) : result module_type :=
  base ← first_token name;
  Ok (if Py.inb base i3status_module_names then i3status else py3status).

(** The variables of [i3status_config_reader] that its local functions
    update. *)
Record locals : Type := mk_locals {
  modules : gmap string settings;
  on_click : gmap string (gmap Z value);
  i3s_modules : gset string;
  py3_modules : gset string;
  module_groups : gmap string (list string);
  group_extras : list string;
  cfg : config
}.

Definition general_defaults : settings :=
  [("color_bad", VStr "#FF0000"); ("color_degraded", VStr "#FFFF00");
   ("color_good", VStr "#00FF00"); ("color_separator", VStr "#333333");
   ("colors", VBool false); ("interval", VInt 5);
   ("output_format", VStr "i3bar")].

Definition missing_button (group_name : string) : string :=
  "missing " +:+ Py.dquote +:+ "button id" +:+ Py.dquote +:+ " for "
  +:+ Py.dquote +:+ "on_click" +:+ Py.dquote +:+ " parameter in group "
  +:+ group_name.

Definition invalid_button (group_name e : string) : string :=
  "invalid " +:+ Py.dquote +:+ "button id" +:+ Py.dquote +:+ " for "
  +:+ Py.dquote +:+ "on_click" +:+ Py.dquote +:+ " parameter in group "
  +:+ group_name +:+ " (" +:+ e +:+ ")".

(** The [try] block of [process_onclick]: the button, or the exception that
    the block raises before the handlers rewrite it. *)
Definition button_of (key : string) : result Z :=
  match Py.split key !! 1%nat with
  | None => Raise (IndexError "list index out of range")
  | Some tok =>
      match Py.int tok with
      | None => Raise (ValueError (Py.int_error tok))
      | Some button =>
          if (1 <=? button) && (button <? 6) then Ok button
          else Raise (ValueError "should be 1, 2, 3, 4 or 5")
      end
  end.

Definition process_onclick (key : string) (v : value) (group_name : string)
    (on_click : gmap string (gmap Z value))
  : result (gmap string (gmap Z value)) :=
  match button_of key with
  | Raise (IndexError _) => Raise (IndexError (missing_button group_name))
  | Raise (ValueError e) => Raise (ValueError (invalid_button group_name e))
  | Raise e => Raise e
  | Ok button =>
      let clicks := default ∅ (on_click !! group_name) in
      Ok (<[group_name := <[button := v]> clicks]> on_click)
  end.

(** The loop over the keys of a module that looks for click handlers. *)
Fixpoint process_clicks (name : string) (items : settings)
    (on_click : gmap string (gmap Z value))
  : result (gmap string (gmap Z value)) :=
  match items with
  | [] => Ok on_click
  | (k, v) :: items' =>
      oc ← (if Py.startswith "on_click" k
            then process_onclick k v name on_click else Ok on_click);
      process_clicks name items' oc
  end.

(** [if parent:] *)
Definition parent_given (parent : option string) : option string :=
  match parent with
  | Some p => if decide (p = "") then None else Some p
  | None => None
  end.

Definition process_module (name : string) (module : settings)
    (parent : option string) (st : locals) : result (settings * locals) :=
  base ← first_token name;
  let module := if decide (base = "group")
                then Py.dict_set "items" (VList []) module else module in
  '(module, st) ←
    match parent_given parent with
    | None => Ok (module, st)
    | Some p =>
        pm ← match modules st !! p with
             | Some pm => Ok pm | None => Raise (KeyError p) end;
        pitems ← match Py.dict_get "items" pm with
                 | Some (VList l) => Ok l
                 | Some _ => Raise (AttributeError "object has no attribute 'append'")
                 | None => Raise (KeyError "items")
                 end;
        let mods := <[p := Py.dict_set "items" (VList (pitems ++ [name])) pm]>
                      (modules st) in
        let mg := default [] (module_groups st !! name) in
        let groups := <[name := mg ++ [p]]> (module_groups st) in
        let extras := group_extras st ++ [name] in
        ty ← get_module_type name;
        let module := match ty with
                      | py3status => Py.dict_set ".group" (VStr p) module
                      | i3status => module
                      end in
        Ok (module, mk_locals mods (on_click st) (i3s_modules st)
                      (py3_modules st) groups extras (cfg st))
    end;
  oc ← process_clicks name module (on_click st);
  Ok (module, mk_locals (modules st) oc (i3s_modules st) (py3_modules st)
                (module_groups st) (group_extras st) (cfg st)).

(** [get_modules(data, parent)].  The loop runs over the dictionary as
    [process_module] leaves it: a key that it has overwritten ([items],
    [.group]) no longer holds a module and is passed over. *)
Fixpoint get_modules_at (k : string) (v : value) (parent : option string)
    (st : locals) : result locals :=
  match v with
  | VModule body =>
      '(module, st) ← process_module k body parent st;
      let st := mk_locals (<[k := module]> (modules st)) (on_click st)
                  (i3s_modules st) (py3_modules st) (module_groups st)
                  (group_extras st) (cfg st) in
      (fix loop (data : settings) (st : locals) : result locals :=
         match data with
         | [] => Ok st
         | (k', v') :: data' =>
             st ← (if from_option is_module false (Py.dict_get k' module)
                   then get_modules_at k' v' (Some k) st else Ok st);
             loop data' st
         end) body st
  | _ => Ok st
  end.

Fixpoint get_modules (data : settings) (parent : option string) (st : locals)
  : result locals :=
  match data with
  | [] => Ok st
  | (k, v) :: data' =>
      st ← get_modules_at k v parent st;
      get_modules data' parent st
  end.

Definition fix_module (module : settings) : settings :=
  filter (fun kv => negb (is_module kv.2)) module.

(** [config[key].append(name)] *)
Definition append_name (key name : string) (c : config) : result config :=
  l ← names_at key c;
  Ok (<[key := CNames (l ++ [name])]> c).

Definition update_config (name : string) (order : bool) (st : locals)
  : result locals :=
  let module := default [] (modules st !! name) in
  module_type ← get_module_type name;
  c ← (if order then append_name "order" name (cfg st)
       else match module_type with
            | i3status => append_name ".group_extras" name (cfg st)
            | py3status => Ok (cfg st)
            end);
  let i3s := match module_type with
             | i3status => {[name]} ∪ i3s_modules st
             | py3status => i3s_modules st end in
  let py3 := match module_type with
             | i3status => py3_modules st
             | py3status => {[name]} ∪ py3_modules st end in
  Ok (mk_locals (modules st) (on_click st) i3s py3 (module_groups st)
        (group_extras st) (<[name := CDict (fix_module module)]> c)).

Fixpoint update_configs (names : list string) (order : bool) (st : locals)
  : result locals :=
  match names with
  | [] => Ok st
  | name :: names' =>
      st ← update_config name order st;
      update_configs names' order st
  end.

(** The loop that gives every clock entry a format.  A key is changed on
    its own, whatever the order in which the keys come. *)
Definition default_format (name : string) (v : cval) : cval :=
  match v, head (Py.split name) with
  | CDict d, Some base =>
      if Py.inb base TIME_MODULES && negb (Py.dict_has "format" d)
      then CDict (Py.dict_set "format"
                    (VStr (if decide (base = "time")
                           then TIME_FORMAT else TZTIME_FORMAT)) d)
      else v
  | _, _ => v
  end.

Definition set_default_formats (c : config) : result config :=
  if bool_decide (map_Forall (fun name _ => Py.split name ≠ []) c)
  then Ok (map_imap (fun name v => Some (default_format name v)) c)
  else Raise (IndexError "list index out of range").

(** [clean_i3status_modules(key)]: [names] is the copy of [config[key]]
    that the loop runs over. *)
Fixpoint clean_loop (key : string) (names : list string) (c : config)
  : result config :=
  match names with
  | [] => Ok c
  | module_name :: names' =>
      if valid_config_param module_name true && negb (truthy (c !! module_name))
      then
        match c !! module_name with
        | None => Raise (KeyError module_name)
        | Some _ =>
            let c := delete module_name c in
            i3s ← names_at "i3s_modules" c;
            let c := if Py.inb module_name i3s
                     then <["i3s_modules" :=
                              CNames (default i3s (Py.list_remove module_name i3s))]> c
                     else c in
            l ← names_at key c;
            match Py.list_remove module_name l with
            | None => Raise (ValueError "list.remove(x): x not in list")
            | Some l' => clean_loop key names' (<[key := CNames l']> c)
            end
        end
      else clean_loop key names' c
  end.

(** What [for module_name in deepcopy(config[key])] goes through: the
    names of a list, the keys of a dictionary. *)
Definition copied_names (key : string) (c : config) : result (list string) :=
  match c !! key with
  | Some (CNames l) => Ok l
  | Some (CDict d) => Ok d.*1
  | Some (COnClick m) => Ok (elements (dom m))
  | Some (CGroups m) => Ok (elements (dom m))
  | None => Raise (KeyError key)
  end.

Definition clean_i3status_modules (key : string) (c : config) : result config :=
  names ← copied_names key c;
  clean_loop key names c.

(** The part of [i3status_config_reader] that comes before the cleanup,
    from the dictionary [config_info] that [parse_config] returns: sections
    are module definitions and [order] is a list of names (any other shape
    is made a [TypeError]). *)
Definition read_sections (config_info : settings) : result config :=
  general ← match Py.dict_get "general" config_info with
            | None => Ok general_defaults
            | Some (VModule g) => Ok (Py.dict_update g general_defaults)
            | Some _ => Raise (TypeError "general is not a section")
            end;
  let st := mk_locals ∅ ∅ ∅ ∅ ∅ [] (<["general" := CDict general]> ∅) in
  st ← get_modules config_info None st;
  let c := <[".group_extras" := CNames []]> (<["order" := CNames []]> (cfg st)) in
  let st := mk_locals (modules st) (on_click st) (i3s_modules st)
              (py3_modules st) (module_groups st) (group_extras st) c in
  order ← match Py.dict_get "order" config_info with
          | Some (VList l) => Ok l
          | Some _ => Raise (TypeError "order is not a list")
          | None => Raise (KeyError "order")
          end;
  st ← update_configs order true st;
  st ← update_configs (group_extras st) false st;
  let c := <[".module_groups" := CGroups (module_groups st)]>
           (<["py3_modules" := CNames (Py.sorted (elements (py3_modules st)))]>
           (<["i3s_modules" := CNames (Py.sorted (elements (i3s_modules st)))]>
           (<["on_click" := COnClick (on_click st)]> (cfg st)))) in
  set_default_formats c.

Definition i3status_config_reader (config_info : settings) : result config :=
  c ← read_sections config_info;
  c ← clean_i3status_modules "order" c;
  clean_i3status_modules ".group_extras" c.

End Reader.

(** ** class I3status: the configuration file of the child *)
Module Emitter.

(** [repr(value)], as it shows inside a container. *)
Fixpoint repr_value (v : value) : string :=
  match v with
  | VStr s => Py.repr s
  | VBool b => if b then "True" else "False"
  | VInt n => Py.str_of_int n
  | VList l => "[" +:+ Py.join ", " (Py.repr <$> l) +:+ "]"
  | VModule [] => "ModuleDefinition()"
  | VModule body =>
      "ModuleDefinition(["
      +:+ Py.join ", "
            ((fix go (d : settings) : list string :=
                match d with
                | [] => []
                | (k, v') :: d' =>
                    ("(" +:+ Py.repr k +:+ ", " +:+ repr_value v' +:+ ")") :: go d'
                end) body)
      +:+ "])"
  end.

(** ['%s' % value] *)
Definition str_of_value (v : value) : string :=
  match v with
  | VStr s => s
  | _ => repr_value v
  end.

(** The file written so far. *)
Definition write_in_tmpfile (text : string) : stateM string unit :=
  modify (fun tmpfile => tmpfile +:+ text).

(** The body of the loop over [conf.items()]. *)
Definition write_setting (section_name key : string) (v : value)
  : stateM string unit :=
  base ← lift (first_token section_name);
  let v := if Py.inb base TIME_MODULES && bool_decide (key = "format")
           then VStr TZTIME_FORMAT else v in
  let text := match v with
              | VBool b => if b then "true" else "false"
              | _ => str_of_value v
              end in
  write_in_tmpfile ("    " +:+ key +:+ " = " +:+ Py.dquote +:+ text
                    +:+ Py.dquote +:+ Py.newline).

Fixpoint write_settings (section_name : string) (conf : settings)
  : stateM string unit :=
  match conf with
  | [] => mret tt
  | (key, v) :: conf' =>
      write_setting section_name key v;; write_settings section_name conf'
  end.

Definition order_line (module_name : string) : string :=
  "order += " +:+ Py.dquote +:+ module_name +:+ Py.dquote +:+ Py.newline.

Fixpoint write_order (conf : list string) : stateM string unit :=
  match conf with
  | [] => mret tt
  | module_name :: conf' =>
      (if valid_config_param module_name false
       then write_in_tmpfile (order_line module_name) else mret tt);;
      write_order conf'
  end.

(** What a [for] loop over the value goes through. *)
Definition iterate (v : cval) : list string :=
  match v with
  | CNames l => l
  | CDict d => d.*1
  | COnClick m => elements (dom m)
  | CGroups m => elements (dom m)
  end.

(** The body of the loop over [sorted(self.config.items())]. *)
Definition write_section (section_name : string) (conf : cval)
  : stateM string unit :=
  if Py.inb section_name ["order"; "py3_modules"; ".group_extras"; ".module_groups"]
  then mret tt
  else if decide (section_name = "i3s_modules")
  then write_order (iterate conf);; write_in_tmpfile Py.newline
  else if valid_config_param section_name false && truthy (Some conf)
  then
    match conf with
    | CDict d =>
        write_in_tmpfile (section_name +:+ " {" +:+ Py.newline);;
        write_settings section_name d;;
        write_in_tmpfile ("}" +:+ Py.newline +:+ Py.newline)
    | _ =>
        write_in_tmpfile (section_name +:+ " {" +:+ Py.newline);;
        raise (AttributeError "'list' object has no attribute 'items'")
    end
  else mret tt.

Fixpoint write_sections (l : list (string * cval)) : stateM string unit :=
  match l with
  | [] => mret tt
  | (section_name, conf) :: l' =>
      write_section section_name conf;; write_sections l'
  end.

Definition write_tmp_i3status_config (c : config) : stateM string unit :=
  write_sections (Py.sorted_items (map_to_list c)).

End Emitter.

(** ** class I3status: the responses and the loop *)
Module Supervisor.
Import Clock.

(** What the collaborators see: the lines handed to [print_line] and the
    names handed to [notify_update], in the order of the calls. *)
Inductive event : Type :=
  | EPrint (line : string)
  | ENotify (names : list string).

Record I3status : Type := mk_I3status {
  error : option exn;
  i3modules : gmap string I3statusModule;
  json_list : option (list (gmap string jvalue));
  last_output : option (list (gmap string jvalue));
  last_prefix : option string;
  ready : bool;
  conf : config;
  events : list event
}.

Definition emit (e : event) : stateM I3status unit :=
  modify (fun s => mk_I3status (error s) (i3modules s) (json_list s)
                     (last_output s) (last_prefix s) (ready s) (conf s)
                     (events s ++ [e])).

(** Modelled from the spec: the helper [print_line] of [py3status.helpers]
    is the output sink; the line that it receives is recorded. *)
Definition print_line (line : string) : stateM I3status unit :=
  emit (EPrint line).

(** Modelled from the spec: [py3_wrapper.notify_update], the notifier,
    receives the names of the entries that have changed; they are
    recorded. *)
Definition notify_update (names : list string) : stateM I3status unit :=
  emit (ENotify names).

Definition set_i3module (name : string) (m : I3statusModule)
  : stateM I3status unit :=
  modify (fun s => mk_I3status (error s) (<[name := m]> (i3modules s))
                     (json_list s) (last_output s) (last_prefix s) (ready s)
                     (conf s) (events s)).

Definition set_last (output : list (gmap string jvalue)) (prefix : string)
  : stateM I3status unit :=
  modify (fun s => mk_I3status (error s) (i3modules s) (json_list s)
                     (Some output) (Some prefix) (ready s) (conf s) (events s)).

Definition set_ready : stateM I3status unit :=
  modify (fun s => mk_I3status (error s) (i3modules s) (json_list s)
                     (last_output s) (last_prefix s) true (conf s) (events s)).

Definition set_error (e : exn) (s : I3status) : I3status :=
  mk_I3status (Some e) (i3modules s) (json_list s) (last_output s)
    (last_prefix s) (ready s) (conf s) (events s).

(** [self.json_list = deepcopy(self.last_output)] *)
Definition update_json_list : stateM I3status unit :=
  modify (fun s => mk_I3status (error s) (i3modules s) (last_output s)
                     (last_output s) (last_prefix s) (ready s) (conf s)
                     (events s)).

(** The body of the loop of [set_responses] at one index: [Ok true] when
    the entry has changed. *)
Definition set_response (w : wall) (index : nat) (i : gmap string jvalue)
  : stateM I3status (string * bool) :=
  s ← get;
  names ← lift (names_at "i3s_modules" (conf s));
  conf_name ← lift (match names !! index with
                    | Some n => Ok n
                    | None => Raise (IndexError "list index out of range")
                    end);
  m ← match i3modules s !! conf_name with
      | Some m => mret m
      | None =>
          m ← lift (Clock.init conf_name (conf s));
          set_i3module conf_name m;; mret m
      end;
  let '(m', r) := update_from_item w i m in
  set_i3module conf_name m';;
  changed ← lift r;
  mret (conf_name, changed).

Fixpoint set_responses_loop (w : wall) (index : nat)
    (l : list (gmap string jvalue)) (updates : list string)
  : stateM I3status (list string) :=
  match l with
  | [] => mret updates
  | i :: l' =>
      '(conf_name, changed) ← set_response w index i;
      set_responses_loop w (S index) l'
        (if changed : bool then updates ++ [conf_name] else updates)
  end.

Definition set_responses (w : wall) : stateM I3status unit :=
  update_json_list;;
  s ← get;
  l ← lift (match json_list s with
            | Some l => Ok l
            | None => Raise (TypeError "'NoneType' object is not iterable")
            end);
  updates ← set_responses_loop w 0 l [];
  notify_update updates.

(** [update_times].  [values] is the order in which the dictionary
    [self.i3modules] yields its entries, which the code does not fix; an
    entry is changed where it is, under its key. *)
Section update_times.
Variable values : gmap string I3statusModule -> list (string * I3statusModule).

Fixpoint update_times_loop (w : wall) (l : list (string * I3statusModule))
    (updated : list string) : stateM I3status (list string) :=
  match l with
  | [] => mret updated
  | (key, module) :: l' =>
      if is_time_module module
      then
        let '(module', r) := update_time_value w module in
        set_i3module key module';;
        changed ← lift r;
        update_times_loop w l'
          (if changed : bool then updated ++ [module_name module] else updated)
      else update_times_loop w l' updated
  end.

Definition update_times (w : wall) : stateM I3status unit :=
  s ← get;
  updated ← update_times_loop w (values (i3modules s)) [];
  if bool_decide (updated = []) then mret tt else notify_update updated.
End update_times.

(** One turn of the loop of [run]: what the two readers and [poll] give,
    and the clock at that moment.  An empty [line] or [err] stands for a
    reader that has nothing. *)
Record cycle : Type := mk_cycle {
  lock_is_set : bool;
  line : string;
  err : string;
  poll : option Z;
  clock : wall
}.

Section run.
(** The JSON codec: [loads] on the text of a frame and on a header, and
    [dumps] of a header. *)
Variable loads : string -> result (list (gmap string jvalue)).
Variable loads_header : string -> result (gmap string jvalue).
Variable dumps : gmap string jvalue -> string.

(** Modelled from the spec: the helper [jsonify] of [py3status.helpers],
    which strips the leading separator of a continuation frame and decodes
    the remaining JSON array. *)
Definition jsonify (s : string)
  : result (string * list (gmap string jvalue)) :=
  match s with
  | String "," rest => l ← loads rest; Ok (",", l)
  | _ => l ← loads s; Ok ("", l)
  end.

Definition died (code : Z) (err : string) : string :=
  "i3status died"
  +:+ (if decide (err = "") then " with code " +:+ Py.str_of_int code
       else " and said: " +:+ err).

(** The body of [while self.lock.is_set()]. *)
Definition run_step (c : cycle) : stateM I3status unit :=
  if negb (bool_decide (line c = ""))
  then
    if Py.startswith "[{" (line c)
    then
      print_line (line c);;
      '(prefix, json_list) ← lift (jsonify (line c));
      set_last json_list ",";;
      set_responses (clock c);;
      set_ready
    else if negb (Py.startswith "," (line c))
    then
      l ← (if Py.contains "version" (line c)
           then header ← lift (loads_header (line c));
                mret (dumps (<["click_events" := JBool true]> header))
           else mret (line c));
      print_line l
    else
      '(prefix, json_list) ← lift (jsonify (line c));
      set_last json_list prefix;;
      set_responses (clock c)
  else
    match poll c with
    | Some code => raise (IOError (died code (err c)))
    | None => mret tt
    end.

Fixpoint run_loop (cycles : list cycle) : stateM I3status unit :=
  match cycles with
  | [] => mret tt
  | c :: cycles' =>
      if lock_is_set c then run_step c;; run_loop cycles' else mret tt
  end.

(** [run], on the turns that the loop goes through: the configuration
    file is written, then the loop runs; an [IOError] ends it and is
    stored, any other exception leaves [run]. *)
Definition run (cycles : list cycle) (s : I3status)
  : (string * I3status) * result unit :=
  match Emitter.write_tmp_i3status_config (conf s) "" with
  | (tmpfile, Raise e) => ((tmpfile, s), Raise e)
  | (tmpfile, Ok _) =>
      match run_loop cycles s with
      | (s', Raise e) =>
          if is_IOError e then ((tmpfile, set_error e s'), Ok tt)
          else ((tmpfile, s'), Raise e)
      | (s', Ok _) => ((tmpfile, s'), Ok tt)
      end
  end.
End run.

(** [mock]: the three lines of an empty bar are printed and an empty
    snapshot is stored. *)
Definition mock : stateM I3status unit :=
  print_line ("{" +:+ Py.dquote +:+ "click_events" +:+ Py.dquote +:+ ": true, "
              +:+ Py.dquote +:+ "version" +:+ Py.dquote +:+ ": 1}");;
  print_line "[";;
  print_line "[]";;
  modify (fun s => mk_I3status (error s) (i3modules s) (json_list s)
                     (Some []) (Some ",") (ready s) (conf s) (events s));;
  update_json_list.

(** [I3status(py3_wrapper)] *)
Definition init (c : config) : I3status :=
  mk_I3status None ∅ None None None false c [].

End Supervisor.

(** ** The vocabulary of the properties

    What the statements below speak of beside the code: the text that the
    file format of the child prescribes, a few measures on lists and
    configurations, and the data of the examples. *)

(** *** Clock entries *)

(** The wire text of the example of the inference. *)
Definition wire_text : string := "2024-03-01 10:00:00 ZZZ".

(** What cannot be read as [YYYY-MM-DD HH:MM:SS ZONE]: fewer than three
    tokens, or two first tokens that [strptime] refuses. *)
Definition unparsable (s : string) : Prop :=
  match Py.split s !! 2%nat with
  | None => True
  | Some _ =>
      exists e, Py.strptime (Py.join " " (take 2 (Py.split s))) TIME_FORMAT = Raise e
  end.

(** The instant that a clock entry shows at a reading of the clock, counted
    as the seconds of a civil time: the time in UTC moved by the offset of
    the zone of the entry or, without a zone, by the offset of the zone of
    the machine. *)
Definition shown_instant (w : wall) (m : Clock.I3statusModule) : Z :=
  time w + match Clock.tz m with
           | Some z => Clock._offset z
           | None => utc_offset w
           end.

(** The name and the offset of the zone of the entry. *)
Definition shown_zone (m : Clock.I3statusModule) : option (string * Z) :=
  match Clock.tz m with
  | Some z => Some (Clock._name z, Clock._offset z)
  | None => None
  end.

(** The text that a clock entry shows in the format [f]. *)
Definition shown_text (w : wall) (m : Clock.I3statusModule) (f : string) : string :=
  Py.strftime f (Py.of_timestamp (shown_instant w m)) (shown_zone m).

(** *** The configuration *)

(** The handler bound to a button of a name in the click table. *)
Definition click (name : string) (button : Z)
    (on_click : gmap string (gmap Z value)) : option value :=
  on_click !! name ≫= fun clicks => clicks !! button.

(** How many times a name occurs in a list. *)
Fixpoint cnt (x : string) (l : list string) : nat :=
  match l with
  | [] => 0
  | y :: l' => (if decide (y = x) then 1 else 0) + cnt x l'
  end.

(** The configuration after the cleanup loop over [config[key]] has
    dropped [m]. *)
Definition dropped (key m : string) (c : config) : config :=
  <[key := CNames (default (names_of key c) (Py.list_remove m (names_of key c)))]>
    (<["i3s_modules" :=
         CNames (default (names_of "i3s_modules" c)
                   (Py.list_remove m (names_of "i3s_modules" c)))]>
       (delete m c)).

(** The first words of the entries that the cleanup always keeps. *)
Definition kept_words : list string :=
  ["time"; "load"; "cpu_usage"; "ddate"; "ipv6"].

(** The names that get an [order] line in the file of the child. *)
Definition ordered_names (c : config) : list string :=
  filter (fun n => valid_config_param n false = true) (names_of "i3s_modules" c).

(** The configuration of a run of the reader that succeeds. *)
Definition the_config (r : result config) : config :=
  match r with Ok c => c | Raise _ => ∅ end.

(** Whether the reader has returned a configuration. *)
Definition succeeded (r : result config) : bool :=
  match r with Ok _ => true | Raise _ => false end.

(** *** The file of the child *)

(** The text before the first occurrence of [sep]. *)
Fixpoint before (sep : ascii) (s : string) : string :=
  match s with
  | EmptyString => ""
  | String a s' => if decide (a = sep) then "" else String a (before sep s')
  end.

(** No white space in a word. *)
Fixpoint nospace (w : string) : bool :=
  match w with
  | EmptyString => true
  | String a w' => negb (Py.isspace a) && nospace w'
  end.

(** The text of a value between the quotes: booleans in lower case. *)
Definition value_text (v : value) : string :=
  match v with
  | VBool true => "true"
  | VBool false => "false"
  | _ => Emitter.str_of_value v
  end.

(** One line of a block: the key, and the text between quotes. *)
Definition setting_line (key text : string) : string :=
  "    " +:+ key +:+ " = " +:+ Py.dquote +:+ text +:+ Py.dquote +:+ Py.newline.

(** The lines of a section: the [format] of a clock entry is the fixed one. *)
Definition setting_text (section_name key : string) (v : value) : string :=
  if Py.inb (first_word section_name) TIME_MODULES && bool_decide (key = "format")
  then setting_line key TZTIME_FORMAT
  else setting_line key (value_text v).

(** The lines of a block. *)
Fixpoint settings_text (section_name : string) (d : settings) : string :=
  match d with
  | [] => ""
  | (key, v) :: d' => setting_text section_name key v +:+ settings_text section_name d'
  end.

(** A block: the name, the lines between braces, an empty line. *)
Definition block (section_name : string) (d : settings) : string :=
  section_name +:+ " {" +:+ Py.newline +:+ settings_text section_name d
  +:+ "}" +:+ Py.newline +:+ Py.newline.

(** The block of an entry of the configuration; nothing for an entry that
    the child does not know, that has no settings, or that is one of the
    lists. *)
Definition block_of (kv : string * cval) : string :=
  match kv.2 with
  | CDict d =>
      if negb (Py.inb kv.1 ["order"; "py3_modules"; ".group_extras"; ".module_groups"])
         && negb (bool_decide (kv.1 = "i3s_modules"))
         && valid_config_param kv.1 false && negb (bool_decide (d = []))
      then block kv.1 d else ""
  | _ => ""
  end.

(** The blocks of a list of entries, one after the other. *)
Fixpoint blocks (l : list (string * cval)) : string :=
  match l with
  | [] => ""
  | kv :: l' => block_of kv +:+ blocks l'
  end.

(** The [order] lines: one for each native entry. *)
Fixpoint order_text (names : list string) : string :=
  match names with
  | [] => ""
  | n :: names' =>
      (if valid_config_param n false then Emitter.order_line n else "")
      +:+ order_text names'
  end.

(** Lines, one after the other. *)
Definition lines_text (lines : list string) : string :=
  foldr String.app "" lines.

(** The keys of the configuration that hold something else than the
    settings of a section. *)
Definition list_keys : list string :=
  ["order"; ".group_extras"; "i3s_modules"; "py3_modules"; ".module_groups";
   "on_click"].

(** The shape of a configuration that the reader has made: settings under
    every key but those. *)
Definition shaped (c : config) : Prop :=
  forall k v, c !! k = Some v -> (exists d, v = CDict d) \/ k ∈ list_keys.

(** An entry that gets a block holds settings, as every entry does that
    the reader has made. *)
Definition entry_ok (name : string) (v : cval) : bool :=
  match v with
  | CDict _ => true
  | _ => Py.inb name ["order"; "py3_modules"; ".group_extras"; ".module_groups"]
         || bool_decide (name = "i3s_modules")
         || negb (valid_config_param name false && truthy (Some v))
  end.

(** The strict lexicographic order of the names, and of the entries by
    their names. *)
Definition name_lt (a b : string) : Prop := String.le a b /\ a <> b.

Definition key_lt {V} (a b : string * V) : Prop := name_lt a.1 b.1.

(** *** The loop *)

(** The lines handed to [print_line] so far. *)
Definition printed (s : Supervisor.I3status) : list string :=
  omap (fun e => match e with
                 | Supervisor.EPrint l => Some l
                 | Supervisor.ENotify _ => None
                 end)
       (Supervisor.events s).

(** *** The data of the examples *)

(** A configuration as [parse_config] returns it: three entries in
    [order], of which one has settings. *)
Definition sample_info : settings :=
  [("order", VList ["tztime berlin"; "disk /"; "battery 0"]);
   ("battery 0", VModule [("format", VStr "%percentage")])].

(** The configuration that the reader makes of it. *)
Definition sample_config : config :=
  the_config (Reader.i3status_config_reader sample_info).

(** A codec for the runs in which no frame is decoded, as the decoder of
    the [json] module answers a text that is no JSON. *)
Definition no_frames : string -> result (list (gmap string jvalue)) :=
  fun _ => Raise (ValueError "No JSON object could be decoded").

Definition no_header : string -> result (gmap string jvalue) :=
  fun _ => Raise (ValueError "No JSON object could be decoded").

Definition no_dumps : gmap string jvalue -> string := fun _ => "".

(** A frame with one entry, whose text is [up], and a codec that knows
    this frame. *)
Definition sample_frame : string :=
  "[{" +:+ Py.dquote +:+ "full_text" +:+ Py.dquote +:+ ":" +:+ Py.dquote
  +:+ "up" +:+ Py.dquote +:+ "}]".

Definition sample_loads (s : string) : result (list (gmap string jvalue)) :=
  if decide (s = sample_frame) then Ok [{["full_text" := JStr "up"]}]
  else Raise (ValueError "No JSON object could be decoded").

(** *** The calendar *)

(** The month and the day of the [r]-th day of a year, counted from 0, as
    the last lines of [_ord2ymd] find them. *)
Definition year_day (leapyear : bool) (n : Z) : Z * Z :=
  let m := Z.shiftr (n + 50) 5 in
  let preceding := default 0 (Py.DAYS_BEFORE_MONTH !! Z.to_nat m)
                   + (if (2 <? m) && leapyear then 1 else 0) in
  if n <? preceding
  then
    let m' := m - 1 in
    let preceding' := preceding
      - (default 0 (Py.DAYS_IN_MONTH !! Z.to_nat m')
         + (if (m' =? 2) && leapyear then 1 else 0)) in
    (m', n - preceding' + 1)
  else (m, n - preceding + 1).

Definition year_day_ok (leapyear : bool) (n : Z) : bool :=
  let '(m, d) := year_day leapyear n in
  (1 <=? m) && (m <=? 12) && (1 <=? d)
  && (d <=? (if (m =? 2) && leapyear then 29
             else default 0 (Py.DAYS_IN_MONTH !! Z.to_nat m)))
  && (default 0 (Py.DAYS_BEFORE_MONTH !! Z.to_nat m)
      + (if (2 <? m) && leapyear then 1 else 0) + d =? n + 1).

(** The text that [strftime] writes for [TIME_FORMAT]. *)
Definition time_text (dt : Py.datetime) : string :=
  (Py.str_of_int (Py.year dt) +:+ "-" +:+ Py.pad2 (Py.month dt) +:+ "-"
   +:+ Py.pad2 (Py.day dt))
  +:+ " "
  +:+ (Py.pad2 (Py.hour dt) +:+ ":" +:+ Py.pad2 (Py.minute dt) +:+ ":"
       +:+ Py.pad2 (Py.second dt)).

(** A civil time whose fields are those of a date between the years 1000
    and 9999. *)
Definition civil (dt : Py.datetime) : Prop :=
  1000 <= Py.year dt <= 9999 /\ 1 <= Py.month dt <= 12
  /\ 1 <= Py.day dt <= Py.days_in_month (Py.year dt) (Py.month dt)
  /\ 0 <= Py.hour dt <= 23 /\ 0 <= Py.minute dt <= 59 /\ 0 <= Py.second dt <= 59.

(** *** The reader *)

(** What [get_modules] does not touch. *)
Definition kept_locals (st : Reader.locals)
  : config * gset string * gset string :=
  (Reader.cfg st, Reader.i3s_modules st, Reader.py3_modules st).

(** The names are put in the set of their kind. *)
Definition sets_by_kind (st : Reader.locals) : Prop :=
  (forall n, n ∈ Reader.i3s_modules st ->
             Reader.get_module_type n = Ok Reader.i3status)
  /\ (forall n, n ∈ Reader.py3_modules st ->
                Reader.get_module_type n = Ok Reader.py3status).

(** Settings that hold no nested module. *)
Definition plain (d : settings) : Prop :=
  Forall (fun kv => is_module kv.2 = false) d.

(** Every name of [order] that is not one of the keys of the lists has its
    settings, and they are plain. *)
Definition order_has_sections (c : config) : Prop :=
  forall n, n ∈ names_of "order" c -> n ∉ list_keys ->
            exists d, c !! n = Some (CDict d) /\ plain d.

(** *** The keys that the emitter reads *)

(** The keys of the configuration that the emitter looks at: the list of
    native names and the names that the child knows. *)
Definition emitted (k : string) : bool :=
  bool_decide (k = "i3s_modules") || valid_config_param k false.

(** *** The supervisor *)

(** The state with other entries. *)
Definition with_i3modules (M : gmap string Clock.I3statusModule)
    (s : Supervisor.I3status) : Supervisor.I3status :=
  Supervisor.mk_I3status (Supervisor.error s) M (Supervisor.json_list s)
    (Supervisor.last_output s) (Supervisor.last_prefix s) (Supervisor.ready s)
    (Supervisor.conf s) (Supervisor.events s).

(** *** The clocks between two snapshots *)

(** What [update_times] makes of an entry: a clock is formatted again. *)
Definition tick (w : wall) (m : Clock.I3statusModule) : Clock.I3statusModule :=
  if Clock.is_time_module m then (Clock.update_time_value w m).1 else m.

(** Whether an entry is a clock whose text has changed by it. *)
Definition ticked (w : wall) (m : Clock.I3statusModule) : bool :=
  Clock.is_time_module m
  && match (Clock.update_time_value w m).2 with Ok b => b | Raise _ => false end.

(** The names that [update_times] reports, of the entries in the order in
    which it meets them. *)
Definition ticked_names (w : wall) (l : list (string * Clock.I3statusModule))
  : list string :=
  (fun km => Clock.module_name km.2) <$> filter (fun km => ticked w km.2 = true) l.

(** *** The turns of the loop *)

(** The turns that the loop of [run] makes when nothing stops it: those
    before the lock is cleared. *)
Fixpoint turns (cycles : list Supervisor.cycle) : list Supervisor.cycle :=
  match cycles with
  | [] => []
  | c :: cycles' => if Supervisor.lock_is_set c then c :: turns cycles' else []
  end.

(** The line that a turn hands to [print_line]: a first frame as it is, a
    header with the click events switched on, any other line that is no
    continuation frame as it is. *)
Definition echoed (loads_header : string -> result (gmap string jvalue))
    (dumps : gmap string jvalue -> string) (c : Supervisor.cycle) : option string :=
  let l := Supervisor.line c in
  if bool_decide (l = "") then None
  else if Py.startswith "[{" l then Some l
  else if Py.startswith "," l then None
  else if Py.contains "version" l
  then match loads_header l with
       | Ok header => Some (dumps (<["click_events" := JBool true]> header))
       | Raise _ => None
       end
  else Some l.

(** The snapshot that the modules read is a copy of the last one decoded,
    and the flag [ready] is raised only once there is one. *)
Definition coherent (s : Supervisor.I3status) : Prop :=
  Supervisor.json_list s = Supervisor.last_output s
  /\ (is_Some (Supervisor.last_output s) <-> is_Some (Supervisor.last_prefix s))
  /\ (Supervisor.ready s = true -> is_Some (Supervisor.last_output s)).

(** The header that [mock] prints. *)
Definition mock_header : string :=
  "{" +:+ Py.dquote +:+ "click_events" +:+ Py.dquote +:+ ": true, "
  +:+ Py.dquote +:+ "version" +:+ Py.dquote +:+ ": 1}".

(** * Properties *)

(** ** Sanity checks of the Python primitives *)

Example split_ex : Py.split "  tztime   berlin " = ["tztime"; "berlin"].
Proof. reflexivity. Qed.

Example split_on_ex : Py.split_on " " "cpu_usage  x" = ["cpu_usage"; ""; "x"].
Proof. reflexivity. Qed.

Example int_ex : Py.int "+3" = Some 3 /\ Py.int "1_0" = Some 10
  /\ Py.int "_1" = None /\ Py.int "" = None /\ Py.int "-" = None /\ Py.int "03" = Some 3.
Proof. repeat split; reflexivity. Qed.

Example str_of_int_ex : Py.str_of_int 0 = "0" /\ Py.str_of_int (-15) = "-15" /\ Py.str_of_int 5 = "5".
Proof. repeat split; reflexivity. Qed.

Example replace_ex : Py.replace "%time" "%H" "a %time b %time" = "a %H b %H".
Proof. reflexivity. Qed.

Example repr_ex : Py.repr "x" = "'x'".
Proof. reflexivity. Qed.

Example ymd2ord_ex : Py.ymd2ord 1970 1 1 = 719163 /\ Py.ymd2ord 2024 3 1 = 738946.
Proof. split; reflexivity. Qed.

Example of_timestamp_ex :
  Py.of_timestamp 1709289000 = Py.mk_datetime 2024 3 1 10 30 0
  /\ Py.of_timestamp 951782399 = Py.mk_datetime 2000 2 28 23 59 59
  /\ Py.of_timestamp 951868800 = Py.mk_datetime 2000 3 1 0 0 0
  /\ Py.of_timestamp 1735689599 = Py.mk_datetime 2024 12 31 23 59 59
  /\ Py.of_timestamp (-1) = Py.mk_datetime 1969 12 31 23 59 59.
Proof. repeat split; reflexivity. Qed.

Example sorted_ex : Py.sorted ["time"; "battery 0"; "ipv6"; "i3s_modules"; "general"]
  = ["battery 0"; "general"; "i3s_modules"; "ipv6"; "time"].
Proof. reflexivity. Qed.

Example strptime_ex :
  Py.strptime "2024-03-01 10:00:00" "%Y-%m-%d %H:%M:%S"
    = Ok (Py.mk_datetime 2024 3 1 10 0 0)
  /\ Py.strptime "2024-3-1 9:5:7" "%Y-%m-%d %H:%M:%S"
    = Ok (Py.mk_datetime 2024 3 1 9 5 7)
  /\ Py.strptime "2024-02-30 10:00:00" "%Y-%m-%d %H:%M:%S"
    = Raise (ValueError "day is out of range for month")
  /\ Py.strptime "2024-03-01 10:00:65" "%Y-%m-%d %H:%M:%S"
    = Raise (ValueError "unconverted data remains: 5")
  /\ Py.strptime "10:00:00 ZZZ" "%Y-%m-%d %H:%M:%S"
    = Raise (ValueError "time data '10:00:00 ZZZ' does not match format '%Y-%m-%d %H:%M:%S'").
Proof. repeat split; reflexivity. Qed.

Example strftime_ex :
  Py.strftime "%Y-%m-%d %H:%M:%S %Z" (Py.mk_datetime 2024 3 1 9 5 7) (Some ("CET", 3600))
    = "2024-03-01 09:05:07 CET"
  /\ Py.strftime "%H:%M%z" (Py.mk_datetime 2024 3 1 9 5 7) (Some ("X", -1800)) = "09:05-0030".
Proof. split; reflexivity. Qed.

Example strftime_names_ex :
  Py.strftime "%a %d %b %Y, week %V, day %j, %I:%M %p, %z %Z"
    (Py.of_timestamp 1709289015) (Some ("CET", 3600))
    = "Fri 01 Mar 2024, week 09, day 061, 10:30 AM, +0100 CET"
  /\ Py.strftime "%A %e %B %G-W%V-%u %U %W %y %C %l%P|%z|%Z|%%"
       (Py.of_timestamp 1735689599) None
     = "Tuesday 31 December 2025-W01-2 52 53 24 20 11pm|||%"
  /\ Py.strftime "%z" (Py.of_timestamp 0) (Some ("NPT", 20715)) = "+054515".
Proof. repeat split; reflexivity. Qed.

Example covered_ex :
  Py.covered "%Y-%m-%d %H:%M:%S %Z" = true /\ Py.covered "%a %e %b, %l:%M %P" = true
  /\ Py.covered "%-d" = false /\ Py.covered "%Ey" = false
  /\ Py.covered "%s" = false /\ Py.covered "100%" = false.
Proof. repeat split; reflexivity. Qed.

(** ** The clock entries *)
Import Clock.

Ltac monad_unfold :=
  unfold mbind, mret, stateM_bind, stateM_ret, result_bind, result_ret,
    get, put, modify, raise, lift in *.

Lemma set_time_zone_ok (w : wall) (m : I3statusModule) (s label : string)
    (date utcnow a b : Py.datetime) :
  item m !! "full_text" = Some (JStr s) ->
  Py.split s !! 2%nat = Some label ->
  Py.strptime (Py.join " " (take 2 (Py.split s))) TIME_FORMAT = Ok date ->
  Py.of_timestamp (time w + utc_offset w) = utcnow ->
  Py.datetime_new (Py.year date) (Py.month date) (Py.day date)
    (Py.hour date) (Py.minute date) 0 = Ok a ->
  Py.datetime_new (Py.year utcnow) (Py.month utcnow) (Py.day utcnow)
    (Py.hour utcnow) (Py.minute utcnow) 0 = Ok b ->
  set_time_zone w m
  = (set_tz (Some (mk_Tz label (Py.datetime_sub a b))) m, Ok tt).
Proof.
  intros Hft Hlab Hdate Hnow Ha Hb.
  unfold set_time_zone, full_text, now. monad_unfold.
  rewrite Hft, Hlab, Hdate, Hnow, Ha, Hb. reflexivity.
Qed.

Lemma update_time_value_ok (w : wall) (m : I3statusModule) (f : string)
    (date : Py.datetime) (zone : option (string * Py.timedelta)) (old : jvalue) :
  now w (tz m) = Ok (date, zone) ->
  time_format m = VStr f ->
  item m !! "full_text" = Some old ->
  update_time_value w m
  = (if bool_decide (old ≠ JStr (Py.strftime f date zone))
     then set_item (<["full_text" := JStr (Py.strftime f date zone)]> (item m)) m
     else m,
     Ok (bool_decide (old ≠ JStr (Py.strftime f date zone)))).
Proof.
  intros Hnow Hf Hold.
  unfold update_time_value, full_text. monad_unfold.
  rewrite Hnow, Hf, Hold. 
  destruct (bool_decide _); reflexivity.
Qed.

(** *** Two-digit fields *)
Lemma pad2_length (n : Z) :
  0 <= n < 100 -> String.length (Py.pad2 n) = 2%nat.
Proof.
  intros Hn.
  assert (H : forallb (fun k => Nat.eqb (String.length (Py.pad2 (Z.of_nat k))) 2)
                (seq 0 100) = true) by (vm_compute; reflexivity).
  rewrite forallb_forall in H.
  specialize (H (Z.to_nat n)). rewrite Z2Nat.id in H by lia.
  apply Nat.eqb_eq, H, in_seq. lia.
Qed.

Lemma pad2_shape (n : Z) :
  0 <= n < 100 -> exists c1 c2, Py.pad2 n = String c1 (String c2 "").
Proof.
  intros Hn. pose proof (pad2_length n Hn) as H.
  destruct (Py.pad2 n) as [|c1 [|c2 [|]]]; try discriminate. eauto.
Qed.

Lemma pad2_inj (a b : Z) :
  0 <= a < 100 -> 0 <= b < 100 -> Py.pad2 a = Py.pad2 b -> a = b.
Proof.
  intros Ha Hb Heq.
  assert (H : forallb (fun x => forallb (fun y =>
                implb (String.eqb (Py.pad2 (Z.of_nat x)) (Py.pad2 (Z.of_nat y)))
                      (Nat.eqb x y)) (seq 0 100)) (seq 0 100) = true)
    by (vm_compute; reflexivity).
  rewrite forallb_forall in H.
  assert (Hina : In (Z.to_nat a) (seq 0 100)) by (apply in_seq; lia).
  assert (Hinb : In (Z.to_nat b) (seq 0 100)) by (apply in_seq; lia).
  specialize (H _ Hina). rewrite forallb_forall in H.
  specialize (H _ Hinb). rewrite !Z2Nat.id in H by lia.
  rewrite Heq, String.eqb_refl in H. simpl in H.
  apply Nat.eqb_eq in H. lia.
Qed.

Lemma append_empty_r (s : string) : s +:+ "" = s.
Proof.
  induction s as [|a s IH]; [reflexivity|].
  change (String a (s +:+ "") = String a s). by rewrite IH.
Qed.

Lemma append_assoc (s1 s2 s3 : string) :
  (s1 +:+ s2) +:+ s3 = s1 +:+ (s2 +:+ s3).
Proof.
  induction s1 as [|a s1 IH]; [reflexivity|].
  change (String a ((s1 +:+ s2) +:+ s3) = String a (s1 +:+ s2 +:+ s3)).
  by rewrite IH.
Qed.

(** Whether a character is that of a conversion depends neither on the
    date nor on the zone: [Py.covered] may ask it of any of them. *)
Lemma conversion_is_Some (c : ascii) (dt dt' : Py.datetime) zone zone' :
  is_Some (Py.conversion c dt zone) -> is_Some (Py.conversion c dt' zone').
Proof.
  unfold Py.conversion. cbv zeta.
  repeat (destruct (decide _); [intros _; eexists; reflexivity|]).
  by intros [? ?].
Qed.

Lemma strftime_HM (dt : Py.datetime) zone :
  Py.strftime "%H:%M" dt zone
  = Py.pad2 (Py.hour dt) +:+ ":" +:+ Py.pad2 (Py.minute dt).
Proof.
  change (Py.strftime "%H:%M" dt zone)
    with (Py.pad2 (Py.hour dt) +:+ String ":" (Py.pad2 (Py.minute dt) +:+ "")).
  rewrite append_empty_r. reflexivity.
Qed.

Lemma hour_of_timestamp (t : Z) :
  Py.hour (Py.of_timestamp t) = t mod 86400 / 3600.
Proof. unfold Py.of_timestamp. destruct (Py.ord2ymd _) as [[y m] d]. reflexivity. Qed.

Lemma minute_of_timestamp (t : Z) :
  Py.minute (Py.of_timestamp t) = t mod 86400 mod 3600 / 60.
Proof. unfold Py.of_timestamp. destruct (Py.ord2ymd _) as [[y m] d]. reflexivity. Qed.

Lemma minute_advances (t : Z) :
  (t + 60) mod 86400 mod 3600 / 60 <> t mod 86400 mod 3600 / 60.
Proof. Z.div_mod_to_equations. lia. Qed.

(** The text of a clock shown as [%H:%M]: two digits, a colon, two digits. *)
Lemma strftime_HM_shape (t : Z) zone :
  exists h1 h2 m1 m2,
    Py.strftime "%H:%M" (Py.of_timestamp t) zone
    = String h1 (String h2 (String ":" (String m1 (String m2 ""))))
    /\ Py.pad2 (t mod 86400 mod 3600 / 60) = String m1 (String m2 "").
Proof.
  rewrite strftime_HM, hour_of_timestamp, minute_of_timestamp.
  destruct (pad2_shape (t mod 86400 / 3600)) as (h1 & h2 & Hh).
  { Z.div_mod_to_equations. lia. }
  destruct (pad2_shape (t mod 86400 mod 3600 / 60)) as (m1 & m2 & Hm).
  { Z.div_mod_to_equations. lia. }
  exists h1, h2, m1, m2. rewrite Hh, Hm. split; reflexivity.
Qed.

Lemma strftime_HM_next_minute (t : Z) zone zone' :
  Py.strftime "%H:%M" (Py.of_timestamp (t + 60)) zone
  <> Py.strftime "%H:%M" (Py.of_timestamp t) zone'.
Proof.
  destruct (strftime_HM_shape (t + 60) zone) as (a1 & a2 & b1 & b2 & -> & Hb).
  destruct (strftime_HM_shape t zone') as (c1 & c2 & d1 & d2 & -> & Hd).
  intros Heq. injection Heq as -> -> -> ->.
  apply (minute_advances t). apply pad2_inj.
  - Z.div_mod_to_equations. lia.
  - Z.div_mod_to_equations. lia.
  - congruence.
Qed.

Lemma update_time_value_inv (w : wall) (m m' : I3statusModule) (b : bool) :
  update_time_value w m = (m', Ok b) ->
  exists f date zone old,
    time_format m = VStr f /\ now w (tz m) = Ok (date, zone)
    /\ item m !! "full_text" = Some old
    /\ b = bool_decide (old ≠ JStr (Py.strftime f date zone))
    /\ item m' !! "full_text" = Some (JStr (Py.strftime f date zone)).
Proof.
  unfold update_time_value, full_text. monad_unfold.
  destruct (now w (tz m)) as [[date zone]|e]; [|discriminate].
  destruct (time_format m) as [f| | | |]; try discriminate.
  destruct (item m !! "full_text") as [old|] eqn:Hold; [|discriminate].
  intros H. exists f, date, zone, old.
  destruct (bool_decide (old ≠ _)) eqn:Hb; injection H as <- <-.
  - repeat split; try reflexivity. cbn. apply lookup_insert_eq.
  - repeat split; try reflexivity.
    apply bool_decide_eq_false in Hb. rewrite Hold. f_equal.
    destruct (decide (old = JStr (Py.strftime f date zone))); [done|contradiction].
Qed.

Lemma now_zone (w : wall) (z : Tz) :
  -86400 < _offset z < 86400 ->
  now w (Some z) = Ok (Py.of_timestamp (time w + _offset z), Some (_name z, _offset z)).
Proof.
  intros Hr. unfold now, utcoffset, dst, tzname.
  replace ((-86400 <? _offset z) && (_offset z <? 86400)) with true
    by (symmetry; apply andb_true_iff; split; apply Z.ltb_lt; lia).
  do 3 f_equal. lia.
Qed.

(** What [update_time_value] does when it returns: it formats the instant
    of the clock in the zone of the entry, stores the text when it is not
    the one held, and answers whether it has stored it. *)
Lemma update_time_value_shown (w : wall) (m m' : I3statusModule) (b : bool) :
  update_time_value w m = (m', Ok b) ->
  exists f old,
    time_format m = VStr f
    /\ item m !! "full_text" = Some old
    /\ (b = true <-> old <> JStr (shown_text w m f))
    /\ m' = (if b then set_item (<["full_text" := JStr (shown_text w m f)]> (item m)) m
            else m).
Proof.
  unfold update_time_value, full_text, shown_text, shown_instant, shown_zone.
  monad_unfold.
  destruct (now w (tz m)) as [[date zone]|e] eqn:Hn; [|discriminate].
  assert (Hd : date = Py.of_timestamp
                        (time w + match tz m with
                                  | Some z => _offset z | None => utc_offset w end)
               /\ zone = match tz m with
                         | Some z => Some (_name z, _offset z) | None => None end).
  { revert Hn. unfold now, utcoffset, dst, tzname. destruct (tz m) as [z|].
    - destruct (_ && _); [|discriminate]. intros [= <- <-]. split; [|reflexivity].
      f_equal. lia.
    - by intros [= <- <-]. }
  destruct Hd as [-> ->].
  destruct (time_format m) as [f| | | |]; try discriminate.
  destruct (item m !! "full_text") as [old|] eqn:Hold; [|discriminate].
  intros H. exists f, old. split; [reflexivity|]. split; [reflexivity|].
  destruct (bool_decide (old ≠ _)) eqn:Hb; injection H as <- <-.
  - split; [|reflexivity]. apply bool_decide_eq_true in Hb. by split.
  - split; [|reflexivity]. apply bool_decide_eq_false in Hb.
    split; [discriminate | intros ?; contradiction].
Qed.



(** The guard of [update_from_item] decides alone whether the zone is
    inferred again. *)
Lemma update_from_item_clock (w : wall) (i : gmap string jvalue) (m : I3statusModule) :
  is_time_module m = true ->
  update_from_item w i m
  = if time_zone_due w m
    then (set_time_zone w ≫= fun _ => update_time_value w) (set_item i m)
    else update_time_value w (set_item i m).
Proof.
  intros Htime. unfold update_from_item. monad_unfold. rewrite Htime.
  change (time_zone_due w (set_item i m)) with (time_zone_due w m).
  destruct (time_zone_due w m); reflexivity.
Qed.

(** C2.  The guard of [update_from_item] looks at the second of the clock,
    not at the time elapsed since the last inference.  A zone inferred at
    10:30:01 is inferred again from the snapshot that arrives one second
    later; it is not inferred again from the snapshot that arrives 119
    seconds later, on a full minute.  The comment of the source asks for an
    inference when a minute has passed. *)
Theorem C2_zone_inferred_again_by_the_second_of_the_clock :
  let m0 := mk_module "tztime berlin" true ∅ None (VStr "%H:%M") in
  let first : gmap string jvalue := {["full_text" := JStr "2024-03-01 10:00:01 AAA"]} in
  let second : gmap string jvalue := {["full_text" := JStr "2024-03-01 12:00:02 BBB"]} in
  let m1 := (update_from_item (mk_wall 1709289001 0) first m0).1 in
  tz m1 = Some (mk_Tz "AAA" (-1800))
  /\ time_zone_due (mk_wall 1709289002 0) m1 = true
  /\ tz (update_from_item (mk_wall 1709289002 0) second m1).1
     = Some (mk_Tz "BBB" 5400)
  /\ time_zone_due (mk_wall 1709289120 0) m1 = false
  /\ tz (update_from_item (mk_wall 1709289120 0) second m1).1
     = Some (mk_Tz "AAA" (-1800)).
Proof. vm_compute. repeat split; reflexivity. Qed.

Lemma datetime_new_raises y m d H M S e :
  Py.datetime_new y m d H M S = Raise e -> is_IOError e = false.
Proof.
  unfold Py.datetime_new.
  repeat (match goal with |- context [if ?b then _ else _] => destruct b end);
    intros E; inversion E; reflexivity.
Qed.

Lemma strptime_raises (data fmt : string) (e : exn) :
  Py.strptime data fmt = Raise e -> is_IOError e = false.
Proof.
  unfold Py.strptime.
  destruct (Py.compile_format false fmt) as [ps|]; [|intros E; inversion E; reflexivity].
  destruct (Py.match_pieces ps Py.default_fields data) as [[x [|c rest]]|].
  - apply datetime_new_raises.
  - intros E; inversion E; reflexivity.
  - intros E; inversion E; reflexivity.
Qed.

(** Against C3 as stated: on a first snapshot whose text has two tokens
    the update raises [IndexError]; on one whose first two tokens are no
    date it raises the [ValueError] of [strptime]. *)
Lemma C3_counterexample :
  let m := mk_module "time" true ∅ None (VStr "%H:%M") in
  let w := mk_wall 1709289015 0 in
  let short : gmap string jvalue := {["full_text" := JStr "10:00 ZZZ"]} in
  let odd : gmap string jvalue := {["full_text" := JStr "no time yet"]} in
  update_from_item w short m
    = (set_item short m, Raise (IndexError "list index out of range"))
  /\ update_from_item w odd m
    = (set_item odd m,
       Raise (ValueError "time data 'no time' does not match format '%Y-%m-%d %H:%M:%S'")).
Proof. vm_compute. split; reflexivity. Qed.

(** C3, amended.  When the wire text of a clock entry has fewer than three
    tokens, or first two tokens that [strptime] refuses, and the inference
    is due, [update_from_item] raises that error ([IndexError], or the
    [ValueError] of [strptime]; never the [IOError] that [run] catches): the
    entry then holds the raw snapshot entry and the zone inferred before, if
    any, is kept.  When the inference is not due, it is skipped: the zone
    is kept and the time is shown in it. *)
Theorem C3_unparsable_wire_text_raises_when_inference_is_due
    (w : wall) (m : I3statusModule) (i : gmap string jvalue) (s : string) :
  is_time_module m = true ->
  i !! "full_text" = Some (JStr s) ->
  unparsable s ->
  (time_zone_due w m = true ->
   exists e,
     update_from_item w i m = (set_item i m, Raise e)
     /\ match Py.split s !! 2%nat with
        | None => e = IndexError "list index out of range"
        | Some _ =>
            Py.strptime (Py.join " " (take 2 (Py.split s))) TIME_FORMAT = Raise e
        end
     /\ is_IOError e = false
     /\ tz (set_item i m) = tz m
     /\ item (set_item i m) = i)
  /\ (time_zone_due w m = false ->
      update_from_item w i m = update_time_value w (set_item i m)
      /\ tz (update_time_value w (set_item i m)).1 = tz m).
Proof.
  intros Htime Hi Hbad. split; intros Hdue.
  - rewrite update_from_item_clock, Hdue by exact Htime.
    unfold unparsable in Hbad.
    unfold set_time_zone, full_text. monad_unfold. cbn [item set_item].
    rewrite Hi.
    destruct (Py.split s !! 2%nat) as [label|] eqn:Hlab.
    + destruct Hbad as [e He]. exists e. rewrite He.
      repeat split; try reflexivity. eapply strptime_raises, He.
    + eexists. repeat split; reflexivity.
  - rewrite update_from_item_clock, Hdue by exact Htime. split; [reflexivity|].
    unfold update_time_value, full_text. monad_unfold.
    destruct (now w _) as [[date zone]|]; [|reflexivity].
    destruct (time_format _); try reflexivity.
    destruct (item _ !! "full_text"); [|reflexivity].
    destruct (bool_decide _); reflexivity.
Qed.

(** The hypotheses of C3 hold for the text [no time yet] on a fresh entry
    [time]. *)
Lemma C3_witness :
  (time_zone_due (mk_wall 1709289015 0)
     (mk_module "time" true ∅ None (VStr "%H:%M")) = true ->
   exists e,
     update_from_item (mk_wall 1709289015 0) {["full_text" := JStr "no time yet"]}
       (mk_module "time" true ∅ None (VStr "%H:%M"))
     = (set_item {["full_text" := JStr "no time yet"]}
          (mk_module "time" true ∅ None (VStr "%H:%M")), Raise e)
     /\ match Py.split "no time yet" !! 2%nat with
        | None => e = IndexError "list index out of range"
        | Some _ =>
            Py.strptime (Py.join " " (take 2 (Py.split "no time yet"))) TIME_FORMAT
            = Raise e
        end
     /\ is_IOError e = false
     /\ tz (set_item {["full_text" := JStr "no time yet"]}
              (mk_module "time" true ∅ None (VStr "%H:%M"))) = None
     /\ item (set_item {["full_text" := JStr "no time yet"]}
                (mk_module "time" true ∅ None (VStr "%H:%M")))
        = {["full_text" := JStr "no time yet"]})
  /\ (time_zone_due (mk_wall 1709289015 0)
        (mk_module "time" true ∅ None (VStr "%H:%M")) = false ->
      update_from_item (mk_wall 1709289015 0) {["full_text" := JStr "no time yet"]}
        (mk_module "time" true ∅ None (VStr "%H:%M"))
      = update_time_value (mk_wall 1709289015 0)
          (set_item {["full_text" := JStr "no time yet"]}
             (mk_module "time" true ∅ None (VStr "%H:%M")))
      /\ tz (update_time_value (mk_wall 1709289015 0)
               (set_item {["full_text" := JStr "no time yet"]}
                  (mk_module "time" true ∅ None (VStr "%H:%M")))).1 = None).
Proof.
  apply (C3_unparsable_wire_text_raises_when_inference_is_due
           (mk_wall 1709289015 0) (mk_module "time" true ∅ None (VStr "%H:%M"))
           {["full_text" := JStr "no time yet"]} "no time yet").
  - reflexivity.
  - reflexivity.
  - vm_compute. eexists. reflexivity.
Defined.

(** ** The reader of the configuration *)

Lemma startswith_app (p s : string) : Py.startswith p (p +:+ s) = true.
Proof.
  induction p as [|a p IH]; [reflexivity|].
  change (Py.startswith (String a p) (String a (p +:+ s)) = true).
  cbn [Py.startswith]. rewrite decide_True by reflexivity. exact IH.
Qed.

Lemma contains_prefix (g s : string) : Py.contains g (g +:+ s) = true.
Proof.
  destruct (g +:+ s) eqn:E; cbn [Py.contains]; rewrite <- E, startswith_app;
    reflexivity.
Qed.

Lemma contains_app_r (g a s : string) :
  Py.contains g s = true -> Py.contains g (a +:+ s) = true.
Proof.
  intros H. induction a as [|c a IH]; [exact H|].
  change (Py.contains g (String c (a +:+ s)) = true).
  cbn [Py.contains]. rewrite IH. apply orb_true_r.
Qed.

Lemma contains_self (g : string) : Py.contains g g = true.
Proof. rewrite <- (append_empty_r g) at 2. apply contains_prefix. Qed.

Lemma missing_button_names (g : string) :
  Py.contains g (Reader.missing_button g) = true.
Proof.
  unfold Reader.missing_button.
  repeat apply contains_app_r. apply contains_self.
Qed.

Lemma invalid_button_names (g e : string) :
  Py.contains g (Reader.invalid_button g e) = true.
Proof.
  unfold Reader.invalid_button.
  do 9 apply contains_app_r. apply contains_prefix.
Qed.

(** C7.  [process_onclick] reads the button from the token that follows
    [on_click] in the key.  Without such a token it raises an [IndexError],
    with a token that is no integer between 1 and 5 a [ValueError], and the
    message names the group or section in both cases.  With an integer
    between 1 and 5 the handler is bound to (name, button), whatever was
    bound there before, and no other binding changes. *)
Theorem C7_click_handler_button
    (key : string) (v : value) (group_name : string)
    (on_click : gmap string (gmap Z value)) :
  (Py.split key !! 1%nat = None ->
   exists msg,
     Reader.process_onclick key v group_name on_click = Raise (IndexError msg)
     /\ Py.contains group_name msg = true)
  /\ (forall tok,
        Py.split key !! 1%nat = Some tok ->
        (forall b, Py.int tok = Some b -> ~ 1 <= b <= 5) ->
        exists msg,
          Reader.process_onclick key v group_name on_click = Raise (ValueError msg)
          /\ Py.contains group_name msg = true)
  /\ (forall tok b,
        Py.split key !! 1%nat = Some tok ->
        Py.int tok = Some b ->
        1 <= b <= 5 ->
        exists on_click',
          Reader.process_onclick key v group_name on_click = Ok on_click'
          /\ click group_name b on_click' = Some v
          /\ forall name' b',
               (name', b') <> (group_name, b) ->
               click name' b' on_click' = click name' b' on_click).
Proof.
  unfold Reader.process_onclick, Reader.button_of.
  split; [|split].
  - intros ->. eexists. split; [reflexivity|]. apply missing_button_names.
  - intros tok -> Hbad. destruct (Py.int tok) as [b|].
    + specialize (Hbad b eq_refl).
      destruct ((1 <=? b) && (b <? 6)) eqn:E.
      * apply andb_true_iff in E as [?%Z.leb_le ?%Z.ltb_lt]. lia.
      * eexists. split; [reflexivity|]. apply invalid_button_names.
    + eexists. split; [reflexivity|]. apply invalid_button_names.
  - intros tok b -> -> Hb.
    assert ((1 <=? b) && (b <? 6) = true) as ->.
    { apply andb_true_iff. split; [apply Z.leb_le | apply Z.ltb_lt]; lia. }
    eexists. split; [reflexivity|]. split.
    + unfold click. rewrite lookup_insert_eq. cbn. apply lookup_insert_eq.
    + intros name' b' Hne. unfold click.
      destruct (decide (name' = group_name)) as [->|Hn].
      * rewrite lookup_insert_eq. cbn.
        rewrite lookup_insert_ne by congruence.
        destruct (on_click !! group_name); [reflexivity|]. cbn. apply lookup_empty.
      * rewrite lookup_insert_ne by congruence. reflexivity.
Qed.

Example process_onclick_ex :
  Reader.process_onclick "on_click" (VStr "exec xterm") "group disks" ∅
    = Raise (IndexError (Reader.missing_button "group disks"))
  /\ Reader.process_onclick "on_click 6" (VStr "exec xterm") "group disks" ∅
    = Raise (ValueError (Reader.invalid_button "group disks" "should be 1, 2, 3, 4 or 5"))
  /\ Reader.process_onclick "on_click left" (VStr "exec xterm") "group disks" ∅
    = Raise (ValueError (Reader.invalid_button "group disks"
               "invalid literal for int() with base 10: 'left'"))
  /\ click "group disks" 3
       (match Reader.process_onclick "on_click 3" (VStr "exec xterm") "group disks"
                {["group disks" := {[3 := VStr "exec old"]}]} with
        | Ok oc => oc | Raise _ => ∅ end)
     = Some (VStr "exec xterm").
Proof. vm_compute. repeat split; reflexivity. Qed.

(** *** The cleanup pass *)

Lemma cnt_zero (x : string) (l : list string) : cnt x l = 0%nat <-> x ∉ l.
Proof.
  induction l as [|y l IH]; cbn.
  - split; [intros _; apply not_elem_of_nil | reflexivity].
  - rewrite not_elem_of_cons. destruct (decide (y = x)) as [->|Hne]; cbn.
    + split; [discriminate | intros [? _]; congruence].
    + rewrite IH. split; [intros ?; split; [congruence|assumption] | intros [_ ?]; assumption].
Qed.

Lemma cnt_NoDup (x : string) (l : list string) : NoDup l -> (cnt x l <= 1)%nat.
Proof.
  induction 1 as [|y l Hy _ IH]; cbn; [lia|].
  destruct (decide (y = x)) as [->|]; [|lia].
  apply cnt_zero in Hy. lia.
Qed.

Lemma cnt_list_remove (m x : string) (l l' : list string) :
  Py.list_remove m l = Some l' ->
  (cnt x l = (if decide (m = x) then 1 else 0) + cnt x l')%nat.
Proof.
  revert l'. induction l as [|y l IH]; intros l'; cbn; [discriminate|].
  destruct (decide (y = m)) as [->|Hne].
  - intros [= ->]. destruct (decide (m = x)); reflexivity.
  - destruct (Py.list_remove m l) as [l0|]; [|discriminate].
    intros [= <-]. cbn. rewrite (IH l0 eq_refl).
    destruct (decide (y = x)), (decide (m = x)); lia.
Qed.

Lemma cnt_list_remove_default (m x : string) (l : list string) :
  (cnt x (default l (Py.list_remove m l)) <= cnt x l)%nat
  /\ (m <> x -> cnt x (default l (Py.list_remove m l)) = cnt x l)
  /\ ((cnt x l <= 1)%nat -> cnt m (default l (Py.list_remove m l)) = 0%nat
      \/ cnt m l = 0%nat \/ m <> x).
Proof.
  destruct (Py.list_remove m l) as [l'|] eqn:E; cbn.
  - pose proof (cnt_list_remove m x l l' E) as Hx.
    pose proof (cnt_list_remove m m l l' E) as Hm.
    rewrite decide_True in Hm by reflexivity.
    repeat split.
    + lia.
    + intros Hne. rewrite decide_False in Hx by exact Hne. lia.
    + intros Hle. destruct (decide (m = x)) as [->|]; [left; lia | right; right; assumption].
  - repeat split; try lia. intros _. destruct (decide (m = x)); [|tauto].
    right. left. clear -E. induction l as [|y l IH]; [reflexivity|].
    cbn in *. destruct (decide (y = m)); [discriminate|].
    destruct (Py.list_remove m l); [discriminate|]. cbn. apply IH. reflexivity.
Qed.

Lemma names_at_names_of (key : string) (c : config) (l : list string) :
  names_at key c = Ok l -> names_of key c = l.
Proof.
  unfold names_at, names_of. destruct (c !! key) as [[]|]; intros E; inversion E.
  reflexivity.
Qed.

Lemma valid_not_key (key n : string) :
  valid_config_param key true = false -> valid_config_param n true = true -> n <> key.
Proof. intros H1 H2 ->. congruence. Qed.

Section clean_loop.
Variable key : string.
Hypothesis key_not_module : valid_config_param key true = false.
Hypothesis key_not_i3s : key <> "i3s_modules".

Lemma clean_loop_cons (m : string) (names : list string) (c c' : config) :
  Reader.clean_loop key (m :: names) c = Ok c' ->
  (valid_config_param m true && negb (truthy (c !! m)) = false
   /\ Reader.clean_loop key names c = Ok c')
  \/ (valid_config_param m true = true /\ truthy (c !! m) = false
      /\ is_Some (c !! m)
      /\ is_Some (Py.list_remove m (names_of key c))
      /\ Reader.clean_loop key names (dropped key m c) = Ok c').
Proof.
  cbn [Reader.clean_loop].
  destruct (valid_config_param m true && negb (truthy (c !! m))) eqn:Hc;
    [|intros H; left; split; [reflexivity | exact H]].
  apply andb_true_iff in Hc as [Hv Ht]. apply negb_true_iff in Ht.
  destruct (c !! m) as [v|] eqn:Hm; [|discriminate].
  assert (Hmk : m <> key) by (eapply valid_not_key; eassumption).
  assert (Hmi : m <> "i3s_modules") by (intros ->; discriminate Hv).
  unfold mbind, result_bind.
  destruct (names_at "i3s_modules" (delete m c)) as [i3s|] eqn:Hi3s; [|discriminate].
  apply names_at_names_of in Hi3s as Hi3s'.
  assert (Hi : names_of "i3s_modules" c = i3s).
  { rewrite <- Hi3s'. unfold names_of. by rewrite lookup_delete_ne. }
  set (c1 := if Py.inb m i3s then _ else _).
  assert (Hc1 : c1 = <["i3s_modules" := CNames (default i3s (Py.list_remove m i3s))]>
                       (delete m c)).
  { subst c1. destruct (Py.inb m i3s) eqn:Hin; [reflexivity|].
    assert (Py.list_remove m i3s = None) as ->.
    { unfold Py.inb in Hin. apply bool_decide_eq_false in Hin.
      clear -Hin. induction i3s as [|y l IH]; [reflexivity|].
      apply not_elem_of_cons in Hin as [Hne Hin]. cbn.
      rewrite decide_False by congruence. rewrite IH by exact Hin. reflexivity. }
    cbn. symmetry. apply insert_id.
    unfold names_at in Hi3s. destruct (delete m c !! "i3s_modules") as [[]|];
      inversion Hi3s. reflexivity. }
  destruct (names_at key c1) as [l|] eqn:Hl; [|discriminate].
  apply names_at_names_of in Hl.
  assert (Hl' : names_of key c = l).
  { rewrite <- Hl, Hc1. unfold names_of.
    rewrite lookup_insert_ne by congruence. by rewrite lookup_delete_ne. }
  destruct (Py.list_remove m l) as [l'|] eqn:Hrm; [|discriminate].
  intros H. right. repeat split; try assumption; try (eexists; reflexivity).
  - rewrite Hl', Hrm. eexists. reflexivity.
  - unfold dropped. rewrite Hi, Hl', Hrm, <- Hc1. exact H.
Qed.

Lemma dropped_lookup (m x : string) (c : config) :
  m <> key -> m <> "i3s_modules" ->
  (dropped key m c !! m = None)
  /\ (x <> key -> x <> "i3s_modules" -> x <> m -> dropped key m c !! x = c !! x)
  /\ names_of key (dropped key m c)
     = default (names_of key c) (Py.list_remove m (names_of key c))
  /\ names_of "i3s_modules" (dropped key m c)
     = default (names_of "i3s_modules" c)
         (Py.list_remove m (names_of "i3s_modules" c)).
Proof.
  intros Hk Hi. unfold dropped. repeat split.
  - rewrite !lookup_insert_ne by congruence. apply lookup_delete_eq.
  - intros ? ? ?. rewrite !lookup_insert_ne by congruence.
    by rewrite lookup_delete_ne.
  - unfold names_of at 1. by rewrite lookup_insert_eq.
  - unfold names_of at 1. rewrite lookup_insert_ne by congruence.
    by rewrite lookup_insert_eq.
Qed.

(** A name that has no entry cannot be met by the loop. *)
Lemma clean_loop_absent (names : list string) (c c' : config) (n : string) :
  valid_config_param n true = true ->
  c !! n = None ->
  Reader.clean_loop key names c = Ok c' ->
  (n ∉ names) /\ c' !! n = None.
Proof.
  intros Hv. assert (Hnk : n <> key) by (eapply valid_not_key; eassumption).
  assert (Hni : n <> "i3s_modules") by (intros ->; discriminate Hv).
  revert c. induction names as [|m names IH]; intros c Hn H.
  - cbn in H. injection H as <-. split; [apply not_elem_of_nil | exact Hn].
  - apply clean_loop_cons in H as [[Hc H]|(Hmv & Hmt & Hms & _ & H)].
    + destruct (decide (m = n)) as [->|Hne].
      { rewrite Hv, Hn in Hc. discriminate. }
      destruct (IH c Hn H) as [? ?]. split; [|assumption].
      apply not_elem_of_cons. split; [congruence | assumption].
    + destruct (decide (m = n)) as [->|Hne].
      { rewrite Hn in Hms. destruct Hms; discriminate. }
      assert (Hmk : m <> key) by (eapply valid_not_key; eassumption).
      assert (Hmi : m <> "i3s_modules") by (intros ->; discriminate Hmv).
      destruct (dropped_lookup m n c Hmk Hmi) as (_ & Hx & _ & _).
      destruct (IH (dropped key m c)) as [? ?]; [|exact H|].
      { rewrite Hx by congruence. exact Hn. }
      split; [|assumption].
      apply not_elem_of_cons. split; [congruence | assumption].
Qed.

(** The loop only takes names away, and leaves alone the names that it
    does not go through. *)
Lemma clean_loop_frame (names : list string) (c c' : config) (x : string) :
  Reader.clean_loop key names c = Ok c' ->
  (cnt x (names_of key c') <= cnt x (names_of key c))%nat
  /\ (cnt x (names_of "i3s_modules" c') <= cnt x (names_of "i3s_modules" c))%nat
  /\ (x ∉ names ->
      cnt x (names_of key c') = cnt x (names_of key c)
      /\ cnt x (names_of "i3s_modules" c') = cnt x (names_of "i3s_modules" c)
      /\ (x <> key -> x <> "i3s_modules" -> c' !! x = c !! x))
  /\ (valid_config_param x true = false -> x <> key -> x <> "i3s_modules" ->
      c' !! x = c !! x).
Proof.
  revert c. induction names as [|m names IH]; intros c H.
  - cbn in H. injection H as <-.
    split; [lia|]. split; [lia|]. split; [intros _; repeat split; lia | reflexivity].
  - apply clean_loop_cons in H as [[Hc H]|(Hmv & Hmt & Hms & _ & H)].
    + destruct (IH c H) as (H1 & H2 & H3 & H4).
      split; [exact H1|]. split; [exact H2|]. split; [|exact H4].
      intros [? Hx]%not_elem_of_cons. apply H3; assumption.
    + assert (Hmk : m <> key) by (eapply valid_not_key; eassumption).
      assert (Hmi : m <> "i3s_modules") by (intros ->; discriminate Hmv).
      destruct (dropped_lookup m x c Hmk Hmi) as (_ & Hx & Hk & Hi).
      destruct (IH (dropped key m c) H) as (H1 & H2 & H3 & H4).
      rewrite Hk, Hi in *.
      destruct (cnt_list_remove_default m x (names_of key c)) as (Ka & Kb & _).
      destruct (cnt_list_remove_default m x (names_of "i3s_modules" c))
        as (Ia & Ib & _).
      split; [lia|]. split; [lia|]. split.
      * intros [Hne Hnin]%not_elem_of_cons.
        destruct (H3 Hnin) as (E1 & E2 & E3).
        split; [rewrite E1; apply Kb; congruence|].
        split; [rewrite E2; apply Ib; congruence|].
        intros ? ?. rewrite E3 by assumption. apply Hx; congruence.
      * intros Hxv ? ?. rewrite H4 by assumption. apply Hx; try assumption.
        intros ->. congruence.
Qed.

(** A name without settings that the loop goes through occurs once and is
    dropped. *)
Lemma clean_loop_removes (names : list string) (c c' : config) (n : string) :
  valid_config_param n true = true ->
  truthy (c !! n) = false ->
  n ∈ names ->
  Reader.clean_loop key names c = Ok c' ->
  cnt n names = 1%nat
  /\ c' !! n = None
  /\ (cnt n (names_of key c') + 1 = cnt n (names_of key c))%nat
  /\ (cnt n (names_of "i3s_modules" c')
      = cnt n (names_of "i3s_modules" c) - 1)%nat.
Proof.
  intros Hv. assert (Hnk : n <> key) by (eapply valid_not_key; eassumption).
  assert (Hni : n <> "i3s_modules") by (intros ->; discriminate Hv).
  revert c. induction names as [|m names IH]; intros c Ht Hin H.
  - by apply elem_of_nil in Hin.
  - apply clean_loop_cons in H as [[Hc H]|(Hmv & Hmt & Hms & Hrm & H)].
    + destruct (decide (m = n)) as [->|Hne].
      { rewrite Hv, Ht in Hc. discriminate. }
      apply elem_of_cons in Hin as [?|Hin]; [congruence|].
      destruct (IH c Ht Hin H) as (? & ? & ? & ?).
      cbn. rewrite decide_False by exact Hne. repeat split; assumption.
    + assert (Hmk : m <> key) by (eapply valid_not_key; eassumption).
      assert (Hmi : m <> "i3s_modules") by (intros ->; discriminate Hmv).
      destruct (dropped_lookup m n c Hmk Hmi) as (Hm & Hx & Hk & Hi).
      destruct (decide (m = n)) as [->|Hne].
      * destruct (clean_loop_absent names (dropped key n c) c' n Hv Hm H) as [Hnin Hc'].
        destruct (clean_loop_frame names (dropped key n c) c' n H) as (_ & _ & F & _).
        destruct (F Hnin) as (E1 & E2 & _). rewrite E1, E2, Hk, Hi.
        destruct Hrm as [l' Hrm]. rewrite Hrm. cbn [default].
        pose proof (cnt_list_remove n n _ _ Hrm) as K.
        rewrite decide_True in K by reflexivity.
        cbn. rewrite decide_True by reflexivity.
        apply cnt_zero in Hnin. repeat split; try assumption; try lia.
        destruct (Py.list_remove n (names_of "i3s_modules" c)) as [i'|] eqn:Ei; cbn.
        -- pose proof (cnt_list_remove n n _ _ Ei) as K'.
           rewrite decide_True in K' by reflexivity. lia.
        -- destruct (cnt_list_remove_default n n (names_of "i3s_modules" c))
             as (_ & _ & K').
           assert (cnt n (names_of "i3s_modules" c) = 0%nat); [|lia].
           clear -Ei. induction (names_of "i3s_modules" c) as [|y l IH];
             [reflexivity|]. cbn in *. destruct (decide (y = n)); [discriminate|].
           destruct (Py.list_remove n l); [discriminate|]. cbn. by apply IH.
      * apply elem_of_cons in Hin as [?|Hin]; [congruence|].
        destruct (IH (dropped key m c)) as (E0 & E1 & E2 & E3);
          [rewrite Hx by congruence; exact Ht | exact Hin | exact H |].
        rewrite Hk, Hi in *.
        destruct (cnt_list_remove_default m n (names_of key c)) as (_ & Kb & _).
        destruct (cnt_list_remove_default m n (names_of "i3s_modules" c))
          as (_ & Ib & _).
        rewrite Kb in E2 by exact Hne. rewrite Ib in E3 by exact Hne.
        cbn. rewrite decide_False by exact Hne. repeat split; assumption.
Qed.
End clean_loop.

(** Over a dictionary the loop can drop nothing: a turn that drops ends at
    [config[key].remove]. *)
Lemma clean_loop_not_list (key : string) (names : list string) (c c' : config) :
  key <> "i3s_modules" ->
  (forall l, c !! key <> Some (CNames l)) ->
  Reader.clean_loop key names c = Ok c' -> c' = c.
Proof.
  intros Hk Hl. induction names as [|m names IH]; cbn [Reader.clean_loop].
  - by intros [= <-].
  - destruct (valid_config_param m true && negb (truthy (c !! m))); [|exact IH].
    destruct (c !! m) as [v|]; [|discriminate].
    unfold mbind, result_bind.
    destruct (names_at "i3s_modules" (delete m c)) as [i3s|]; [|discriminate].
    set (c1 := if Py.inb m i3s then _ else _).
    assert (Hc1 : forall l, c1 !! key <> Some (CNames l)).
    { intros l. subst c1. destruct (Py.inb m i3s).
      - rewrite lookup_insert_ne by congruence.
        destruct (decide (m = key)) as [->|Hne];
          [by rewrite lookup_delete_eq | rewrite lookup_delete_ne by exact Hne; apply Hl].
      - destruct (decide (m = key)) as [->|Hne];
          [by rewrite lookup_delete_eq | rewrite lookup_delete_ne by exact Hne; apply Hl]. }
    unfold names_at. destruct (c1 !! key) as [[d|l|o|g]|]; try discriminate.
    by destruct (Hc1 l).
Qed.

Lemma clean_i3status_modules_inv (key : string) (c c' : config) :
  key <> "i3s_modules" ->
  Reader.clean_i3status_modules key c = Ok c' ->
  Reader.clean_loop key (names_of key c) c = Ok c'.
Proof.
  intros Hk. unfold Reader.clean_i3status_modules, Reader.copied_names, names_of,
    mbind, result_bind.
  destruct (c !! key) as [[d|l|o|g]|] eqn:E; try discriminate; try (by intros H);
    intros H; apply (clean_loop_not_list key _ c c' Hk) in H as ->;
    try reflexivity; intros l0; rewrite E; discriminate.
Qed.

Lemma sorted_NoDup (l : list string) : NoDup l -> NoDup (Py.sorted l).
Proof.
  intros H. unfold Py.sorted. by rewrite merge_sort_Permutation.
Qed.

Lemma set_default_formats_names (key : string) (c c' : config) (l : list string) :
  Reader.set_default_formats c = Ok c' ->
  c !! key = Some (CNames l) ->
  names_of key c' = l.
Proof.
  unfold Reader.set_default_formats. destruct (bool_decide _); [|discriminate].
  intros [= <-] Hl. unfold names_of.
  rewrite map_lookup_imap, Hl. reflexivity.
Qed.

(** The names of the native entries are listed once each. *)
Lemma read_sections_i3s_NoDup (config_info : settings) (c : config) :
  Reader.read_sections config_info = Ok c ->
  NoDup (names_of "i3s_modules" c).
Proof.
  unfold Reader.read_sections, mbind, result_bind. intros H.
  repeat lazymatch type of H with
         | match ?x with Ok _ => _ | Raise _ => _ end = Ok _ =>
             destruct x; [|discriminate H]
         end.
  erewrite set_default_formats_names; [|exact H|].
  2:{ rewrite !lookup_insert_ne by discriminate. apply lookup_insert_eq. }
  apply sorted_NoDup, NoDup_elements.
Qed.

(** Against C6 as stated: [tztime berlin] stands in [order] without any
    setting of the user and [tztime] is not one of the names always kept,
    yet the entry stays in [order] and among the native names, and the file
    of the child has its [order] line and its block: it has received the
    default format before the cleanup. *)
Lemma C6_counterexample :
  let config_info : settings := [("order", VList ["tztime berlin"; "disk /"])] in
  Py.dict_get "tztime berlin" config_info = None
  /\ valid_config_param "tztime berlin" true = true
  /\ match Reader.i3status_config_reader config_info with
     | Ok c =>
         names_of "order" c = ["tztime berlin"]
         /\ names_of "i3s_modules" c = ["tztime berlin"]
         /\ ordered_names c = ["tztime berlin"]
         /\ c !! "tztime berlin" = Some (CDict [("format", VStr TZTIME_FORMAT)])
         /\ Emitter.write_tmp_i3status_config c ""
            = (block "general" Reader.general_defaults
               +:+ Emitter.order_line "tztime berlin" +:+ Py.newline
               +:+ block "tztime berlin" [("format", VStr TZTIME_FORMAT)], Ok tt)
     | Raise _ => False
     end.
Proof. vm_compute. repeat split; reflexivity. Qed.

Lemma the_config_eq (r : result config) :
  succeeded r = true -> r = Ok (the_config r).
Proof. destruct r; [reflexivity | discriminate]. Qed.

(** ** The configuration file of the child *)

(** *** Section names *)

Lemma rev_app_rev_app (w a b : string) :
  String.rev_app (String.rev_app w a) b = String.rev_app a (w +:+ b).
Proof.
  revert a b. induction w as [|c w IH]; intros a b; [reflexivity|].
  cbn [String.rev_app]. rewrite IH. reflexivity.
Qed.

Lemma rev_rev_app (w a : string) :
  String.rev (String.rev_app w a) = String.rev a +:+ w.
Proof.
  unfold String.rev. rewrite rev_app_rev_app, append_empty_r.
  revert w. induction a as [|c a IH]; intros w; [reflexivity|].
  cbn [String.rev_app]. rewrite (IH (String c w)), (IH (String c "")).
  rewrite append_assoc. reflexivity.
Qed.

Lemma rev_app_append (s acc : string) :
  String.rev_app s acc = String.rev s +:+ acc.
Proof.
  unfold String.rev. revert acc. induction s as [|c s IH]; intros acc; [reflexivity|].
  cbn [String.rev_app]. rewrite (IH (String c acc)), (IH (String c "")).
  rewrite append_assoc. reflexivity.
Qed.

Lemma split_on_go_head (sep : ascii) (cur s : string) :
  head (Py.split_on_go sep cur s) = Some (String.rev cur +:+ before sep s).
Proof.
  revert cur. induction s as [|a s IH]; intros cur; cbn.
  - by rewrite append_empty_r.
  - destruct (decide (a = sep)); cbn.
    + by rewrite append_empty_r.
    + rewrite IH. f_equal. unfold String.rev at 1. cbn [String.rev_app].
      rewrite rev_app_append, append_assoc. reflexivity.
Qed.

Lemma first_word_before (name : string) : first_word name = before " " name.
Proof. unfold first_word, Py.split_on. by rewrite split_on_go_head. Qed.

Lemma before_spec (sep : ascii) (s : string) :
  s = before sep s \/ exists rest, s = before sep s +:+ String sep rest.
Proof.
  induction s as [|a s IH]; cbn; [by left|].
  destruct (decide (a = sep)) as [->|]; [right; by exists s|].
  destruct IH as [IH|[rest IH]].
  - left. congruence.
  - right. exists rest. change (String a s = String a (before sep s +:+ String sep rest)).
    congruence.
Qed.

Lemma split_go_word (w s : string) (cur : option string) :
  nospace w = true -> w <> "" ->
  Py.split_go cur (w +:+ s)
  = Py.split_go (Some (String.rev_app w (default "" cur))) s.
Proof.
  revert cur. induction w as [|a w IH]; intros cur Hn Hw; [congruence|].
  cbn in Hn. apply andb_true_iff in Hn as [Ha Hn]. apply negb_true_iff in Ha.
  change (String a w +:+ s) with (String a (w +:+ s)).
  cbn [Py.split_go]. rewrite Ha.
  destruct w as [|b w]; [reflexivity|].
  rewrite IH by (exact Hn || discriminate). reflexivity.
Qed.

Lemma first_token_word (w name : string) :
  nospace w = true -> w <> "" ->
  name = w \/ (exists rest, name = w +:+ String " " rest) ->
  first_token name = Ok w.
Proof.
  intros Hn Hw [->|[rest ->]]; unfold first_token, Py.split.
  - rewrite <- (append_empty_r w) at 1. rewrite split_go_word by assumption.
    cbn. rewrite rev_rev_app. reflexivity.
  - rewrite split_go_word by assumption. cbn. rewrite rev_rev_app. reflexivity.
Qed.

(** A name that the child knows starts with a token, its first word. *)
Lemma valid_first_token (name : string) (cleanup : bool) :
  valid_config_param name cleanup = true ->
  first_token name = Ok (first_word name).
Proof.
  intros Hv.
  assert (Hin : first_word name ∈ i3status_module_names ++ ["general"; "order"]).
  { unfold valid_config_param, Py.inb in Hv. apply bool_decide_eq_true in Hv.
    destruct cleanup; [|exact Hv].
    apply elem_of_app. left. by apply list_elem_of_filter in Hv as [_ ?]. }
  assert (Hall : Forall (fun w => nospace w = true /\ w <> "")
                   (i3status_module_names ++ ["general"; "order"])).
  { repeat constructor; discriminate. }
  rewrite Forall_forall in Hall. destruct (Hall _ Hin) as [Hn Hw].
  apply first_token_word; [exact Hn | exact Hw |].
  rewrite first_word_before. apply before_spec.
Qed.

(** *** The text of the file, as the file format has it *)

Lemma write_setting_text (section_name key : string) (v : value) (tmpfile : string) :
  valid_config_param section_name false = true ->
  Emitter.write_setting section_name key v tmpfile
  = (tmpfile +:+ setting_text section_name key v, Ok tt).
Proof.
  intros Hv. unfold Emitter.write_setting, Emitter.write_in_tmpfile, setting_text.
  monad_unfold. rewrite (valid_first_token _ _ Hv).
  destruct (Py.inb (first_word section_name) TIME_MODULES && bool_decide (key = "format")).
  - reflexivity.
  - destruct v as [| [|] | | |]; reflexivity.
Qed.

Lemma write_settings_text (section_name : string) (d : settings) (tmpfile : string) :
  valid_config_param section_name false = true ->
  Emitter.write_settings section_name d tmpfile
  = (tmpfile +:+ settings_text section_name d, Ok tt).
Proof.
  intros Hv. revert tmpfile. induction d as [|[key v] d IH]; intros tmpfile.
  - cbn. by rewrite append_empty_r.
  - cbn [Emitter.write_settings settings_text]. monad_unfold.
    rewrite write_setting_text by exact Hv. rewrite IH, append_assoc. reflexivity.
Qed.

Lemma write_order_text (names : list string) (tmpfile : string) :
  Emitter.write_order names tmpfile = (tmpfile +:+ order_text names, Ok tt).
Proof.
  revert tmpfile. induction names as [|n names IH]; intros tmpfile.
  - cbn. by rewrite append_empty_r.
  - cbn [Emitter.write_order order_text]. unfold Emitter.write_in_tmpfile.
    monad_unfold. destruct (valid_config_param n false).
    + rewrite IH, append_assoc. reflexivity.
    + rewrite IH. reflexivity.
Qed.

Lemma write_section_block (name : string) (v : cval) (tmpfile : string) :
  name <> "i3s_modules" ->
  entry_ok name v = true ->
  Emitter.write_section name v tmpfile = (tmpfile +:+ block_of (name, v), Ok tt).
Proof.
  intros Hn Hok. unfold Emitter.write_section, block_of. cbn [fst snd].
  destruct (Py.inb name _) eqn:Hsp.
  { cbn. destruct v; rewrite append_empty_r; reflexivity. }
  rewrite decide_False by exact Hn.
  rewrite (bool_decide_eq_false_2 _ Hn).
  destruct (valid_config_param name false) eqn:Hv; cbn.
  2:{ destruct v; rewrite append_empty_r; reflexivity. }
  destruct v as [d| | |].
  - cbn. destruct (bool_decide (d = [])); cbn.
    + by rewrite append_empty_r.
    + unfold Emitter.write_in_tmpfile, block. monad_unfold.
      rewrite write_settings_text by exact Hv.
      rewrite !append_assoc. reflexivity.
  - unfold entry_ok in Hok. rewrite Hsp, Hv, (bool_decide_eq_false_2 _ Hn) in Hok.
    cbn in Hok. apply negb_true_iff in Hok. cbn. rewrite Hok.
    cbn. by rewrite append_empty_r.
  - unfold entry_ok in Hok. rewrite Hsp, Hv, (bool_decide_eq_false_2 _ Hn) in Hok.
    cbn in Hok. apply negb_true_iff in Hok. cbn. rewrite Hok.
    cbn. by rewrite append_empty_r.
  - unfold entry_ok in Hok. rewrite Hsp, Hv, (bool_decide_eq_false_2 _ Hn) in Hok.
    cbn in Hok. apply negb_true_iff in Hok. cbn. rewrite Hok.
    cbn. by rewrite append_empty_r.
Qed.

Lemma write_section_order (names : list string) (tmpfile : string) :
  Emitter.write_section "i3s_modules" (CNames names) tmpfile
  = (tmpfile +:+ order_text names +:+ Py.newline, Ok tt).
Proof.
  unfold Emitter.write_section. cbn [Py.inb]. 
  change (Py.inb "i3s_modules" _) with false. cbn [Emitter.iterate].
  rewrite decide_True by reflexivity.
  unfold Emitter.write_in_tmpfile. monad_unfold.
  rewrite write_order_text, append_assoc. reflexivity.
Qed.

Lemma write_sections_blocks (l : list (string * cval)) (tmpfile : string) :
  Forall (fun kv => kv.1 <> "i3s_modules" /\ entry_ok kv.1 kv.2 = true) l ->
  Emitter.write_sections l tmpfile = (tmpfile +:+ blocks l, Ok tt).
Proof.
  intros H. revert tmpfile. induction H as [|[name v] l [Hn Hok] _ IH]; intros tmpfile.
  - cbn. by rewrite append_empty_r.
  - cbn [Emitter.write_sections blocks]. monad_unfold.
    rewrite write_section_block by assumption.
    rewrite IH, append_assoc. reflexivity.
Qed.

Lemma write_sections_app (l1 l2 : list (string * cval)) (tmpfile : string) :
  Emitter.write_sections (l1 ++ l2) tmpfile
  = match Emitter.write_sections l1 tmpfile with
    | (f, Ok _) => Emitter.write_sections l2 f
    | (f, Raise e) => (f, Raise e)
    end.
Proof.
  revert tmpfile. induction l1 as [|[name v] l1 IH]; intros tmpfile; [reflexivity|].
  cbn [app Emitter.write_sections]. monad_unfold.
  destruct (Emitter.write_section name v tmpfile) as [f [[]|e]]; [apply IH | reflexivity].
Qed.

(** *** The shape of the configuration that the reader makes *)

Lemma process_module_cfg (name : string) (module module' : settings)
    (parent : option string) (st st' : Reader.locals) :
  Reader.process_module name module parent st = Ok (module', st') ->
  Reader.cfg st' = Reader.cfg st.
Proof.
  unfold Reader.process_module, mbind, result_bind.
  destruct (first_token name); [|discriminate].
  destruct (Reader.parent_given parent) as [p|].
  - destruct (Reader.modules st !! p); [|discriminate].
    destruct (Py.dict_get "items" _) as [[]|]; try discriminate.
    destruct (Reader.get_module_type name); [|discriminate].
    cbn. destruct (Reader.process_clicks _ _ _); [|discriminate].
    by intros [= _ <-].
  - destruct (Reader.process_clicks _ _ _); [|discriminate].
    by intros [= _ <-].
Qed.

Lemma get_modules_at_cfg (v : value) :
  forall (k : string) (parent : option string) (st st' : Reader.locals),
    Reader.get_modules_at k v parent st = Ok st' ->
    Reader.cfg st' = Reader.cfg st.
Proof.
  revert v. fix IH 1. intros [s|b|n|l|body] k parent st st'; cbn;
    try (by intros [= <-]).
  unfold mbind, result_bind.
  destruct (Reader.process_module k body parent st) as [[module st1]|] eqn:Hp;
    [|discriminate].
  apply process_module_cfg in Hp.
  set (st2 := Reader.mk_locals _ _ _ _ _ _ _).
  assert (H2 : Reader.cfg st2 = Reader.cfg st) by exact Hp.
  clearbody st2. clear Hp st1. revert st2 H2.
  induction body as [|[k' v'] body IHb]; intros st2 H2.
  - by intros [= <-].
  - destruct (from_option is_module false (Py.dict_get k' module)).
    + destruct (Reader.get_modules_at k' v' (Some k) st2) as [st3|] eqn:H3;
        [|discriminate].
      apply IH in H3. apply IHb. congruence.
    + apply IHb. exact H2.
Qed.

Lemma get_modules_cfg (data : settings) (parent : option string)
    (st st' : Reader.locals) :
  Reader.get_modules data parent st = Ok st' ->
  Reader.cfg st' = Reader.cfg st.
Proof.
  revert st. induction data as [|[k v] data IH]; intros st; cbn.
  - by intros [= <-].
  - unfold mbind, result_bind.
    destruct (Reader.get_modules_at k v parent st) as [st1|] eqn:H1; [|discriminate].
    intros H. apply IH in H. apply get_modules_at_cfg in H1. congruence.
Qed.

Ltac in_list := apply (bool_decide_unpack _); vm_compute; exact I.

Lemma shaped_insert_dict (k : string) (d : settings) (c : config) :
  shaped c -> shaped (<[k := CDict d]> c).
Proof.
  intros H k' v. destruct (decide (k = k')) as [->|Hne].
  - rewrite lookup_insert_eq. intros [= <-]. left. by eexists.
  - rewrite lookup_insert_ne by exact Hne. apply H.
Qed.

Lemma shaped_insert_list (k : string) (v : cval) (c : config) :
  k ∈ list_keys -> shaped c -> shaped (<[k := v]> c).
Proof.
  intros Hk H k' v'. destruct (decide (k = k')) as [->|Hne].
  - rewrite lookup_insert_eq. intros [= <-]. by right.
  - rewrite lookup_insert_ne by exact Hne. apply H.
Qed.

Lemma shaped_delete (k : string) (c : config) :
  shaped c -> shaped (delete k c).
Proof.
  intros H k' v. destruct (decide (k = k')) as [->|Hne].
  - by rewrite lookup_delete_eq.
  - rewrite lookup_delete_ne by exact Hne. apply H.
Qed.

Lemma update_configs_shaped (names : list string) (order : bool)
    (st st' : Reader.locals) :
  Reader.update_configs names order st = Ok st' ->
  shaped (Reader.cfg st) -> shaped (Reader.cfg st').
Proof.
  revert st. induction names as [|name names IH]; intros st; cbn.
  - by intros [= <-].
  - unfold mbind, result_bind.
    destruct (Reader.update_config name order st) as [st1|] eqn:H1; [|discriminate].
    intros H Hs. apply (IH st1 H). clear H IH.
    unfold Reader.update_config, mbind, result_bind in H1.
    destruct (Reader.get_module_type name) as [ty|]; [|discriminate].
    assert (Happ : forall key c', key ∈ list_keys ->
              Reader.append_name key name (Reader.cfg st) = Ok c' -> shaped c').
    { intros key c' Hk. unfold Reader.append_name, mbind, result_bind.
      destruct (names_at key (Reader.cfg st)); [|discriminate].
      intros [= <-]. by apply shaped_insert_list. }
    destruct order.
    + destruct (Reader.append_name "order" name (Reader.cfg st)) as [c'|] eqn:Ha;
        [|discriminate].
      injection H1 as <-. cbn. apply shaped_insert_dict.
      eapply Happ; [|exact Ha]. in_list.
    + destruct ty.
      * destruct (Reader.append_name ".group_extras" name (Reader.cfg st))
          as [c'|] eqn:Ha; [|discriminate].
        injection H1 as <-. cbn. apply shaped_insert_dict.
        eapply Happ; [|exact Ha]. in_list.
      * injection H1 as <-. cbn. by apply shaped_insert_dict.
Qed.

Lemma set_default_formats_shaped (c c' : config) :
  Reader.set_default_formats c = Ok c' -> shaped c -> shaped c'.
Proof.
  unfold Reader.set_default_formats. destruct (bool_decide _); [|discriminate].
  intros [= <-] H k v. rewrite map_lookup_imap.
  destruct (c !! k) as [v0|] eqn:Hk; [|discriminate]. cbn.
  intros [= <-]. destruct (H k v0 Hk) as [[d ->]|Hin]; [|by right].
  left. unfold Reader.default_format.
  destruct (head (Py.split k)); [|by eexists].
  destruct (_ && _); by eexists.
Qed.

Lemma read_sections_shaped (config_info : settings) (c : config) :
  Reader.read_sections config_info = Ok c ->
  shaped c /\ exists names, c !! "i3s_modules" = Some (CNames names).
Proof.
  unfold Reader.read_sections, mbind, result_bind. intros H.
  destruct (match Py.dict_get "general" config_info with
            | Some (VModule g) => _ | None => _ | _ => _ end) as [general|];
    [|discriminate H].
  destruct (Reader.get_modules _ _ _) as [st|] eqn:Hg; [|discriminate H].
  apply get_modules_cfg in Hg. cbn in Hg.
  destruct (match Py.dict_get "order" config_info with
            | Some (VList l) => _ | None => _ | _ => _ end) as [order|];
    [|discriminate H].
  destruct (Reader.update_configs order true _) as [st1|] eqn:H1; [|discriminate H].
  destruct (Reader.update_configs _ false st1) as [st2|] eqn:H2; [|discriminate H].
  assert (S1 : shaped (Reader.cfg st1)).
  { apply (update_configs_shaped _ _ _ _ H1). cbn. rewrite Hg.
    repeat (apply shaped_insert_list; [in_list|]).
    apply shaped_insert_dict. intros k v. by rewrite lookup_empty. }
  assert (S2 : shaped (Reader.cfg st2))
    by exact (update_configs_shaped _ _ _ _ H2 S1).
  split.
  - eapply set_default_formats_shaped; [exact H|].
    repeat (apply shaped_insert_list; [in_list|]). exact S2.
  - unfold Reader.set_default_formats in H.
    destruct (bool_decide _); [|discriminate H]. injection H as <-.
    eexists. rewrite map_lookup_imap.
    rewrite !lookup_insert_ne by discriminate. rewrite lookup_insert_eq.
    reflexivity.
Qed.

Lemma clean_loop_shaped (key : string) (names : list string) (c c' : config) :
  valid_config_param key true = false ->
  key <> "i3s_modules" ->
  key ∈ list_keys ->
  Reader.clean_loop key names c = Ok c' ->
  shaped c /\ (exists l, c !! "i3s_modules" = Some (CNames l)) ->
  shaped c' /\ (exists l, c' !! "i3s_modules" = Some (CNames l)).
Proof.
  intros Hk Hi Hin. revert c. induction names as [|m names IH]; intros c H Hc.
  - cbn in H. by injection H as <-.
  - apply (clean_loop_cons key Hk Hi) in H as [[_ H]|(_ & _ & _ & _ & H)].
    + by apply (IH c).
    + apply (IH _ H). destruct Hc as [Hs _]. unfold dropped. split.
      * apply shaped_insert_list; [exact Hin|].
        apply shaped_insert_list; [in_list|]. by apply shaped_delete.
      * eexists. rewrite lookup_insert_ne by congruence. apply lookup_insert_eq.
Qed.

(** The configuration that the reader returns has a list of native names,
    and settings wherever the emitter writes a block. *)
Lemma reader_config_shape (config_info : settings) (c : config) :
  Reader.i3status_config_reader config_info = Ok c ->
  (exists names, c !! "i3s_modules" = Some (CNames names))
  /\ map_Forall (fun name v => entry_ok name v = true) c.
Proof.
  unfold Reader.i3status_config_reader, mbind, result_bind.
  destruct (Reader.read_sections config_info) as [c0|] eqn:H0; [|discriminate].
  destruct (Reader.clean_i3status_modules "order" c0) as [c1|] eqn:H1; [|discriminate].
  intros H2.
  apply clean_i3status_modules_inv in H1, H2; try discriminate.
  apply read_sections_shaped in H0.
  assert (S1 : shaped c1 /\ exists l, c1 !! "i3s_modules" = Some (CNames l)).
  { apply (clean_loop_shaped "order" (names_of "order" c0) c0 c1);
      [reflexivity | discriminate | in_list | exact H1 | exact H0]. }
  assert (S2 : shaped c /\ exists l, c !! "i3s_modules" = Some (CNames l)).
  { apply (clean_loop_shaped ".group_extras" (names_of ".group_extras" c1) c1 c);
      [reflexivity | discriminate | in_list | exact H2 | exact S1]. }
  destruct S2 as [Hs Hi]. split; [exact Hi|].
  intros k v Hkv. destruct (Hs k v Hkv) as [[d ->]|Hin]; [reflexivity|].
  unfold entry_ok. destruct v; [reflexivity| | |];
    (repeat (apply elem_of_cons in Hin as [->|Hin]; [reflexivity|]);
     by apply elem_of_nil in Hin).
Qed.

(** *** The order of the sections *)

Global Instance key_le_trans {V} : Transitive (@Py.key_le V).
Proof. intros a b c. unfold Py.key_le. apply transitivity. Qed.

Global Instance key_le_total {V} : Total (@Py.key_le V).
Proof. intros a b. unfold Py.key_le. apply total, _. Qed.

Lemma sorted_strict {V} (l : list (string * V)) :
  StronglySorted Py.key_le l -> NoDup l.*1 -> StronglySorted key_lt l.
Proof.
  induction 1 as [|x l Hl IH Hx]; intros Hnd; [constructor|].
  cbn in Hnd. apply NoDup_cons in Hnd as [Hnin Hnd].
  constructor; [by apply IH|].
  rewrite Forall_forall in Hx |- *. intros y Hy. split; [by apply Hx|].
  intros E. apply Hnin. rewrite E. apply list_elem_of_fmap. by exists y.
Qed.

Lemma sorted_items_sorted {V} (c : gmap string V) :
  StronglySorted key_lt (Py.sorted_items (map_to_list c)).
Proof.
  apply sorted_strict.
  - apply StronglySorted_merge_sort; apply _.
  - unfold Py.sorted_items. rewrite merge_sort_Permutation.
    apply NoDup_fst_map_to_list.
Qed.

(** Against C5 as stated: in the file written for the sample the blocks
    [battery 0] and [general] come before the [order] lines. *)
Lemma C5_counterexample :
  let c := sample_config in
  Emitter.write_tmp_i3status_config c ""
  = (block "battery 0" [("format", VStr "%percentage")]
     +:+ block "general" Reader.general_defaults
     +:+ order_text ["battery 0"; "tztime berlin"] +:+ Py.newline
     +:+ block "tztime berlin" [("format", VStr TZTIME_FORMAT)], Ok tt)
  /\ Py.startswith "battery 0 {" (Emitter.write_tmp_i3status_config c "").1 = true
  /\ Py.startswith "order += " (Emitter.write_tmp_i3status_config c "").1 = false.
Proof. vm_compute. repeat split; reflexivity. Qed.

(** The layout of the file for a configuration that has its list of native
    names and settings wherever a block is due. *)
Lemma write_tmp_layout (c : config) (names : list string) (tmpfile : string) :
  c !! "i3s_modules" = Some (CNames names) ->
  map_Forall (fun name v => entry_ok name v = true) c ->
  exists before after,
    Py.sorted_items (map_to_list c)
      = before ++ ("i3s_modules", CNames names) :: after
    /\ StronglySorted key_lt (Py.sorted_items (map_to_list c))
    /\ Py.sorted_items (map_to_list c) ≡ₚ map_to_list c
    /\ Forall (fun kv => key_lt kv ("i3s_modules", CNames names)) before
    /\ Forall (fun kv => key_lt ("i3s_modules", CNames names) kv) after
    /\ Emitter.write_tmp_i3status_config c tmpfile
       = (tmpfile +:+ blocks before +:+ order_text names +:+ Py.newline
            +:+ blocks after, Ok tt).
Proof.
  intros Hi Hok.
  pose proof (sorted_items_sorted c) as Hs.
  assert (Hp : Py.sorted_items (map_to_list c) ≡ₚ map_to_list c)
    by apply merge_sort_Permutation.
  assert (Hin : ("i3s_modules", CNames names) ∈ Py.sorted_items (map_to_list c)).
  { rewrite Hp. by apply elem_of_map_to_list. }
  destruct (list_elem_of_split _ _ Hin) as (before & after & Hsplit).
  exists before, after.
  assert (Hb : Forall (fun kv => key_lt kv ("i3s_modules", CNames names)) before).
  { rewrite Hsplit in Hs. apply Forall_forall. intros y Hy.
    eapply StronglySorted_app_1_elem_of; [exact Hs | exact Hy | apply list_elem_of_here]. }
  assert (Ha : Forall (fun kv => key_lt ("i3s_modules", CNames names) kv) after).
  { rewrite Hsplit in Hs. apply StronglySorted_app_1_r in Hs.
    by apply StronglySorted_cons in Hs as [? _]. }
  assert (Hall : forall kv, kv ∈ Py.sorted_items (map_to_list c) ->
                            entry_ok kv.1 kv.2 = true).
  { intros [n v] Hkv. rewrite Hp in Hkv. apply elem_of_map_to_list in Hkv.
    exact (Hok n v Hkv). }
  repeat split; try assumption.
  unfold Emitter.write_tmp_i3status_config. rewrite Hsplit in Hall |- *.
  rewrite write_sections_app, write_sections_blocks.
  2:{ apply Forall_forall. intros kv Hkv. split.
      - rewrite Forall_forall in Hb. destruct (Hb kv Hkv) as [_ E]. exact E.
      - apply Hall, elem_of_app. by left. }
  cbn [Emitter.write_sections]. monad_unfold.
  rewrite write_section_order, write_sections_blocks.
  2:{ apply Forall_forall. intros kv Hkv. split.
      - rewrite Forall_forall in Ha. destruct (Ha kv Hkv) as [_ E]. cbn in E. congruence.
      - apply Hall, elem_of_app. right. by apply list_elem_of_further. }
  rewrite !append_assoc. reflexivity.
Qed.

(** C5, amended.  For every configuration that the reader returns, the
    file is written in the strict lexicographic order of the keys of the
    configuration.  The [order] lines, one for each native name and then an
    empty line, stand where the key [i3s_modules] sorts: after the blocks of
    the sections whose name is smaller ([battery ...], [general], ...) and
    before the blocks of the others.  A block is
    [name { key = "value" ... }], with booleans in lower case. *)
Theorem C5_order_lines_where_the_key_sorts
    (config_info : settings) (c : config) (tmpfile : string) :
  Reader.i3status_config_reader config_info = Ok c ->
  exists before after,
    Py.sorted_items (map_to_list c)
      = before ++ ("i3s_modules", CNames (names_of "i3s_modules" c)) :: after
    /\ StronglySorted key_lt (Py.sorted_items (map_to_list c))
    /\ Py.sorted_items (map_to_list c) ≡ₚ map_to_list c
    /\ Forall (fun kv => name_lt kv.1 "i3s_modules") before
    /\ Forall (fun kv => name_lt "i3s_modules" kv.1) after
    /\ Emitter.write_tmp_i3status_config c tmpfile
       = (tmpfile +:+ blocks before
            +:+ order_text (names_of "i3s_modules" c) +:+ Py.newline
            +:+ blocks after, Ok tt).
Proof.
  intros Hr. destruct (reader_config_shape _ _ Hr) as [[names Hi] Hok].
  destruct (write_tmp_layout c names tmpfile Hi Hok)
    as (before & after & H1 & H2 & H3 & H4 & H5 & H6).
  assert (Hn : names_of "i3s_modules" c = names) by (unfold names_of; by rewrite Hi).
  exists before, after. rewrite Hn. repeat split; assumption.
Qed.

(** The hypotheses of C5 hold for the configuration of the sample. *)
Lemma C5_witness :
  exists before after,
    Py.sorted_items (map_to_list sample_config)
      = before ++ ("i3s_modules", CNames (names_of "i3s_modules" sample_config)) :: after
    /\ StronglySorted key_lt (Py.sorted_items (map_to_list sample_config))
    /\ Py.sorted_items (map_to_list sample_config) ≡ₚ map_to_list sample_config
    /\ Forall (fun kv => name_lt kv.1 "i3s_modules") before
    /\ Forall (fun kv => name_lt "i3s_modules" kv.1) after
    /\ Emitter.write_tmp_i3status_config sample_config ""
       = ("" +:+ blocks before
             +:+ order_text (names_of "i3s_modules" sample_config) +:+ Py.newline
             +:+ blocks after, Ok tt).
Proof.
  apply (C5_order_lines_where_the_key_sorts sample_info sample_config "").
  apply the_config_eq. vm_compute. reflexivity.
Defined.

(** *** The cleanup and the file *)

Lemma order_text_lines (names : list string) :
  order_text names
  = lines_text (Emitter.order_line
                  <$> filter (fun n => valid_config_param n false = true) names).
Proof.
  induction names as [|n names IH]; [reflexivity|].
  cbn [order_text]. rewrite filter_cons.
  destruct (decide (valid_config_param n false = true)) as [Hv|Hv].
  - rewrite Hv. cbn. by rewrite IH.
  - apply not_true_is_false in Hv. rewrite Hv. exact IH.
Qed.

Lemma droppable_word (name : string) :
  before " " name ∈ i3status_module_names ->
  before " " name ∉ kept_words ->
  valid_config_param name true = true.
Proof.
  intros Hin Hk. unfold valid_config_param, Py.inb. apply bool_decide_eq_true.
  rewrite first_word_before. apply list_elem_of_filter. split; [|exact Hin].
  intros Hc. apply Hk.
  repeat (apply elem_of_cons in Hc as [->|Hc]; [in_list|]).
  by apply elem_of_nil in Hc.
Qed.

(** C6, amended.  Let [c] be the configuration when the cleanup starts,
    that is once the clock entries have their default format.  Every name
    that the list [order] or the list [.group_extras] of [c] holds, whose
    first word is a module name of the child other than [time], [load],
    [cpu_usage], [ddate] and [ipv6], and whose settings in [c] are empty, is
    gone when the reader returns: from [order], from [.group_extras], from
    [i3s_modules] and from the configuration.  The file of the child then
    has no [order] line and no block for it: its [order] lines are those of
    names of [i3s_modules], and its blocks those of other entries. *)
Theorem C6_cleanup_drops_entries_without_settings
    (config_info : settings) (c c' : config) (name tmpfile : string) :
  Reader.read_sections config_info = Ok c ->
  Reader.i3status_config_reader config_info = Ok c' ->
  name ∈ names_of "order" c ∨ name ∈ names_of ".group_extras" c ->
  before " " name ∈ i3status_module_names ->
  before " " name ∉ kept_words ->
  c !! name = Some (CDict []) ->
  (name ∉ names_of "order" c')
  /\ (name ∉ names_of ".group_extras" c')
  /\ (name ∉ names_of "i3s_modules" c')
  /\ c' !! name = None
  /\ exists head tail written,
       Emitter.write_tmp_i3status_config c' tmpfile
       = (tmpfile +:+ blocks head
            +:+ lines_text (Emitter.order_line <$> written) +:+ Py.newline
            +:+ blocks tail, Ok tt)
       /\ written `sublist_of` names_of "i3s_modules" c'
       /\ (name ∉ written)
       /\ Forall (fun kv => kv.1 <> name) head
       /\ Forall (fun kv => kv.1 <> name) tail.
Proof.
  intros Hread Hreader Hin Hw Hkept Hempty.
  pose proof (droppable_word name Hw Hkept) as Hv.
  assert (Ht : truthy (c !! name) = false) by (by rewrite Hempty).
  pose proof (read_sections_i3s_NoDup _ _ Hread) as Hnd.
  apply (cnt_NoDup name) in Hnd.
  pose proof Hreader as Hshape. apply reader_config_shape in Hshape.
  unfold Reader.i3status_config_reader, mbind, result_bind in Hreader.
  rewrite Hread in Hreader.
  destruct (Reader.clean_i3status_modules "order" c) as [c1|] eqn:H1; [|discriminate].
  apply clean_i3status_modules_inv in H1, Hreader; try discriminate.
  assert (Ko : valid_config_param "order" true = false) by reflexivity.
  assert (Ke : valid_config_param ".group_extras" true = false) by reflexivity.
  assert (Kio : "order" <> "i3s_modules") by discriminate.
  assert (Kie : ".group_extras" <> "i3s_modules") by discriminate.
  (* the two lists other than the one being cleaned are left alone *)
  destruct (clean_loop_frame "order" Ko Kio _ _ _ ".group_extras" H1)
    as (_ & _ & _ & Fe).
  specialize (Fe eq_refl ltac:(discriminate) ltac:(discriminate)).
  destruct (clean_loop_frame ".group_extras" Ke Kie _ _ _ "order" Hreader)
    as (_ & _ & _ & Fo).
  specialize (Fo eq_refl ltac:(discriminate) ltac:(discriminate)).
  assert (He1 : names_of ".group_extras" c1 = names_of ".group_extras" c)
    by (unfold names_of; by rewrite Fe).
  assert (Ho2 : names_of "order" c' = names_of "order" c1)
    by (unfold names_of; by rewrite Fo).
  assert (Hnk : name <> "order") by (eapply valid_not_key; eassumption).
  assert (Hnk' : name <> ".group_extras") by (eapply valid_not_key; eassumption).
  assert (Hni : name <> "i3s_modules") by (intros ->; discriminate Hv).
  assert (Hgoal : cnt name (names_of "order" c') = 0%nat
                  /\ cnt name (names_of ".group_extras" c') = 0%nat
                  /\ cnt name (names_of "i3s_modules" c') = 0%nat
                  /\ c' !! name = None).
  { destruct (decide (name ∈ names_of "order" c)) as [Hino|Hnino].
    - destruct (clean_loop_removes "order" Ko Kio _ _ _ name Hv Ht Hino H1)
        as (E0 & E1 & E2 & E3).
      destruct (clean_loop_absent ".group_extras" Ke Kie _ _ _ name Hv E1 Hreader)
        as [Hnin Hc'].
      destruct (clean_loop_frame ".group_extras" Ke Kie _ _ _ name Hreader)
        as (Le & Li & _ & _).
      apply cnt_zero in Hnin.
      rewrite Ho2. repeat split; try assumption; lia.
    - destruct (clean_loop_frame "order" Ko Kio _ _ _ name H1) as (_ & _ & F & _).
      destruct (F Hnino) as (E1 & E2 & E3).
      specialize (E3 Hnk Hni).
      destruct Hin as [Hin|Hin]; [contradiction|].
      rewrite <- He1 in Hin. rewrite <- E3 in Ht.
      destruct (clean_loop_removes ".group_extras" Ke Kie _ _ _ name Hv Ht Hin Hreader)
        as (E0 & E1' & E2' & E3').
      apply cnt_zero in Hnino.
      rewrite Ho2. repeat split; try assumption; lia. }
  destruct Hgoal as (G1 & G2 & G3 & G4).
  apply cnt_zero in G1, G2, G3.
  split; [exact G1|]. split; [exact G2|]. split; [exact G3|]. split; [exact G4|].
  destruct Hshape as [[names Hi] Hok].
  destruct (write_tmp_layout c' names tmpfile Hi Hok)
    as (head & tail & Hsplit & _ & Hperm & _ & _ & Hfile).
  assert (Hn : names_of "i3s_modules" c' = names) by (unfold names_of; by rewrite Hi).
  exists head, tail, (filter (fun n => valid_config_param n false = true) names).
  rewrite Hn in G3 |- *.
  assert (Hentries : forall kv, kv ∈ head ++ ("i3s_modules", CNames names) :: tail ->
                                kv.1 <> name).
  { intros [k v] Hkv. rewrite <- Hsplit, Hperm in Hkv.
    apply elem_of_map_to_list in Hkv. cbn. intros ->. congruence. }
  split; [by rewrite <- order_text_lines|]. split; [apply sublist_filter|].
  split; [by intros [_ ?]%list_elem_of_filter|].
  split; apply Forall_forall; intros kv Hkv; apply Hentries, elem_of_app.
  - by left.
  - right. by apply list_elem_of_further.
Qed.

(** The hypotheses of C6 hold for the entry [disk /] of the sample. *)
Lemma C6_witness :
  ("disk /" ∉ names_of "order" sample_config)
  /\ ("disk /" ∉ names_of ".group_extras" sample_config)
  /\ ("disk /" ∉ names_of "i3s_modules" sample_config)
  /\ sample_config !! "disk /" = None
  /\ exists head tail written,
       Emitter.write_tmp_i3status_config sample_config ""
       = ("" +:+ blocks head
             +:+ lines_text (Emitter.order_line <$> written) +:+ Py.newline
             +:+ blocks tail, Ok tt)
       /\ written `sublist_of` names_of "i3s_modules" sample_config
       /\ ("disk /" ∉ written)
       /\ Forall (fun kv => kv.1 <> "disk /") head
       /\ Forall (fun kv => kv.1 <> "disk /") tail.
Proof.
  apply (C6_cleanup_drops_entries_without_settings sample_info
           (the_config (Reader.read_sections sample_info))).
  - apply the_config_eq. vm_compute. reflexivity.
  - apply the_config_eq. vm_compute. reflexivity.
  - left. in_list.
  - in_list.
  - intros Hin. by repeat (apply elem_of_cons in Hin as [Hin|Hin]; [discriminate Hin|]);
      apply elem_of_nil in Hin.
  - vm_compute. reflexivity.
Defined.

(** ** The responses and the loop *)
Section supervisor_facts.
Import Supervisor.

(** What the methods of [I3status] leave as it is: the configuration, and
    outside [print_line] the lines printed. *)
Section kept.
Context {X : Type} (f : I3status -> X).
Hypothesis f_i3module : forall n m s, f (set_i3module n m s).1 = f s.
Hypothesis f_notify : forall l s, f (notify_update l s).1 = f s.
Hypothesis f_json : forall s, f (update_json_list s).1 = f s.

Lemma kept_set_response (w : wall) (index : nat) (i : gmap string jvalue)
    (s : I3status) :
  f (set_response w index i s).1 = f s.
Proof.
  unfold set_response. monad_unfold.
  destruct (names_at "i3s_modules" (conf s)) as [names|]; [|reflexivity].
  destruct (names !! index) as [conf_name|]; [|reflexivity].
  destruct (i3modules s !! conf_name) as [m|].
  - destruct (update_from_item w i m) as [m' [b|e]]; cbn; apply f_i3module.
  - destruct (Clock.init conf_name (conf s)) as [m|]; [|reflexivity].
    cbn. destruct (update_from_item w i m) as [m' [b|e]]; cbn;
      (transitivity (f (set_i3module conf_name m s).1);
       [exact (f_i3module conf_name m' (set_i3module conf_name m s).1)
       | exact (f_i3module conf_name m s)]).
Qed.

Lemma kept_set_responses_loop (w : wall) (l : list (gmap string jvalue))
    (index : nat) (updates : list string) (s : I3status) :
  f (set_responses_loop w index l updates s).1 = f s.
Proof.
  revert index updates s. induction l as [|i l IH]; intros index updates s;
    [reflexivity|].
  cbn [set_responses_loop]. monad_unfold.
  pose proof (kept_set_response w index i s) as K.
  destruct (set_response w index i s) as [s1 [[n b]|e]]; cbn in K.
  - rewrite IH. exact K.
  - exact K.
Qed.

Lemma kept_set_responses (w : wall) (s : I3status) :
  f (set_responses w s).1 = f s.
Proof.
  unfold set_responses. monad_unfold.
  pose proof (f_json s) as J.
  destruct (update_json_list s) as [s1 [[]|e]] eqn:E; cbn in J; [|exact J].
  destruct (json_list s1) as [l|]; [|exact J].
  pose proof (kept_set_responses_loop w l 0 [] s1) as K.
  destruct (set_responses_loop w 0 l [] s1) as [s2 [ups|e]]; cbn in K.
  - rewrite f_notify. exact (eq_trans K J).
  - exact (eq_trans K J).
Qed.
End kept.

Lemma printed_emit_notify (l : list string) (s : I3status) :
  printed (notify_update l s).1 = printed s.
Proof.
  unfold printed, notify_update, emit, modify. cbn.
  rewrite omap_app. cbn. apply app_nil_r.
Qed.

Lemma conf_set_responses (w : wall) (s : I3status) :
  conf (set_responses w s).1 = conf s.
Proof. apply kept_set_responses; reflexivity. Qed.

Lemma printed_set_responses (w : wall) (s : I3status) :
  printed (set_responses w s).1 = printed s.
Proof.
  apply kept_set_responses; try reflexivity. apply printed_emit_notify.
Qed.

Section run_facts.
Variable loads : string -> result (list (gmap string jvalue)).
Variable loads_header : string -> result (gmap string jvalue).
Variable dumps : gmap string jvalue -> string.

Lemma conf_run_step (c : cycle) (s : I3status) :
  conf (run_step loads loads_header dumps c s).1 = conf s.
Proof.
  unfold run_step. monad_unfold.
  destruct (negb (bool_decide (line c = ""))); [|destruct (poll c); reflexivity].
  destruct (Py.startswith "[{" (line c)).
  - cbn. destruct (jsonify loads (line c)) as [[p l]|]; [|reflexivity]. cbn.
    pose proof (conf_set_responses (clock c)
      (set_last l "," (print_line (line c) s).1).1) as K.
    cbn in K.
    destruct (set_responses _ _) as [s1 [[]|e]]; exact K.
  - destruct (negb (Py.startswith "," (line c))).
    + destruct (Py.contains "version" (line c)); cbn; [|reflexivity].
      destruct (loads_header (line c)); reflexivity.
    + destruct (jsonify loads (line c)) as [[p l]|]; [|reflexivity]. cbn.
      pose proof (conf_set_responses (clock c) (set_last l p s).1) as K.
      cbn in K.
      destruct (set_responses _ _) as [s1 [[]|e]]; exact K.
Qed.

Lemma conf_run_loop (cycles : list cycle) (s : I3status) :
  conf (run_loop loads loads_header dumps cycles s).1 = conf s.
Proof.
  revert s. induction cycles as [|c cycles IH]; intros s; [reflexivity|].
  cbn [run_loop]. destruct (lock_is_set c); [|reflexivity]. monad_unfold.
  pose proof (conf_run_step c s) as K.
  destruct (run_step loads loads_header dumps c s) as [s1 [[]|e]]; cbn in K.
  - rewrite IH. exact K.
  - exact K.
Qed.

(** [run] leaves the configuration that it was given. *)
Lemma conf_run (cycles : list cycle) (s : I3status) :
  conf (run loads loads_header dumps cycles s).1.2 = conf s.
Proof.
  unfold run.
  destruct (Emitter.write_tmp_i3status_config (conf s) "") as [tmpfile [[]|e]];
    [|reflexivity].
  pose proof (conf_run_loop cycles s) as K.
  destruct (run_loop loads loads_header dumps cycles s) as [s1 [[]|e]]; cbn in K.
  - exact K.
  - destruct (is_IOError e); exact K.
Qed.
End run_facts.
End supervisor_facts.

(** *** The forced format of the clock entries *)

Lemma blocks_elem (kv : string * cval) (l : list (string * cval)) :
  kv ∈ l -> exists pre post, blocks l = pre +:+ block_of kv +:+ post.
Proof.
  induction l as [|x l IH]; intros Hin; [by apply elem_of_nil in Hin|].
  apply elem_of_cons in Hin as [->|Hin].
  - exists "", (blocks l). reflexivity.
  - destruct (IH Hin) as (pre & post & E).
    exists (block_of x +:+ pre), post. cbn [blocks]. rewrite E.
    by rewrite append_assoc.
Qed.

(** The block of a section of the configuration is part of the file. *)
Lemma write_tmp_holds_block (c : config) (names : list string)
    (name : string) (v : cval) (tmpfile : string) :
  c !! "i3s_modules" = Some (CNames names) ->
  map_Forall (fun name v => entry_ok name v = true) c ->
  c !! name = Some v ->
  name <> "i3s_modules" ->
  exists pre post,
    Emitter.write_tmp_i3status_config c tmpfile
    = (tmpfile +:+ pre +:+ block_of (name, v) +:+ post, Ok tt).
Proof.
  intros Hi Hok Hn Hne.
  destruct (write_tmp_layout c names tmpfile Hi Hok)
    as (before & after & Hsplit & _ & Hp & _ & _ & Hw).
  assert (Hin : (name, v) ∈ before ++ ("i3s_modules", CNames names) :: after).
  { rewrite <- Hsplit, Hp. by apply elem_of_map_to_list. }
  apply elem_of_app in Hin as [Hin|Hin].
  - destruct (blocks_elem _ _ Hin) as (pre & post & E).
    exists pre, (post +:+ order_text names +:+ Py.newline +:+ blocks after).
    rewrite Hw, E, !append_assoc. reflexivity.
  - apply elem_of_cons in Hin as [[= ? _]|Hin]; [contradiction|].
    destruct (blocks_elem _ _ Hin) as (pre & post & E).
    exists (blocks before +:+ order_text names +:+ Py.newline +:+ pre), post.
    rewrite Hw, E, !append_assoc. reflexivity.
Qed.

Lemma dict_get_set_eq {V} (k : string) (v : V) (d : list (string * V)) :
  Py.dict_get k (Py.dict_set k v d) = Some v.
Proof.
  induction d as [|[k' v'] d IH]; cbn.
  - by rewrite decide_True.
  - destruct (decide (k' = k)) as [->|Hne]; cbn.
    + by rewrite decide_True.
    + by rewrite decide_False.
Qed.

Lemma dict_get_set_ne {V} (k k0 : string) (v : V) (d : list (string * V)) :
  k <> k0 -> Py.dict_get k0 (Py.dict_set k v d) = Py.dict_get k0 d.
Proof.
  intros Hne. induction d as [|[k' v'] d IH]; cbn.
  - by rewrite decide_False.
  - destruct (decide (k' = k)) as [->|Hne']; cbn.
    + by rewrite !decide_False.
    + destruct (decide (k' = k0)); [reflexivity | exact IH].
Qed.

Lemma settings_text_format (section_name : string) (v v' : value) (d : settings) :
  Py.inb (first_word section_name) TIME_MODULES = true ->
  settings_text section_name (Py.dict_set "format" v d)
  = settings_text section_name (Py.dict_set "format" v' d).
Proof.
  intros Hb. induction d as [|[k x] d IH]; cbn.
  - unfold setting_text. rewrite Hb. reflexivity.
  - destruct (decide (k = "format")) as [->|Hne]; cbn.
    + unfold setting_text. rewrite Hb. reflexivity.
    + by rewrite IH.
Qed.

Lemma dict_set_not_nil {V} (k : string) (v : V) (d : list (string * V)) :
  Py.dict_set k v d <> [].
Proof. destruct d as [|[k' v'] d]; cbn; [|destruct (decide (k' = k))]; discriminate. Qed.

(** C4.  In the block of a clock entry (first word [time] or [tztime]) the
    line of the key [format] is always [format = "%Y-%m-%d %H:%M:%S %Z"]:
    the block written for the settings with the format of the user is the
    block written for the settings with that fixed format, and this is the
    block that the file holds for a configuration of the reader.  [run],
    which writes the file, leaves the configuration as it is, and an
    [I3statusModule] made from it shows the time in the format of the
    user. *)
Theorem C4_clock_format_is_forced_in_the_file
    (section_name : string) (d : settings) (user_format : value)
    (tmpfile : string) :
  valid_config_param section_name false = true ->
  first_word section_name ∈ TIME_MODULES ->
  first_token section_name = Ok (first_word section_name)
  /\ Emitter.write_setting section_name "format" user_format tmpfile
     = (tmpfile +:+ setting_line "format" TZTIME_FORMAT, Ok tt)
  /\ Emitter.write_section section_name
       (CDict (Py.dict_set "format" user_format d)) tmpfile
     = (tmpfile +:+ block section_name
                      (Py.dict_set "format" (VStr TZTIME_FORMAT) d), Ok tt)
  /\ (forall (config_info : settings) (c : config),
        Reader.i3status_config_reader config_info = Ok c ->
        c !! section_name = Some (CDict (Py.dict_set "format" user_format d)) ->
        exists pre post,
          Emitter.write_tmp_i3status_config c tmpfile
          = (tmpfile +:+ pre
               +:+ block section_name (Py.dict_set "format" (VStr TZTIME_FORMAT) d)
               +:+ post, Ok tt))
  /\ (forall loads loads_header dumps cycles s,
        Supervisor.conf
          (Supervisor.run loads loads_header dumps cycles s).1.2
        = Supervisor.conf s)
  /\ (forall (cfg : config) (f : string),
        cfg !! section_name = Some (CDict (Py.dict_set "format" (VStr f) d)) ->
        Py.dict_get "format_time" d = None ->
        exists m, Clock.init section_name cfg = Ok m
                  /\ is_time_module m = true /\ time_format m = VStr f).
Proof.
  intros Hv Hb.
  assert (Hb' : Py.inb (first_word section_name) TIME_MODULES = true)
    by (by apply bool_decide_eq_true).
  assert (Hsp : Py.inb section_name
                  ["order"; "py3_modules"; ".group_extras"; ".module_groups"] = false).
  { apply bool_decide_eq_false. intros Hin.
    assert (Py.inb (first_word section_name) TIME_MODULES = false); [|congruence].
    repeat (apply elem_of_cons in Hin as [->|Hin]; [reflexivity|]).
    by apply elem_of_nil in Hin. }
  assert (Hn : section_name <> "i3s_modules") by (intros ->; discriminate Hv).
  assert (Hblock : block_of (section_name, CDict (Py.dict_set "format" user_format d))
                   = block section_name (Py.dict_set "format" (VStr TZTIME_FORMAT) d)).
  { unfold block_of. cbn [fst snd]. rewrite Hsp, Hv, (bool_decide_eq_false_2 _ Hn).
    rewrite (bool_decide_eq_false_2 _ (dict_set_not_nil _ _ _)). cbn.
    unfold block. by rewrite (settings_text_format _ user_format (VStr TZTIME_FORMAT)). }
  split; [by apply (valid_first_token _ false)|].
  split; [|split; [|split; [|split]]].
  - rewrite write_setting_text by exact Hv. unfold setting_text.
    rewrite Hb'. reflexivity.
  - rewrite write_section_block; [|exact Hn|reflexivity]. by rewrite Hblock.
  - intros config_info c Hr Hc.
    destruct (reader_config_shape _ _ Hr) as [[names Hi] Hok].
    destruct (write_tmp_holds_block c names section_name _ tmpfile Hi Hok Hc Hn)
      as (pre & post & E).
    exists pre, post. by rewrite E, Hblock.
  - intros. apply conf_run.
  - intros cfg f Hcfg Hft. unfold Clock.init. monad_unfold.
    rewrite (valid_first_token _ _ Hv), Hb'. cbn [is_time_module].
    unfold Clock.set_time_format. monad_unfold. cbn [module_name].
    rewrite Hcfg, dict_get_set_eq, dict_get_set_ne, Hft by discriminate.
    eexists. repeat split; reflexivity.
Qed.

(** The hypotheses of C4 hold for the section [tztime berlin]. *)
Lemma C4_witness :
  first_token "tztime berlin" = Ok (first_word "tztime berlin")
  /\ Emitter.write_setting "tztime berlin" "format" (VStr "%H:%M") ""
     = ("" +:+ setting_line "format" TZTIME_FORMAT, Ok tt)
  /\ Emitter.write_section "tztime berlin"
       (CDict (Py.dict_set "format" (VStr "%H:%M") [("timezone", VStr "Europe/Berlin")])) ""
     = ("" +:+ block "tztime berlin"
                 (Py.dict_set "format" (VStr TZTIME_FORMAT)
                    [("timezone", VStr "Europe/Berlin")]), Ok tt)
  /\ (forall (config_info : settings) (c : config),
        Reader.i3status_config_reader config_info = Ok c ->
        c !! "tztime berlin"
          = Some (CDict (Py.dict_set "format" (VStr "%H:%M")
                           [("timezone", VStr "Europe/Berlin")])) ->
        exists pre post,
          Emitter.write_tmp_i3status_config c ""
          = ("" +:+ pre
               +:+ block "tztime berlin"
                     (Py.dict_set "format" (VStr TZTIME_FORMAT)
                        [("timezone", VStr "Europe/Berlin")])
               +:+ post, Ok tt))
  /\ (forall loads loads_header dumps cycles s,
        Supervisor.conf
          (Supervisor.run loads loads_header dumps cycles s).1.2
        = Supervisor.conf s)
  /\ (forall (cfg : config) (f : string),
        cfg !! "tztime berlin"
          = Some (CDict (Py.dict_set "format" (VStr f)
                           [("timezone", VStr "Europe/Berlin")])) ->
        Py.dict_get "format_time" [("timezone", VStr "Europe/Berlin")] = None ->
        exists m, Clock.init "tztime berlin" cfg = Ok m
                  /\ is_time_module m = true /\ time_format m = VStr f).
Proof.
  apply (C4_clock_format_is_forced_in_the_file "tztime berlin"
           [("timezone", VStr "Europe/Berlin")] (VStr "%H:%M") "").
  - reflexivity.
  - apply (bool_decide_unpack _). vm_compute. exact I.
Defined.

(** *** The end of the child *)
Section exit_facts.
Import Supervisor.

(** Against C8 as stated: the child has exited with code 1 and has written
    [bad option]; the error stored does not report the code. *)
Lemma C8_counterexample :
  let c := mk_cycle true "" "bad option" (Some 1) (mk_wall 1709289015 0) in
  let r := run no_frames no_header no_dumps [c] (init sample_config) in
  r.2 = Ok tt
  /\ error r.1.2 = Some (IOError "i3status died and said: bad option")
  /\ Py.contains (Py.str_of_int 1) "i3status died and said: bad option" = false.
Proof. vm_compute. repeat split; reflexivity. Qed.

(** C8, amended.  When the reader of the output has no line and the child
    has exited, [run] stores an [IOError] and ends.  Its message reports the
    text read from the error stream, and not the exit code, when that text
    is not empty; it reports the exit code when the text is empty. *)
Theorem C8_terminal_error_of_a_dead_child
    (loads : string -> result (list (gmap string jvalue)))
    (loads_header : string -> result (gmap string jvalue))
    (dumps : gmap string jvalue -> string)
    (c : cycle) (cycles : list cycle) (s : I3status) (code : Z) :
  lock_is_set c = true ->
  line c = "" ->
  poll c = Some code ->
  (Emitter.write_tmp_i3status_config (conf s) "").2 = Ok tt ->
  exists msg,
    run loads loads_header dumps (c :: cycles) s
    = (((Emitter.write_tmp_i3status_config (conf s) "").1,
        set_error (IOError msg) s), Ok tt)
    /\ msg = (if decide (err c = "")
              then "i3status died with code " +:+ Py.str_of_int code
              else "i3status died and said: " +:+ err c)
    /\ (err c <> "" -> Py.contains (err c) msg = true)
    /\ (err c = "" -> Py.contains (Py.str_of_int code) msg = true).
Proof.
  intros Hlock Hline Hpoll Hw.
  exists (died code (err c)). split; [|split; [|split]].
  - unfold run. destruct (Emitter.write_tmp_i3status_config (conf s) "")
      as [tmpfile [[]|e]]; [|discriminate Hw].
    cbn [run_loop fst]. rewrite Hlock. unfold run_step. monad_unfold.
    rewrite Hline, Hpoll. reflexivity.
  - unfold died. destruct (decide (err c = "")); reflexivity.
  - intros He. unfold died. rewrite decide_False by exact He.
    do 2 apply contains_app_r. apply contains_self.
  - intros He. unfold died. rewrite decide_True by exact He.
    do 2 apply contains_app_r. apply contains_self.
Qed.

(** The hypotheses of C8 hold for a child that exits with code 1, silent,
    under the configuration of the sample. *)
Lemma C8_witness :
  exists msg,
    run no_frames no_header no_dumps
      [mk_cycle true "" "" (Some 1) (mk_wall 1709289015 0)] (init sample_config)
    = (((Emitter.write_tmp_i3status_config (conf (init sample_config)) "").1,
        set_error (IOError msg) (init sample_config)), Ok tt)
    /\ msg = (if decide (err (mk_cycle true "" "" (Some 1) (mk_wall 1709289015 0)) = "")
              then "i3status died with code " +:+ Py.str_of_int 1
              else "i3status died and said: "
                   +:+ err (mk_cycle true "" "" (Some 1) (mk_wall 1709289015 0)))
    /\ (err (mk_cycle true "" "" (Some 1) (mk_wall 1709289015 0)) <> "" ->
        Py.contains (err (mk_cycle true "" "" (Some 1) (mk_wall 1709289015 0))) msg = true)
    /\ (err (mk_cycle true "" "" (Some 1) (mk_wall 1709289015 0)) = "" ->
        Py.contains (Py.str_of_int 1) msg = true).
Proof.
  apply (C8_terminal_error_of_a_dead_child no_frames no_header no_dumps
           (mk_cycle true "" "" (Some 1) (mk_wall 1709289015 0)) []
           (init sample_config) 1).
  - reflexivity.
  - reflexivity.
  - reflexivity.
  - vm_compute. reflexivity.
Defined.
End exit_facts.

(** *** The frames *)
Section frame_facts.
Import Supervisor.

(** Against C9 as stated: a continuation frame is decoded and handed to
    [set_responses], which notifies the change, and nothing is printed. *)
Lemma C9_counterexample :
  let c := mk_cycle true ("," +:+ sample_frame) "" None (mk_wall 1709289015 0) in
  let r := run_step sample_loads no_header no_dumps c (init sample_config) in
  r.2 = Ok tt
  /\ fmap (M := list) map_to_list <$> last_output r.1
     = Some [[("full_text", JStr "up")]]
  /\ events r.1 = [ENotify ["battery 0"]]
  /\ printed r.1 = [].
Proof. vm_compute. repeat split; reflexivity. Qed.

Lemma printed_print_line (l : string) (s : I3status) :
  printed (print_line l s).1 = printed s ++ [l].
Proof. unfold printed, print_line, emit, modify. cbn. by rewrite omap_app. Qed.

(** C9, amended.  The first data frame, a line that starts with [[{], is
    handed to [print_line] as it is, and only then decoded and handed to
    [set_responses].  A continuation frame, a line that starts with a
    comma, is decoded after the comma and handed to [set_responses]
    without being printed. *)
Theorem C9_first_frame_is_printed_before_the_responses
    (loads : string -> result (list (gmap string jvalue)))
    (loads_header : string -> result (gmap string jvalue))
    (dumps : gmap string jvalue -> string)
    (rest err : string) (lock : bool) (poll : option Z) (w : wall)
    (s : I3status) :
  (let c := mk_cycle lock ("[{" +:+ rest) err poll w in
   let s1 := (print_line (line c) s).1 in
   events s1 = events s ++ [EPrint ("[{" +:+ rest)]
   /\ run_step loads loads_header dumps c s
      = match loads ("[{" +:+ rest) with
        | Ok json_list =>
            (set_last json_list "," ≫= fun _ =>
             set_responses w ≫= fun _ => set_ready) s1
        | Raise e => (s1, Raise e)
        end
   /\ printed (run_step loads loads_header dumps c s).1
      = printed s ++ ["[{" +:+ rest])
  /\ (let c := mk_cycle lock ("," +:+ rest) err poll w in
      run_step loads loads_header dumps c s
      = match loads rest with
        | Ok json_list =>
            (set_last json_list "," ≫= fun _ => set_responses w) s
        | Raise e => (s, Raise e)
        end
      /\ printed (run_step loads loads_header dumps c s).1 = printed s).
Proof.
  split.
  - cbn zeta. cbn [line clock].
    assert (Hstep : run_step loads loads_header dumps
                      (mk_cycle lock ("[{" +:+ rest) err poll w) s
                    = match loads ("[{" +:+ rest) with
                      | Ok json_list =>
                          (set_last json_list "," ≫= fun _ =>
                           set_responses w ≫= fun _ => set_ready)
                            (print_line ("[{" +:+ rest) s).1
                      | Raise e => ((print_line ("[{" +:+ rest) s).1, Raise e)
                      end).
    { unfold run_step. cbn [line clock]. monad_unfold.
      change (bool_decide ("[{" +:+ rest = "")) with false.
      change (Py.startswith "[{" ("[{" +:+ rest)) with true.
      cbn [negb]. unfold jsonify.
      change ("[{" +:+ rest) with (String "[" (String "{" rest)).
      monad_unfold.
      destruct (loads (String "[" (String "{" rest))); reflexivity. }
    split; [reflexivity|]. split; [exact Hstep|].
    rewrite Hstep. destruct (loads ("[{" +:+ rest)) as [l|e].
    + monad_unfold.
      pose proof (printed_set_responses w
        (set_last l "," (print_line ("[{" +:+ rest) s).1).1) as K.
      change (set_last l "," (print_line ("[{" +:+ rest) s).1)
        with ((set_last l "," (print_line ("[{" +:+ rest) s).1).1, Ok tt : result unit).
      cbv iota beta.
      destruct (set_responses w _) as [s2 [[]|e]].
      * transitivity (printed s2); [reflexivity|].
        etransitivity; [exact K|]. apply printed_print_line.
      * etransitivity; [exact K|]. apply printed_print_line.
    + apply printed_print_line.
  - cbn zeta.
    assert (Hstep : run_step loads loads_header dumps
                      (mk_cycle lock ("," +:+ rest) err poll w) s
                    = match loads rest with
                      | Ok json_list =>
                          (set_last json_list "," ≫= fun _ => set_responses w) s
                      | Raise e => (s, Raise e)
                      end).
    { unfold run_step. cbn [line clock]. monad_unfold.
      change ("," +:+ rest) with (String "," rest).
      change (bool_decide (String "," rest = "")) with false.
      change (Py.startswith "[{" (String "," rest)) with false.
      change (Py.startswith "," (String "," rest)) with true.
      cbn [negb]. unfold jsonify. monad_unfold.
      destruct (loads rest); reflexivity. }
    split; [exact Hstep|].
    rewrite Hstep. destruct (loads rest) as [l|e]; [|reflexivity].
    monad_unfold.
    pose proof (printed_set_responses w (set_last l "," s).1) as K.
    change (set_last l "," s) with ((set_last l "," s).1, Ok tt : result unit).
    cbv iota beta.
    destruct (set_responses w _) as [s2 [[]|e]]; exact K.
Qed.
End frame_facts.

(** *** A snapshot longer than the list of native entries *)
Section long_snapshot.
Import Supervisor.

Lemma set_responses_loop_app (w : wall) (l1 l2 : list (gmap string jvalue))
    (index : nat) (updates : list string) (s : I3status) :
  set_responses_loop w index (l1 ++ l2) updates s
  = match set_responses_loop w index l1 updates s with
    | (s1, Ok updates1) =>
        set_responses_loop w (index + length l1) l2 updates1 s1
    | (s1, Raise e) => (s1, Raise e)
    end.
Proof.
  revert index updates s. induction l1 as [|i l1 IH]; intros index updates s.
  - cbn. by rewrite Nat.add_0_r.
  - cbn [app set_responses_loop length]. monad_unfold.
    destruct (set_response w index i s) as [s1 [[n b]|e]]; [|reflexivity].
    rewrite IH. replace (S index + length l1)%nat with (index + S (length l1))%nat by lia.
    reflexivity.
Qed.

(** None of the exceptions of the responses is the one that [run] catches. *)
Lemma now_raises (w : wall) (z : option Tz) (e : exn) :
  now w z = Raise e -> is_IOError e = false.
Proof.
  unfold now. destruct z as [z|]; [|discriminate].
  destruct (_ && _); [discriminate|]. by intros [= <-].
Qed.

Lemma update_time_value_raises (w : wall) (m m' : I3statusModule) (e : exn) :
  update_time_value w m = (m', Raise e) -> is_IOError e = false.
Proof.
  unfold update_time_value, full_text. monad_unfold.
  destruct (now w (tz m)) as [[date zone]|e0] eqn:Hn.
  2:{ intros [= _ <-]. eapply now_raises, Hn. }
  destruct (time_format m); try (by intros [= _ <-]).
  destruct (item m !! "full_text"); [|by intros [= _ <-]].
  destruct (bool_decide _); discriminate.
Qed.

Lemma set_time_zone_raises (w : wall) (m m' : I3statusModule) (e : exn) :
  set_time_zone w m = (m', Raise e) -> is_IOError e = false.
Proof.
  unfold set_time_zone, full_text. monad_unfold.
  destruct (item m !! "full_text") as [[s| | |]|]; try (by intros [= _ <-]).
  destruct (Py.split s !! 2%nat); [|by intros [= _ <-]].
  destruct (Py.strptime _ _) as [date|e0] eqn:Hd.
  2:{ intros [= _ <-]. eapply strptime_raises, Hd. }
  unfold now. cbv beta iota.
  destruct (Py.datetime_new _ _ _ _ _ _) as [a|e0] eqn:Ha.
  2:{ intros [= _ <-]. eapply datetime_new_raises, Ha. }
  clear Ha. destruct (Py.datetime_new _ _ _ _ _ _) as [b|e0] eqn:Hb.
  2:{ intros [= _ <-]. eapply datetime_new_raises, Hb. }
  discriminate.
Qed.

Lemma update_from_item_raises (w : wall) (i : gmap string jvalue)
    (m m' : I3statusModule) (e : exn) :
  update_from_item w i m = (m', Raise e) -> is_IOError e = false.
Proof.
  unfold update_from_item. monad_unfold.
  destruct (is_time_module m); [|discriminate].
  destruct (time_zone_due w (set_item i m)).
  - destruct (set_time_zone w (set_item i m)) as [m1 [[]|e0]] eqn:Hz.
    + apply update_time_value_raises.
    + intros [= _ <-]. eapply set_time_zone_raises, Hz.
  - apply update_time_value_raises.
Qed.

Lemma init_raises (name : string) (cfg : config) (e : exn) :
  Clock.init name cfg = Raise e -> is_IOError e = false.
Proof.
  unfold Clock.init, first_token. monad_unfold.
  destruct (Py.split name); [by intros [= <-]|].
  destruct (is_time_module _); [|discriminate].
  unfold Clock.set_time_format. monad_unfold. cbn [module_name].
  destruct (cfg !! name) as [[d| | |]|]; try (by intros [= <-]).
  destruct (Py.dict_get "format_time" d) as [ft|]; [|discriminate].
  destruct (default _ _); try (by intros [= <-]).
  destruct ft; try (by intros [= <-]).
Qed.

Lemma set_response_raises (w : wall) (index : nat) (i : gmap string jvalue)
    (s s' : I3status) (e : exn) :
  set_response w index i s = (s', Raise e) -> is_IOError e = false.
Proof.
  unfold set_response, names_at. monad_unfold.
  destruct (conf s !! "i3s_modules") as [[| names | |]|]; try (by intros [= _ <-]).
  destruct (names !! index) as [conf_name|]; [|by intros [= _ <-]].
  destruct (i3modules s !! conf_name) as [m|].
  - destruct (update_from_item w i m) as [m' [b|e0]] eqn:Hu; [discriminate|].
    cbn. intros [= _ <-]. eapply update_from_item_raises, Hu.
  - destruct (Clock.init conf_name (conf s)) as [m|e0] eqn:Hi.
    2:{ intros [= _ <-]. eapply init_raises, Hi. }
    cbn. destruct (update_from_item w i m) as [m' [b|e0]] eqn:Hu; [discriminate|].
    cbn. intros [= _ <-]. eapply update_from_item_raises, Hu.
Qed.

Lemma set_responses_loop_raises (w : wall) (l : list (gmap string jvalue))
    (index : nat) (updates : list string) (s s' : I3status) (e : exn) :
  set_responses_loop w index l updates s = (s', Raise e) -> is_IOError e = false.
Proof.
  revert index updates s. induction l as [|i l IH]; intros index updates s;
    [discriminate|].
  cbn [set_responses_loop]. monad_unfold.
  destruct (set_response w index i s) as [s1 [[n b]|e0]] eqn:Hr.
  - apply IH.
  - intros [= _ <-]. eapply set_response_raises, Hr.
Qed.

(** The lookup of the name at an index past the list. *)
Lemma set_response_past_the_names (w : wall) (index : nat)
    (i : gmap string jvalue) (s : I3status) (names : list string) :
  names_at "i3s_modules" (conf s) = Ok names ->
  (length names <= index)%nat ->
  set_response w index i s = (s, Raise (IndexError "list index out of range")).
Proof.
  intros Hn Hi. unfold set_response. monad_unfold. rewrite Hn.
  rewrite (lookup_ge_None_2 names index Hi). reflexivity.
Qed.

Lemma events_set_responses_loop (w : wall) (l : list (gmap string jvalue))
    (index : nat) (updates : list string) (s : I3status) :
  events (set_responses_loop w index l updates s).1 = events s.
Proof. apply kept_set_responses_loop. reflexivity. Qed.

Lemma conf_set_responses_loop (w : wall) (l : list (gmap string jvalue))
    (index : nat) (updates : list string) (s : I3status) :
  conf (set_responses_loop w index l updates s).1 = conf s.
Proof. apply kept_set_responses_loop. reflexivity. Qed.

(** Against C10 as stated: the snapshot has three entries for two native
    names, and the update of its second entry, a clock, raises the
    [ValueError] of [strptime] before the third is looked up. *)
Lemma C10_counterexample :
  let l : list (gmap string jvalue) :=
    [ {["full_text" := JStr "98%"]}; {["full_text" := JStr "no time yet"]};
      {["full_text" := JStr "extra"]} ] in
  let s := (set_last l "," (init sample_config)).1 in
  names_at "i3s_modules" (conf s) = Ok ["battery 0"; "tztime berlin"]
  /\ (length ["battery 0"; "tztime berlin"] < length l)%nat
  /\ (set_responses (mk_wall 1709289015 0) s).2
     = Raise (ValueError
         "time data 'no time' does not match format '%Y-%m-%d %H:%M:%S'").
Proof. vm_compute. repeat split; try reflexivity. Qed.

(** C10, amended.  When the snapshot has more entries than [i3s_modules]
    has names, [set_responses] never returns: it raises an exception that
    [run] does not catch, and [notify_update] is not called.  When the
    entries that have a name are updated without error, the exception is
    the [IndexError] of the lookup of the name at the first index past the
    names. *)
Theorem C10_snapshot_longer_than_the_native_names
    (w : wall) (s : I3status) (l : list (gmap string jvalue))
    (names : list string) :
  last_output s = Some l ->
  names_at "i3s_modules" (conf s) = Ok names ->
  (length names < length l)%nat ->
  (exists s' e,
     set_responses w s = (s', Raise e)
     /\ is_IOError e = false
     /\ events s' = events s)
  /\ (forall s1 updates,
        set_responses_loop w 0 (take (length names) l) []
          (update_json_list s).1 = (s1, Ok updates) ->
        set_responses w s
        = (s1, Raise (IndexError "list index out of range"))).
Proof.
  intros Hl Hn Hlen.
  destruct (drop (length names) l) as [|i rest] eqn:Hd.
  { apply (f_equal length) in Hd. rewrite length_drop in Hd. cbn in Hd. lia. }
  assert (Hsplit : l = take (length names) l ++ i :: rest)
    by (by rewrite <- Hd, take_drop).
  set (s0 := (update_json_list s).1).
  assert (Hrun : set_responses w s
                 = match set_responses_loop w 0 l [] s0 with
                   | (s1, Ok updates) => notify_update updates s1
                   | (s1, Raise e) => (s1, Raise e)
                   end).
  { unfold set_responses. monad_unfold. cbn. rewrite Hl. reflexivity. }
  assert (Hloop : set_responses_loop w 0 l [] s0
                  = match set_responses_loop w 0 (take (length names) l) [] s0 with
                    | (s1, Ok _) => (s1, Raise (IndexError "list index out of range"))
                    | (s1, Raise e) => (s1, Raise e)
                    end).
  { rewrite Hsplit at 1. rewrite set_responses_loop_app.
    pose proof (conf_set_responses_loop w (take (length names) l) 0 [] s0) as Hc.
    destruct (set_responses_loop w 0 (take (length names) l) [] s0)
      as [s1 [ups|e]]; [|reflexivity].
    cbn [set_responses_loop]. monad_unfold.
    rewrite (set_response_past_the_names w _ i s1 names).
    - reflexivity.
    - cbn in Hc. rewrite Hc. exact Hn.
    - rewrite length_take. lia. }
  split.
  - rewrite Hrun, Hloop.
    pose proof (events_set_responses_loop w (take (length names) l) 0 [] s0) as He.
    destruct (set_responses_loop w 0 (take (length names) l) [] s0)
      as [s1 [ups|e]] eqn:Hp; cbn in He.
    + exists s1. eexists. repeat split. exact He.
    + exists s1, e. repeat split; [|exact He].
      eapply set_responses_loop_raises, Hp.
  - intros s1 updates Hp. rewrite Hrun, Hloop. fold s0 in Hp. rewrite Hp.
    reflexivity.
Qed.

(** The hypotheses of C10 hold for a snapshot of three entries under the
    configuration of the sample, which has two native names. *)
Lemma C10_witness :
  (exists s' e,
     set_responses (mk_wall 1709289015 0)
       (set_last [ {["full_text" := JStr "98%"]};
                   {["full_text" := JStr "2024-03-01 10:00:00 CET"]};
                   {["full_text" := JStr "extra"]} ] "," (init sample_config)).1
     = (s', Raise e)
     /\ is_IOError e = false
     /\ events s'
        = events (set_last [ {["full_text" := JStr "98%"]};
                   {["full_text" := JStr "2024-03-01 10:00:00 CET"]};
                   {["full_text" := JStr "extra"]} ] "," (init sample_config)).1)
  /\ (forall s1 updates,
        set_responses_loop (mk_wall 1709289015 0) 0
          (take (length ["battery 0"; "tztime berlin"])
             [ {["full_text" := JStr "98%"]};
               {["full_text" := JStr "2024-03-01 10:00:00 CET"]};
               {["full_text" := JStr "extra"]} ]) []
          (update_json_list
             (set_last [ {["full_text" := JStr "98%"]};
                   {["full_text" := JStr "2024-03-01 10:00:00 CET"]};
                   {["full_text" := JStr "extra"]} ] "," (init sample_config)).1).1
        = (s1, Ok updates) ->
        set_responses (mk_wall 1709289015 0)
          (set_last [ {["full_text" := JStr "98%"]};
                   {["full_text" := JStr "2024-03-01 10:00:00 CET"]};
                   {["full_text" := JStr "extra"]} ] "," (init sample_config)).1
        = (s1, Raise (IndexError "list index out of range"))).
Proof.
  apply (C10_snapshot_longer_than_the_native_names (mk_wall 1709289015 0)
           (set_last [ {["full_text" := JStr "98%"]};
                   {["full_text" := JStr "2024-03-01 10:00:00 CET"]};
                   {["full_text" := JStr "extra"]} ] "," (init sample_config)).1
           [ {["full_text" := JStr "98%"]};
             {["full_text" := JStr "2024-03-01 10:00:00 CET"]};
             {["full_text" := JStr "extra"]} ]
           ["battery 0"; "tztime berlin"]).
  - reflexivity.
  - vm_compute. reflexivity.
  - cbn. lia.
Defined.
End long_snapshot.

(** ** More on the clock entries *)

Lemma to_seconds_whole_minute (y m d H M : Z) :
  Py.to_seconds (Py.mk_datetime y m d H M 0) mod 60 = 0.
Proof.
  unfold Py.to_seconds. cbn [Py.year Py.month Py.day Py.hour Py.minute Py.second].
  set (n := Py.ymd2ord y m d). clearbody n.
  Z.div_mod_to_equations. lia.
Qed.

Lemma datetime_new_inv (y m d H M S : Z) (a : Py.datetime) :
  Py.datetime_new y m d H M S = Ok a -> a = Py.mk_datetime y m d H M S.
Proof.
  unfold Py.datetime_new.
  repeat (destruct (negb _); [discriminate|]). by intros [= <-].
Qed.

(** X1.  Whenever [set_time_zone] returns, the zone that it stores has for
    name the third token of the text of the entry and for offset a whole
    number of minutes: both times are cut to the minute before they are
    subtracted.  Nothing but the zone is changed. *)
Theorem X1_inferred_offset_is_whole_minutes
    (w : wall) (m m' : I3statusModule) :
  set_time_zone w m = (m', Ok tt) ->
  exists s label off,
    item m !! "full_text" = Some (JStr s)
    /\ Py.split s !! 2%nat = Some label
    /\ tz m' = Some (mk_Tz label off)
    /\ off mod 60 = 0
    /\ m' = set_tz (Some (mk_Tz label off)) m.
Proof.
  unfold set_time_zone, full_text. monad_unfold.
  destruct (item m !! "full_text") as [[s| | |]|] eqn:Hs; try discriminate.
  destruct (Py.split s !! 2%nat) as [label|] eqn:Hl; [|discriminate].
  destruct (Py.strptime _ _) as [date|]; [|discriminate].
  unfold now. cbv beta iota.
  destruct (Py.datetime_new _ _ _ _ _ _) as [a|] eqn:Ha; [|discriminate].
  destruct (Py.datetime_new (Py.year (Py.of_timestamp _)) _ _ _ _ _) as [b|] eqn:Hb;
    [|discriminate].
  intros [= <-]. exists s, label, (Py.datetime_sub a b).
  split; [reflexivity|]. split; [exact Hl|]. split; [reflexivity|].
  split; [|reflexivity].
  apply datetime_new_inv in Ha, Hb. subst a b. unfold Py.datetime_sub.
  pose proof (to_seconds_whole_minute (Py.year date) (Py.month date) (Py.day date)
                (Py.hour date) (Py.minute date)) as K1.
  set (u := Py.of_timestamp (time w + utc_offset w)) in *.
  pose proof (to_seconds_whole_minute (Py.year u) (Py.month u) (Py.day u)
                (Py.hour u) (Py.minute u)) as K2.
  revert K1 K2. generalize (Py.to_seconds (Py.mk_datetime (Py.year date) (Py.month date)
    (Py.day date) (Py.hour date) (Py.minute date) 0)).
  generalize (Py.to_seconds (Py.mk_datetime (Py.year u) (Py.month u)
    (Py.day u) (Py.hour u) (Py.minute u) 0)).
  intros p q. Z.div_mod_to_equations. lia.
Qed.

(** The zone is inferred from the wire text of the sample at 10:30:15. *)
Lemma X1_witness :
  exists s label off,
    item (mk_module "tztime berlin" true {["full_text" := JStr wire_text]} None
            (VStr "%H:%M")) !! "full_text" = Some (JStr s)
    /\ Py.split s !! 2%nat = Some label
    /\ tz (set_tz (Some (mk_Tz "ZZZ" (-1800)))
             (mk_module "tztime berlin" true {["full_text" := JStr wire_text]} None
                (VStr "%H:%M"))) = Some (mk_Tz label off)
    /\ off mod 60 = 0
    /\ set_tz (Some (mk_Tz "ZZZ" (-1800)))
         (mk_module "tztime berlin" true {["full_text" := JStr wire_text]} None
            (VStr "%H:%M"))
       = set_tz (Some (mk_Tz label off))
           (mk_module "tztime berlin" true {["full_text" := JStr wire_text]} None
              (VStr "%H:%M")).
Proof.
  apply (X1_inferred_offset_is_whole_minutes (mk_wall 1709289015 0)).
  vm_compute. reflexivity.
Defined.

(** What [update_time_value] leaves when it returns: the entry as it was,
    which held the text, or the entry with the text. *)
Lemma update_time_value_cases (w : wall) (m m' : I3statusModule) (b : bool) :
  update_time_value w m = (m', Ok b) ->
  exists f date zone old,
    time_format m = VStr f /\ now w (tz m) = Ok (date, zone)
    /\ item m !! "full_text" = Some old
    /\ (m' = m /\ old = JStr (Py.strftime f date zone)
        \/ m' = set_item (<["full_text" := JStr (Py.strftime f date zone)]> (item m)) m).
Proof.
  unfold update_time_value, full_text. monad_unfold.
  destruct (now w (tz m)) as [[date zone]|e]; [|discriminate].
  destruct (time_format m) as [f| | | |]; try discriminate.
  destruct (item m !! "full_text") as [old|] eqn:Hold; [|discriminate].
  intros H. exists f, date, zone, old. repeat split.
  destruct (bool_decide (old ≠ _)) eqn:Hb; injection H as <- <-.
  - by right.
  - left. split; [reflexivity|]. apply bool_decide_eq_false in Hb.
    by destruct (decide (old = JStr (Py.strftime f date zone))).
Qed.

Lemma update_time_value_again (w : wall) (m m' : I3statusModule) (b : bool) :
  update_time_value w m = (m', Ok b) ->
  update_time_value w m' = (m', Ok false).
Proof.
  intros H.
  destruct (update_time_value_cases w m m' b H)
    as (f & date & zone & old & Hf & Hn & Hold & [[-> ->]| ->]).
  - rewrite (update_time_value_ok w m f date zone _ Hn Hf Hold).
    rewrite bool_decide_eq_false_2 by (intros K; by apply K). reflexivity.
  - rewrite (update_time_value_ok w _ f date zone (JStr (Py.strftime f date zone)));
      [| exact Hn | exact Hf | apply lookup_insert_eq].
    rewrite bool_decide_eq_false_2 by (intros K; by apply K). reflexivity.
Qed.

(** X2.  [update_time_value] settles: once it has returned, a second call
    at the same reading of the clock returns false and changes nothing.  The
    first call touches the text of the entry only. *)
Theorem X2_update_time_value_settles
    (w : wall) (m m' : I3statusModule) (b : bool) :
  update_time_value w m = (m', Ok b) ->
  update_time_value w m' = (m', Ok false)
  /\ (forall k, k <> "full_text" -> item m' !! k = item m !! k)
  /\ tz m' = tz m
  /\ time_format m' = time_format m
  /\ module_name m' = module_name m
  /\ is_time_module m' = is_time_module m.
Proof.
  intros H. split; [exact (update_time_value_again w m m' b H)|].
  destruct (update_time_value_cases w m m' b H)
    as (f & date & zone & old & Hf & Hn & Hold & [[-> ->]| ->]).
  - by repeat split.
  - repeat split. intros k Hk. cbn. by rewrite lookup_insert_ne.
Qed.

(** The entry of the sample, shown at 10:30:15 in the zone inferred. *)
Lemma X2_witness :
  let m := mk_module "tztime berlin" true {["full_text" := JStr wire_text]}
             (Some (mk_Tz "ZZZ" (-1800))) (VStr "%H:%M") in
  let m' := set_item {["full_text" := JStr "10:00"]} m in
  update_time_value (mk_wall 1709289015 0) m' = (m', Ok false)
  /\ (forall k, k <> "full_text" -> item m' !! k = item m !! k)
  /\ tz m' = tz m
  /\ time_format m' = time_format m
  /\ module_name m' = module_name m
  /\ is_time_module m' = is_time_module m.
Proof.
  apply (X2_update_time_value_settles (mk_wall 1709289015 0) _ _ true).
  vm_compute. reflexivity.
Defined.

Lemma set_time_zone_item (w : wall) (m m' : I3statusModule) (r : result unit) :
  set_time_zone w m = (m', r) -> item m' = item m /\ time_format m' = time_format m.
Proof.
  unfold set_time_zone, full_text. monad_unfold.
  destruct (item m !! "full_text") as [[s| | |]|]; try (by intros [= <- _]).
  destruct (Py.split s !! 2%nat); [|by intros [= <- _]].
  destruct (Py.strptime _ _); [|by intros [= <- _]].
  unfold now. cbv beta iota.
  destruct (Py.datetime_new _ _ _ _ _ _); [|by intros [= <- _]].
  destruct (Py.datetime_new _ _ _ _ _ _); [|by intros [= <- _]].
  by intros [= <- _].
Qed.

(** X3.  For a clock entry the answer of [update_from_item] does not
    depend on the entry held before: the text that it formats is compared
    with the text of the snapshot entry that has just arrived.  It answers
    true exactly when the two differ. *)
Theorem X3_clock_change_is_measured_against_the_wire_text
    (w : wall) (i j : gmap string jvalue) (m m' : I3statusModule) (b : bool) :
  is_time_module m = true ->
  update_from_item w i m = (m', Ok b) ->
  update_from_item w i (set_item j m) = (m', Ok b)
  /\ exists shown,
       item m' !! "full_text" = Some (JStr shown)
       /\ (b = true <-> i !! "full_text" <> Some (JStr shown)).
Proof.
  intros Ht H. split.
  - rewrite <- H. rewrite !update_from_item_clock by exact Ht. reflexivity.
  - rewrite update_from_item_clock in H by exact Ht.
    assert (Hu : exists m1, item m1 = i /\ update_time_value w m1 = (m', Ok b)).
    { destruct (time_zone_due w m).
      - revert H. monad_unfold.
        destruct (set_time_zone w (set_item i m)) as [m1 [[]|e]] eqn:Hz; [|discriminate].
        intros H. exists m1. split; [|exact H].
        by apply set_time_zone_item in Hz as [-> _].
      - by exists (set_item i m). }
    destruct Hu as (m1 & <- & Hu).
    destruct (update_time_value_inv _ _ _ _ Hu)
      as (f & date & zone & old & _ & _ & Hold & -> & Hnew).
    exists (Py.strftime f date zone). split; [exact Hnew|].
    rewrite Hold. split.
    + intros Hb%bool_decide_eq_true. congruence.
    + intros Hb. apply bool_decide_eq_true. congruence.
Qed.

(** The entry of the sample receives the wire text at 10:30:15. *)
Lemma X3_witness :
  let m := mk_module "tztime berlin" true ∅ None (VStr "%H:%M") in
  let i : gmap string jvalue := {["full_text" := JStr wire_text]} in
  let m' := mk_module "tztime berlin" true {["full_text" := JStr "10:00"]}
              (Some (mk_Tz "ZZZ" (-1800))) (VStr "%H:%M") in
  update_from_item (mk_wall 1709289015 0) i
    (set_item {["full_text" := JStr "09:59"]} m) = (m', Ok true)
  /\ exists shown,
       item m' !! "full_text" = Some (JStr shown)
       /\ (true = true <-> i !! "full_text" <> Some (JStr shown)).
Proof.
  apply (X3_clock_change_is_measured_against_the_wire_text (mk_wall 1709289015 0)).
  - reflexivity.
  - vm_compute. reflexivity.
Defined.

(** ** The calendar *)

Lemma year_day_spec (leapyear : bool) (n : Z) :
  0 <= n < 365 -> year_day_ok leapyear n = true.
Proof.
  intros Hn.
  assert (H : forallb (fun k => year_day_ok true (Z.of_nat k)
                                && year_day_ok false (Z.of_nat k)) (seq 0 365) = true)
    by (vm_compute; reflexivity).
  rewrite forallb_forall in H. specialize (H (Z.to_nat n)).
  rewrite Z2Nat.id in H by lia.
  assert (Hin : In (Z.to_nat n) (seq 0 365)) by (apply in_seq; lia).
  apply H, andb_true_iff in Hin as [? ?]. by destruct leapyear.
Qed.

Lemma ord2ymd_eq (n : Z) :
  Py.ord2ymd n
  = let n0 := n - 1 in
    let n400 := n0 / 146097 in let r1 := n0 mod 146097 in
    let n100 := r1 / 36524 in let r2 := r1 mod 36524 in
    let n4 := r2 / 1461 in let r3 := r2 mod 1461 in
    let n1 := r3 / 365 in let r4 := r3 mod 365 in
    let y := n400 * 400 + 1 + n100 * 100 + n4 * 4 + n1 in
    if (n1 =? 4) || (n100 =? 4) then (y - 1, 12, 31)
    else
      let leapyear := (n1 =? 3) && (negb (n4 =? 24) || (n100 =? 3)) in
      (y, (year_day leapyear r4).1, (year_day leapyear r4).2).
Proof.
  unfold Py.ord2ymd, year_day. cbv zeta.
  destruct (_ || _); [reflexivity|].
  destruct (_ <? _); reflexivity.
Qed.

Lemma is_leap_true (y : Z) :
  Py.is_leap y = true <-> y mod 4 = 0 /\ (y mod 100 <> 0 \/ y mod 400 = 0).
Proof.
  unfold Py.is_leap. rewrite andb_true_iff, orb_true_iff, negb_true_iff.
  rewrite !Z.eqb_eq, Z.eqb_neq. tauto.
Qed.

Lemma ord2ymd_spec (n : Z) :
  1 <= n ->
  exists y m d,
    Py.ord2ymd n = (y, m, d)
    /\ 1 <= y /\ 1 <= m <= 12 /\ 1 <= d <= Py.days_in_month y m
    /\ Py.ymd2ord y m d = n
    /\ Py.days_before_year y < n <= Py.days_before_year (y + 1).
Proof.
  intros Hn. rewrite ord2ymd_eq. cbv zeta.
  set (n0 := n - 1).
  set (n400 := n0 / 146097). set (r1 := n0 mod 146097).
  set (n100 := r1 / 36524). set (r2 := r1 mod 36524).
  set (n4 := r2 / 1461). set (r3 := r2 mod 1461).
  set (n1 := r3 / 365). set (r4 := r3 mod 365).
  assert (E1 : n0 = 146097 * n400 + r1 /\ 0 <= r1 < 146097)
    by (subst n400 r1; Z.div_mod_to_equations; lia).
  assert (E2 : r1 = 36524 * n100 + r2 /\ 0 <= r2 < 36524)
    by (subst n100 r2; Z.div_mod_to_equations; lia).
  assert (E3 : r2 = 1461 * n4 + r3 /\ 0 <= r3 < 1461)
    by (subst n4 r3; Z.div_mod_to_equations; lia).
  assert (E4 : r3 = 365 * n1 + r4 /\ 0 <= r4 < 365)
    by (subst n1 r4; Z.div_mod_to_equations; lia).
  assert (E0 : 0 <= n0 /\ n = n0 + 1) by (subst n0; lia).
  clearbody n0 n400 r1 n100 r2 n4 r3 n1 r4.
  assert (B : 0 <= n400 /\ 0 <= n100 <= 4 /\ 0 <= n4 <= 24 /\ 0 <= n1 <= 4) by lia.
  set (Y := n400 * 400 + n100 * 100 + n4 * 4 + n1).
  assert (HY : n400 * 400 + 1 + n100 * 100 + n4 * 4 + n1 = Y + 1) by (subst Y; lia).
  rewrite HY.
  destruct ((n1 =? 4) || (n100 =? 4)) eqn:Hsp.
  - (* the last day of a leap year *)
    replace (Y + 1 - 1) with Y by lia.
    assert (Hc : (n1 = 4 /\ n4 <= 23 /\ r4 = 0) \/ (n100 = 4 /\ n4 = 0 /\ n1 = 0 /\ r4 = 0)).
    { apply orb_true_iff in Hsp as [H|H]; apply Z.eqb_eq in H; lia. }
    assert (Hleap : Py.is_leap Y = true).
    { apply is_leap_true. subst Y. destruct Hc as [(-> & ? & ?)|(-> & -> & -> & ?)].
      - split; [Z.div_mod_to_equations; lia|]. left. Z.div_mod_to_equations. lia.
      - split; [Z.div_mod_to_equations; lia|]. right. Z.div_mod_to_equations. lia. }
    exists Y, 12, 31. split; [reflexivity|].
    unfold Py.days_in_month, Py.ymd2ord, Py.days_before_month, Py.days_before_year.
    rewrite Hleap. cbn [andb]. change (12 =? 2) with false. change (2 <? 12) with true.
    cbn [andb]. change (default 0 (Py.DAYS_IN_MONTH !! Z.to_nat 12)) with 31.
    change (default 0 (Py.DAYS_BEFORE_MONTH !! Z.to_nat 12)) with 334.
    subst Y. replace (n400 * 400 + n100 * 100 + n4 * 4 + n1 + 1 - 1)
      with (n400 * 400 + n100 * 100 + n4 * 4 + n1) by lia.
    destruct Hc as [(-> & ? & ?)|(-> & -> & -> & ?)];
      repeat split; try lia; Z.div_mod_to_equations; lia.
  - apply orb_false_iff in Hsp as [H1 H100]. apply Z.eqb_neq in H1, H100.
    set (leapyear := (n1 =? 3) && (negb (n4 =? 24) || (n100 =? 3))).
    assert (Hleap : Py.is_leap (Y + 1) = leapyear).
    { subst leapyear. destruct (Py.is_leap (Y + 1)) eqn:Hl.
      - apply is_leap_true in Hl. symmetry.
        apply andb_true_iff. rewrite orb_true_iff, negb_true_iff, !Z.eqb_eq, Z.eqb_neq.
        subst Y. destruct Hl as [H4 H]. split; [Z.div_mod_to_equations; lia|].
        destruct (decide (n4 = 24)) as [->|]; [|by left]. right.
        destruct H as [H|H]; Z.div_mod_to_equations; lia.
      - symmetry. apply not_true_iff_false. intros Hc. apply not_true_iff_false in Hl.
        apply Hl, is_leap_true.
        apply andb_true_iff in Hc as [Ha Hb]. apply Z.eqb_eq in Ha.
        apply orb_true_iff in Hb. rewrite negb_true_iff, Z.eqb_neq, Z.eqb_eq in Hb.
        subst Y. split; [Z.div_mod_to_equations; lia|].
        destruct Hb as [Hb| ->].
        + left. Z.div_mod_to_equations. lia.
        + destruct (decide (n4 = 24)) as [->|].
          * right. Z.div_mod_to_equations. lia.
          * left. Z.div_mod_to_equations. lia. }
    pose proof (year_day_spec leapyear r4 ltac:(lia)) as Hok.
    unfold year_day_ok in Hok.
    destruct (year_day leapyear r4) as [m d]. cbn [fst snd].
    rewrite !andb_true_iff, !Z.leb_le, Z.eqb_eq in Hok.
    destruct Hok as ((((Hm1 & Hm2) & Hd1) & Hd2) & Hsum).
    exists (Y + 1), m, d. split; [reflexivity|].
    unfold Py.days_in_month, Py.ymd2ord, Py.days_before_month. rewrite Hleap.
    assert (Hdy : Py.days_before_year (Y + 1)
                  = 146097 * n400 + 36524 * n100 + 1461 * n4 + 365 * n1).
    { unfold Py.days_before_year. subst Y. cbv zeta.
      replace (n400 * 400 + n100 * 100 + n4 * 4 + n1 + 1 - 1)
        with (n400 * 400 + n100 * 100 + n4 * 4 + n1) by lia.
      Z.div_mod_to_equations. lia. }
    assert (Hdy' : Py.days_before_year (Y + 1 + 1)
                   = Py.days_before_year (Y + 1) + 365 + (if leapyear then 1 else 0)).
    { rewrite <- Hleap. unfold Py.days_before_year. cbv zeta.
      replace (Y + 1 + 1 - 1) with (Y + 1) by lia.
      replace (Y + 1 - 1) with Y by lia.
      destruct (Py.is_leap (Y + 1)) eqn:Hl.
      - apply is_leap_true in Hl. Z.div_mod_to_equations. lia.
      - assert (~ ((Y + 1) mod 4 = 0 /\ ((Y + 1) mod 100 <> 0 \/ (Y + 1) mod 400 = 0))).
        { rewrite <- is_leap_true. congruence. }
        Z.div_mod_to_equations. lia. }
    rewrite Hdy', Hdy.
    repeat split; try lia. destruct leapyear; lia.
Qed.

Lemma days_before_year_mono (y N : Z) :
  Py.days_before_year y < N -> N <= 3652059 -> y <= 9999.
Proof.
  unfold Py.days_before_year. cbv zeta. intros H1 H2.
  destruct (Z_le_gt_dec y 9999) as [|Hgt]; [assumption|exfalso].
  revert H1. Z.div_mod_to_equations. lia.
Qed.

Lemma days_before_year_low (y N : Z) :
  N <= Py.days_before_year (y + 1) -> 719163 <= N -> 1000 <= y.
Proof.
  unfold Py.days_before_year. cbv zeta. intros H1 H2.
  replace (y + 1 - 1) with y in H1 by lia.
  destruct (Z_le_gt_dec 1000 y) as [|Hgt]; [assumption|exfalso].
  revert H1. Z.div_mod_to_equations. lia.
Qed.

(** The civil time of an instant between 1970 and the end of the year
    9999. *)
Lemma of_timestamp_spec (t : Z) :
  0 <= t < 253402300800 ->
  exists y m d,
    Py.of_timestamp t
    = Py.mk_datetime y m d (t mod 86400 / 3600) (t mod 86400 mod 3600 / 60)
        (t mod 86400 mod 60)
    /\ 1000 <= y <= 9999 /\ 1 <= m <= 12 /\ 1 <= d <= Py.days_in_month y m
    /\ Py.ymd2ord y m d = t / 86400 + 719163.
Proof.
  intros Ht. unfold Py.of_timestamp.
  assert (Hn : 719163 <= t / 86400 + 719163 <= 3652059)
    by (Z.div_mod_to_equations; lia).
  destruct (ord2ymd_spec (t / 86400 + 719163) ltac:(lia))
    as (y & m & d & -> & Hy & Hm & Hd & Hord & Hlo & Hhi).
  exists y, m, d. split; [reflexivity|].
  split; [|split; [exact Hm|split; [exact Hd|exact Hord]]].
  split.
  - eapply days_before_year_low; [exact Hhi | lia].
  - eapply days_before_year_mono; [exact Hlo | lia].
Qed.

(** *** The text of a time and its reading *)

Lemma digit_not_space (c : ascii) : Py.isdigit c = true -> Py.isspace c = false.
Proof.
  unfold Py.isdigit, Py.isspace. cbv zeta. generalize (Py.code c). intros n.
  rewrite andb_true_iff, !Z.leb_le. intros [? ?].
  rewrite !orb_false_iff, !andb_false_iff, !Z.leb_gt, !Z.eqb_neq. lia.
Qed.

Lemma pad2_digits (n : Z) :
  0 <= n < 100 ->
  exists c1 c2, Py.pad2 n = String c1 (String c2 "")
                /\ Py.isdigit c1 = true /\ Py.isdigit c2 = true.
Proof.
  intros Hn.
  assert (H : forallb (fun k => match Py.pad2 (Z.of_nat k) with
                                | String c1 (String c2 EmptyString) =>
                                    Py.isdigit c1 && Py.isdigit c2
                                | _ => false
                                end) (seq 0 100) = true) by (vm_compute; reflexivity).
  rewrite forallb_forall in H. specialize (H (Z.to_nat n)).
  rewrite Z2Nat.id in H by lia.
  assert (Hin : In (Z.to_nat n) (seq 0 100)) by (apply in_seq; lia).
  apply H in Hin. destruct (Py.pad2 n) as [|c1 [|c2 [|]]]; try discriminate.
  apply andb_true_iff in Hin as [? ?]. by exists c1, c2.
Qed.

Lemma year_digits (y : Z) :
  1000 <= y <= 9999 ->
  exists a b c d,
    Py.str_of_int y = String a (String b (String c (String d "")))
    /\ Py.isdigit a = true /\ Py.isdigit b = true
    /\ Py.isdigit c = true /\ Py.isdigit d = true
    /\ ((Py.digit_val a * 10 + Py.digit_val b) * 10 + Py.digit_val c) * 10
       + Py.digit_val d = y.
Proof.
  intros Hy.
  assert (H : forallb (fun q => forallb (fun r =>
                match Py.str_of_int (100 * Z.of_nat q + Z.of_nat r) with
                | String a (String b (String c (String d EmptyString))) =>
                    Py.isdigit a && Py.isdigit b && Py.isdigit c && Py.isdigit d
                    && (((Py.digit_val a * 10 + Py.digit_val b) * 10 + Py.digit_val c) * 10
                        + Py.digit_val d =? 100 * Z.of_nat q + Z.of_nat r)
                | _ => false
                end) (seq 0 100)) (seq 10 90) = true) by (vm_compute; reflexivity).
  rewrite forallb_forall in H. specialize (H (Z.to_nat (y / 100))).
  assert (Hq : In (Z.to_nat (y / 100)) (seq 10 90))
    by (apply in_seq; Z.div_mod_to_equations; lia).
  apply H in Hq. rewrite forallb_forall in Hq. specialize (Hq (Z.to_nat (y mod 100))).
  assert (Hr : In (Z.to_nat (y mod 100)) (seq 0 100))
    by (apply in_seq; Z.div_mod_to_equations; lia).
  apply Hq in Hr. rewrite !Z2Nat.id in Hr by (Z.div_mod_to_equations; lia).
  replace (100 * (y / 100) + y mod 100) with y in Hr by (Z.div_mod_to_equations; lia).
  destruct (Py.str_of_int y) as [|a [|b [|c [|d [|]]]]]; try discriminate.
  rewrite !andb_true_iff, Z.eqb_eq in Hr.
  destruct Hr as ((((? & ?) & ?) & ?) & ?). by exists a, b, c, d.
Qed.

Lemma nospace_app (a b : string) :
  nospace (a +:+ b) = nospace a && nospace b.
Proof.
  induction a as [|c a IH]; [reflexivity|].
  change (String c a +:+ b) with (String c (a +:+ b)). cbn [nospace].
  rewrite IH. by rewrite andb_assoc.
Qed.

Lemma nospace_pad2 (n : Z) : 0 <= n < 100 -> nospace (Py.pad2 n) = true.
Proof.
  intros Hn. destruct (pad2_digits n Hn) as (c1 & c2 & -> & H1 & H2).
  cbn. by rewrite (digit_not_space _ H1), (digit_not_space _ H2).
Qed.

Lemma nospace_year (y : Z) : 1000 <= y <= 9999 -> nospace (Py.str_of_int y) = true.
Proof.
  intros Hy. destruct (year_digits y Hy) as (a & b & c & d & -> & Ha & Hb & Hc & Hd & _).
  cbn. by rewrite (digit_not_space _ Ha), (digit_not_space _ Hb),
    (digit_not_space _ Hc), (digit_not_space _ Hd).
Qed.

Lemma app_not_empty (a b : string) : a <> "" -> a +:+ b <> "".
Proof. destruct a; [congruence|discriminate]. Qed.

(** Three words that single blanks separate. *)
Lemma split_three_words (w1 w2 w3 : string) :
  nospace w1 = true -> w1 <> "" ->
  nospace w2 = true -> w2 <> "" ->
  nospace w3 = true -> w3 <> "" ->
  Py.split (w1 +:+ " " +:+ w2 +:+ " " +:+ w3) = [w1; w2; w3].
Proof.
  intros N1 E1 N2 E2 N3 E3. unfold Py.split.
  rewrite split_go_word by assumption.
  change (" " +:+ w2 +:+ " " +:+ w3) with (String " " (w2 +:+ " " +:+ w3)).
  cbn [Py.split_go]. change (Py.isspace " ") with true. cbv iota.
  rewrite split_go_word by assumption.
  change (" " +:+ w3) with (String " " w3).
  cbn [Py.split_go]. change (Py.isspace " ") with true. cbv iota.
  rewrite <- (append_empty_r w3) at 1. rewrite split_go_word by assumption.
  cbn. rewrite !rev_rev_app. reflexivity.
Qed.

(** *** Reading back what [strftime] writes *)

Ltac two_digit_cases v lo n k H :=
  let Hin := fresh "Hin" in
  assert (Hin : In v (map Z.of_nat (seq lo n)))
    by (apply in_map_iff; exists (Z.to_nat v); split; [lia | apply in_seq; lia]);
  cbn in Hin;
  repeat (destruct Hin as [<-|Hin]; [cbv; cbv in H; rewrite H; reflexivity|]);
  destruct Hin.

Lemma first_alt_month {A} (k : Z -> string -> option A) (v : Z) (rest : string) (r : A) :
  1 <= v <= 12 -> k v rest = Some r ->
  Py.first_alt k (Py.alternatives Py.Dm) (Py.pad2 v +:+ rest) = Some r.
Proof. intros Hv H. two_digit_cases v 1%nat 12%nat k H. Qed.

Lemma first_alt_day {A} (k : Z -> string -> option A) (v : Z) (rest : string) (r : A) :
  1 <= v <= 31 -> k v rest = Some r ->
  Py.first_alt k (Py.alternatives Py.Dd) (Py.pad2 v +:+ rest) = Some r.
Proof. intros Hv H. two_digit_cases v 1%nat 31%nat k H. Qed.

Lemma first_alt_hour {A} (k : Z -> string -> option A) (v : Z) (rest : string) (r : A) :
  0 <= v <= 23 -> k v rest = Some r ->
  Py.first_alt k (Py.alternatives Py.DH) (Py.pad2 v +:+ rest) = Some r.
Proof. intros Hv H. two_digit_cases v 0%nat 24%nat k H. Qed.

Lemma first_alt_minute {A} (k : Z -> string -> option A) (v : Z) (rest : string) (r : A) :
  0 <= v <= 59 -> k v rest = Some r ->
  Py.first_alt k (Py.alternatives Py.DM) (Py.pad2 v +:+ rest) = Some r.
Proof. intros Hv H. two_digit_cases v 0%nat 60%nat k H. Qed.

Lemma first_alt_second {A} (k : Z -> string -> option A) (v : Z) (rest : string) (r : A) :
  0 <= v <= 59 -> k v rest = Some r ->
  Py.first_alt k (Py.alternatives Py.DS) (Py.pad2 v +:+ rest) = Some r.
Proof. intros Hv H. two_digit_cases v 0%nat 60%nat k H. Qed.

Lemma first_alt_year {A} (k : Z -> string -> option A) (y : Z) (rest : string) (r : A) :
  1000 <= y <= 9999 -> k y rest = Some r ->
  Py.first_alt k (Py.alternatives Py.DY) (Py.str_of_int y +:+ rest) = Some r.
Proof.
  intros Hy H.
  destruct (year_digits y Hy) as (a & b & c & d & -> & Ha & Hb & Hc & Hd & Hval).
  cbn [Py.alternatives Py.first_alt].
  change (String a (String b (String c (String d ""))) +:+ rest)
    with (String a (String b (String c (String d rest)))).
  cbn [Py.match_alt].
  change (Py.between "0" "9" a) with (Py.isdigit a).
  change (Py.between "0" "9" b) with (Py.isdigit b).
  change (Py.between "0" "9" c) with (Py.isdigit c).
  change (Py.between "0" "9" d) with (Py.isdigit d).
  rewrite Ha, Hb, Hc, Hd. cbn [mbind option_bind].
  replace (10 * (10 * (10 * (10 * 0 + Py.digit_val a) + Py.digit_val b)
                 + Py.digit_val c) + Py.digit_val d) with y by lia.
  by rewrite H.
Qed.

Lemma lit_app (c : ascii) (s : string) : String c "" +:+ s = String c s.
Proof. reflexivity. Qed.

(** The pattern of [TIME_FORMAT]. *)
Lemma compile_TIME_FORMAT :
  Py.compile_format false TIME_FORMAT
  = Some [Py.PField Py.DY; Py.PLit "-"; Py.PField Py.Dm; Py.PLit "-";
          Py.PField Py.Dd; Py.PSpaces; Py.PField Py.DH; Py.PLit ":";
          Py.PField Py.DM; Py.PLit ":"; Py.PField Py.DS].
Proof. reflexivity. Qed.

Lemma strftime_TZTIME_FORMAT (dt : Py.datetime) (label : string) (off : Z) :
  Py.strftime TZTIME_FORMAT dt (Some (label, off))
  = (Py.str_of_int (Py.year dt) +:+ "-" +:+ Py.pad2 (Py.month dt) +:+ "-"
     +:+ Py.pad2 (Py.day dt))
    +:+ " "
    +:+ (Py.pad2 (Py.hour dt) +:+ ":" +:+ Py.pad2 (Py.minute dt) +:+ ":"
         +:+ Py.pad2 (Py.second dt))
    +:+ " " +:+ label.
Proof.
  change (Py.strftime TZTIME_FORMAT dt (Some (label, off)))
    with (Py.str_of_int (Py.year dt) +:+ String "-" (Py.pad2 (Py.month dt) +:+
            String "-" (Py.pad2 (Py.day dt) +:+ String " " (Py.pad2 (Py.hour dt) +:+
            String ":" (Py.pad2 (Py.minute dt) +:+ String ":" (Py.pad2 (Py.second dt) +:+
            String " " (label +:+ ""))))))).
  rewrite append_empty_r, !append_assoc. reflexivity.
Qed.

Lemma days_in_month_le (y m : Z) : Py.days_in_month y m <= 31.
Proof.
  unfold Py.days_in_month. destruct (_ && _); [lia|].
  destruct (Z.to_nat m) as [|[|[|[|[|[|[|[|[|[|[|[|[|[|]]]]]]]]]]]]]]; cbn; lia.
Qed.

Lemma datetime_new_civil (dt : Py.datetime) :
  civil dt ->
  Py.datetime_new (Py.year dt) (Py.month dt) (Py.day dt) (Py.hour dt)
    (Py.minute dt) (Py.second dt) = Ok dt
  /\ Py.datetime_new (Py.year dt) (Py.month dt) (Py.day dt) (Py.hour dt)
       (Py.minute dt) 0
     = Ok (Py.mk_datetime (Py.year dt) (Py.month dt) (Py.day dt) (Py.hour dt)
             (Py.minute dt) 0).
Proof.
  intros (Hy & Hm & Hd & HH & HM & HS). unfold Py.datetime_new.
  assert (E : forall a b x, a <= x <= b -> negb ((a <=? x) && (x <=? b)) = false).
  { intros a b x [? ?]. apply negb_false_iff, andb_true_iff.
    split; by apply Z.leb_le. }
  rewrite !E by (assumption || lia). destruct dt; split; reflexivity.
Qed.

(** [strptime] reads back the text of a civil time. *)
Lemma strptime_time_text (dt : Py.datetime) :
  civil dt -> Py.strptime (time_text dt) TIME_FORMAT = Ok dt.
Proof.
  intros Hc. pose proof Hc as (Hy & Hm & Hd & HH & HM & HS).
  pose proof (days_in_month_le (Py.year dt) (Py.month dt)) as Hd31.
  unfold Py.strptime. rewrite compile_TIME_FORMAT.
  assert (Hmatch : Py.match_pieces
            [Py.PField Py.DY; Py.PLit "-"; Py.PField Py.Dm; Py.PLit "-";
             Py.PField Py.Dd; Py.PSpaces; Py.PField Py.DH; Py.PLit ":";
             Py.PField Py.DM; Py.PLit ":"; Py.PField Py.DS]
            Py.default_fields (time_text dt)
          = Some (Py.mk_fields (Py.year dt) (Py.month dt) (Py.day dt)
                    (Py.hour dt) (Py.minute dt) (Py.second dt), "")).
  { unfold time_text. rewrite !append_assoc, !lit_app.
    cbn [Py.match_pieces]. apply first_alt_year; [exact Hy|].
    cbn [Py.match_pieces].
    rewrite decide_True by reflexivity.
    apply first_alt_month; [exact Hm|].
    cbn [Py.match_pieces].
    rewrite decide_True by reflexivity.
    apply first_alt_day; [lia|].
    cbn [Py.match_pieces Py.spaces_then].
    change (Py.isspace " ") with true. cbv iota.
    destruct (pad2_digits (Py.hour dt) ltac:(lia)) as (h1 & h2 & Eh & Hh1 & Hh2).
    assert (Hnone : forall {A} (k : string -> option A) s,
               Py.spaces_then k (Py.pad2 (Py.hour dt) +:+ s) = None).
    { intros A k s. rewrite Eh. change (String h1 (String h2 "") +:+ s)
        with (String h1 (String h2 s)). cbn [Py.spaces_then].
      by rewrite (digit_not_space _ Hh1). }
    rewrite Hnone.
    apply first_alt_hour; [exact HH|].
    cbn [Py.match_pieces].
    rewrite decide_True by reflexivity.
    apply first_alt_minute; [exact HM|].
    cbn [Py.match_pieces].
    rewrite decide_True by reflexivity.
    rewrite <- (append_empty_r (Py.pad2 (Py.second dt))).
    apply first_alt_second; [exact HS|]. reflexivity. }
  rewrite Hmatch. cbn [Py.fY Py.fm Py.fd Py.fH Py.fM Py.fS].
  apply datetime_new_civil, Hc.
Qed.

Lemma of_timestamp_civil (t : Z) :
  0 <= t < 253402300800 ->
  civil (Py.of_timestamp t)
  /\ Py.to_seconds (Py.mk_datetime (Py.year (Py.of_timestamp t))
        (Py.month (Py.of_timestamp t)) (Py.day (Py.of_timestamp t))
        (Py.hour (Py.of_timestamp t)) (Py.minute (Py.of_timestamp t)) 0)
     = 719163 * 86400 + t - t mod 60.
Proof.
  intros Ht. destruct (of_timestamp_spec t Ht) as (y & m & d & -> & Hy & Hm & Hd & Hord).
  unfold civil, Py.to_seconds.
  cbn [Py.year Py.month Py.day Py.hour Py.minute Py.second]. rewrite Hord.
  repeat split; try lia; Z.div_mod_to_equations; lia.
Qed.

(** The zone inferred from the text that the child writes for an instant
    that lies [o] seconds after the clock of the machine in UTC. *)
Lemma set_time_zone_of_wire (w : wall) (m : I3statusModule) (label : string) (o : Z) :
  nospace label = true -> label <> "" ->
  o mod 60 = 0 -> utc_offset w mod 60 = 0 ->
  0 <= time w + o < 253402300800 ->
  0 <= time w + utc_offset w < 253402300800 ->
  item m !! "full_text"
  = Some (JStr (Py.strftime TZTIME_FORMAT (Py.of_timestamp (time w + o))
                  (Some (label, o)))) ->
  set_time_zone w m = (set_tz (Some (mk_Tz label (o - utc_offset w))) m, Ok tt).
Proof.
  intros Hn Hl Ho Hu Hr1 Hr2 Hi.
  destruct (of_timestamp_civil _ Hr1) as [C1 S1].
  destruct (of_timestamp_civil _ Hr2) as [C2 S2].
  set (d1 := Py.of_timestamp (time w + o)) in *.
  set (d2 := Py.of_timestamp (time w + utc_offset w)) in *.
  rewrite strftime_TZTIME_FORMAT in Hi.
  set (date := Py.str_of_int (Py.year d1) +:+ "-" +:+ Py.pad2 (Py.month d1) +:+ "-"
               +:+ Py.pad2 (Py.day d1)) in *.
  set (clock := Py.pad2 (Py.hour d1) +:+ ":" +:+ Py.pad2 (Py.minute d1) +:+ ":"
                +:+ Py.pad2 (Py.second d1)) in *.
  pose proof C1 as (Hy & Hm & Hd & HH & HM & HS).
  pose proof (days_in_month_le (Py.year d1) (Py.month d1)) as Hd31.
  assert (Nd : nospace date = true /\ date <> "").
  { subst date. split.
    - rewrite !nospace_app, nospace_year, !nospace_pad2 by lia. reflexivity.
    - destruct (year_digits _ Hy) as (a & b & c & d & -> & _). discriminate. }
  assert (Nc : nospace clock = true /\ clock <> "").
  { subst clock. split.
    - rewrite !nospace_app, !nospace_pad2 by lia. reflexivity.
    - destruct (pad2_digits (Py.hour d1) ltac:(lia)) as (a & b & -> & _). discriminate. }
  assert (Hsplit : Py.split (date +:+ " " +:+ clock +:+ " " +:+ label)
                   = [date; clock; label]).
  { apply split_three_words; tauto. }
  rewrite (set_time_zone_ok w m _ label d1 d2
             (Py.mk_datetime (Py.year d1) (Py.month d1) (Py.day d1) (Py.hour d1)
                (Py.minute d1) 0)
             (Py.mk_datetime (Py.year d2) (Py.month d2) (Py.day d2) (Py.hour d2)
                (Py.minute d2) 0) Hi).
  - f_equal. f_equal. f_equal. f_equal. unfold Py.datetime_sub.
    rewrite S1, S2. revert Ho Hu. Z.div_mod_to_equations. lia.
  - by rewrite Hsplit.
  - rewrite Hsplit. cbn [take Py.join]. apply (strptime_time_text d1 C1).
  - reflexivity.
  - apply datetime_new_civil, C1.
  - apply datetime_new_civil, C2.
Qed.

(** X4.  The child writes the time of a zone that lies [o] seconds from
    UTC, as [%Y-%m-%d %H:%M:%S %Z]; the machine is [utc_offset w] seconds
    from UTC, both whole minutes.  [set_time_zone] subtracts the local time
    of the machine, so that the zone stored has the offset
    [o - utc_offset w], and the entry then shows the instant
    [time w + (o - utc_offset w)] in the format of the user, a format of
    plain conversions: the time of the child when the machine keeps UTC. *)
Theorem X4_inferred_offset_is_relative_to_the_local_clock
    (w : wall) (m : I3statusModule) (i : gmap string jvalue)
    (label f : string) (o : Z) :
  is_time_module m = true ->
  time_format m = VStr f ->
  Py.covered f = true ->
  time_zone_due w m = true ->
  nospace label = true -> label <> "" ->
  o mod 60 = 0 -> utc_offset w mod 60 = 0 ->
  0 <= time w + o < 253402300800 ->
  0 <= time w + utc_offset w < 253402300800 ->
  -86400 < o - utc_offset w < 86400 ->
  i !! "full_text"
  = Some (JStr (Py.strftime TZTIME_FORMAT (Py.of_timestamp (time w + o))
                  (Some (label, o)))) ->
  exists m' b,
    update_from_item w i m = (m', Ok b)
    /\ tz m' = Some (mk_Tz label (o - utc_offset w))
    /\ item m' !! "full_text"
       = Some (JStr (Py.strftime f (Py.of_timestamp (time w + (o - utc_offset w)))
                       (Some (label, o - utc_offset w)))).
Proof.
  intros Ht Hf _ Hdue Hn Hl Ho Hu Hr1 Hr2 Hday Hi.
  rewrite update_from_item_clock by exact Ht. rewrite Hdue. monad_unfold.
  rewrite (set_time_zone_of_wire w (set_item i m) label o) by assumption.
  set (z := mk_Tz label (o - utc_offset w)).
  set (m1 := set_tz (Some z) (set_item i m)).
  assert (Hnow : now w (tz m1)
                 = Ok (Py.of_timestamp (time w + (o - utc_offset w)),
                       Some (label, o - utc_offset w))).
  { subst m1 z. cbn [tz set_tz]. unfold now, utcoffset, dst, tzname. cbn [_offset _name].
    replace ((-86400 <? o - utc_offset w) && (o - utc_offset w <? 86400)) with true
      by (symmetry; apply andb_true_iff; split; apply Z.ltb_lt; lia).
    do 3 f_equal. lia. }
  rewrite (update_time_value_ok w m1 f _ _ _ Hnow Hf Hi).
  destruct (bool_decide _) eqn:Hb; eexists _, _; (split; [reflexivity|]); split;
    try reflexivity.
  - cbn. apply lookup_insert_eq.
  - apply bool_decide_eq_false in Hb. change (item m1) with i. rewrite Hi. f_equal.
    match goal with |- ?a = ?b => by destruct (decide (a = b)) end.
Qed.

(** A machine one hour east of UTC and a child that writes the time of the
    same zone: the offset inferred is zero. *)
Lemma X4_witness :
  let w := mk_wall 1709289015 3600 in
  let i : gmap string jvalue :=
    {["full_text" := JStr (Py.strftime TZTIME_FORMAT
                             (Py.of_timestamp (time w + 3600)) (Some ("CET", 3600)))]} in
  exists m' b,
    update_from_item w i (mk_module "tztime berlin" true ∅ None (VStr "%H:%M"))
    = (m', Ok b)
    /\ tz m' = Some (mk_Tz "CET" (3600 - utc_offset w))
    /\ item m' !! "full_text"
       = Some (JStr (Py.strftime "%H:%M"
                       (Py.of_timestamp (time w + (3600 - utc_offset w)))
                       (Some ("CET", 3600 - utc_offset w)))).
Proof.
  apply (X4_inferred_offset_is_relative_to_the_local_clock
           (mk_wall 1709289015 3600)
           (mk_module "tztime berlin" true ∅ None (VStr "%H:%M")) _ "CET" "%H:%M" 3600).
  - reflexivity.
  - reflexivity.
  - reflexivity.
  - reflexivity.
  - reflexivity.
  - discriminate.
  - reflexivity.
  - reflexivity.
  - cbn. lia.
  - cbn. lia.
  - cbn. lia.
  - reflexivity.
Defined.

(** X5.  When the zone of the child lies a day or more from the zone of
    the machine, the zone is inferred and stored all the same, and the
    update then raises the [ValueError] of [datetime.now]: a [tzinfo] has to
    answer an offset strictly within a day. *)
Theorem X5_zone_a_day_from_the_local_clock_raises
    (w : wall) (m : I3statusModule) (i : gmap string jvalue)
    (label : string) (o : Z) :
  is_time_module m = true ->
  time_zone_due w m = true ->
  nospace label = true -> label <> "" ->
  o mod 60 = 0 -> utc_offset w mod 60 = 0 ->
  0 <= time w + o < 253402300800 ->
  0 <= time w + utc_offset w < 253402300800 ->
  o - utc_offset w <= -86400 \/ 86400 <= o - utc_offset w ->
  i !! "full_text"
  = Some (JStr (Py.strftime TZTIME_FORMAT (Py.of_timestamp (time w + o))
                  (Some (label, o)))) ->
  exists msg,
    update_from_item w i m
    = (set_tz (Some (mk_Tz label (o - utc_offset w))) (set_item i m),
       Raise (ValueError msg)).
Proof.
  intros Ht Hdue Hn Hl Ho Hu Hr1 Hr2 Hday Hi.
  rewrite update_from_item_clock by exact Ht. rewrite Hdue. monad_unfold.
  rewrite (set_time_zone_of_wire w (set_item i m) label o) by assumption.
  unfold update_time_value. monad_unfold. cbn [tz set_tz].
  unfold now, utcoffset. cbn [_offset].
  replace ((-86400 <? o - utc_offset w) && (o - utc_offset w <? 86400)) with false.
  - eexists. reflexivity.
  - symmetry. apply andb_false_iff. rewrite !Z.ltb_ge. lia.
Qed.

(** A machine twelve hours west of UTC and a child that writes the time of
    a zone fourteen hours east of it. *)
Lemma X5_witness :
  let w := mk_wall 1709289015 (-43200) in
  let i : gmap string jvalue :=
    {["full_text" := JStr (Py.strftime TZTIME_FORMAT
                             (Py.of_timestamp (time w + 50400)) (Some ("LINT", 50400)))]} in
  exists msg,
    update_from_item w i (mk_module "tztime kiritimati" true ∅ None (VStr "%H:%M"))
    = (set_tz (Some (mk_Tz "LINT" (50400 - utc_offset w)))
         (set_item i (mk_module "tztime kiritimati" true ∅ None (VStr "%H:%M"))),
       Raise (ValueError msg)).
Proof.
  apply (X5_zone_a_day_from_the_local_clock_raises
           (mk_wall 1709289015 (-43200))
           (mk_module "tztime kiritimati" true ∅ None (VStr "%H:%M")) _ "LINT" 50400).
  - reflexivity.
  - reflexivity.
  - reflexivity.
  - discriminate.
  - reflexivity.
  - reflexivity.
  - cbn. lia.
  - cbn. lia.
  - cbn. lia.
  - reflexivity.
Defined.

(** ** More on the configuration *)

Lemma list_remove_None (m : string) (l : list string) :
  Py.list_remove m l = None <-> m ∉ l.
Proof.
  induction l as [|y l IH]; cbn.
  - split; [intros _; apply not_elem_of_nil | reflexivity].
  - rewrite not_elem_of_cons. destruct (decide (y = m)) as [->|Hne].
    + split; [discriminate | intros [? _]; congruence].
    + destruct (Py.list_remove m l); cbn.
      * split; [discriminate | intros [_ H]; by apply IH in H].
      * split; [intros _; split; [congruence | by apply IH] | reflexivity].
Qed.

Lemma list_remove_elem (m x : string) (l l' : list string) :
  Py.list_remove m l = Some l' -> x <> m -> x ∈ l -> x ∈ l'.
Proof.
  revert l'. induction l as [|y l IH]; intros l'; cbn; [discriminate|].
  destruct (decide (y = m)) as [->|Hne].
  - intros [= <-] Hx [?|?]%elem_of_cons; [congruence|assumption].
  - destruct (Py.list_remove m l) as [l0|]; [|discriminate].
    intros [= <-] Hx [->|Hin]%elem_of_cons; [apply list_elem_of_here|].
    apply list_elem_of_further. by apply IH.
Qed.

Section clean_loop_more.
Variable key : string.
Hypothesis key_not_module : valid_config_param key true = false.
Hypothesis key_not_i3s : key <> "i3s_modules".

(** The loop leaves alone an entry that has settings, and an entry that
    it may not drop. *)
Lemma clean_loop_keeps (names : list string) (c c' : config) (x : string) :
  Reader.clean_loop key names c = Ok c' ->
  valid_config_param x true = false \/ truthy (c !! x) = true ->
  cnt x (names_of key c') = cnt x (names_of key c)
  /\ cnt x (names_of "i3s_modules" c') = cnt x (names_of "i3s_modules" c)
  /\ (x <> key -> x <> "i3s_modules" -> c' !! x = c !! x).
Proof.
  revert c. induction names as [|m names IH]; intros c H Hx.
  - cbn in H. injection H as <-. by repeat split.
  - apply (clean_loop_cons key key_not_module key_not_i3s) in H
      as [[Hc H]|(Hmv & Hmt & Hms & _ & H)].
    + by apply IH.
    + assert (Hmk : m <> key) by (eapply valid_not_key; eassumption).
      assert (Hmi : m <> "i3s_modules") by (intros ->; discriminate Hmv).
      assert (Hne : m <> x) by (intros ->; destruct Hx; congruence).
      destruct (dropped_lookup key key_not_i3s m x c Hmk Hmi) as (_ & Hl & Hk & Hi).
      assert (Hx' : valid_config_param x true = false
                    \/ truthy (dropped key m c !! x) = true).
      { destruct Hx as [Hx|Hx]; [by left|].
        destruct (decide (x = key)) as [->|Hxk]; [left; exact key_not_module|].
        destruct (decide (x = "i3s_modules")) as [->|Hxi]; [by left|].
        right. rewrite Hl by congruence. exact Hx. }
      destruct (IH _ H Hx') as (E1 & E2 & E3).
      rewrite Hk in E1. rewrite Hi in E2.
      destruct (cnt_list_remove_default m x (names_of key c)) as (_ & Kb & _).
      destruct (cnt_list_remove_default m x (names_of "i3s_modules" c))
        as (_ & Ib & _).
      split; [rewrite E1; by apply Kb|]. split; [rewrite E2; by apply Ib|].
      intros ? ?. rewrite E3 by assumption. apply Hl; congruence.
Qed.

(** What the loop leaves under a key other than the two lists was there
    before. *)
Lemma clean_loop_sub (names : list string) (c c' : config) (x : string) (v : cval) :
  Reader.clean_loop key names c = Ok c' ->
  x <> key -> x <> "i3s_modules" ->
  c' !! x = Some v -> c !! x = Some v.
Proof.
  intros H Hk Hi. revert c H. induction names as [|m names IH]; intros c H Hv.
  - cbn in H. by injection H as <-.
  - apply (clean_loop_cons key key_not_module key_not_i3s) in H
      as [[Hc H]|(Hmv & Hmt & Hms & _ & H)].
    + by apply IH.
    + assert (Hmk : m <> key) by (eapply valid_not_key; eassumption).
      assert (Hmi : m <> "i3s_modules") by (intros ->; discriminate Hmv).
      destruct (dropped_lookup key key_not_i3s m x c Hmk Hmi) as (Hm & Hl & _ & _).
      specialize (IH _ H Hv). destruct (decide (x = m)) as [->|Hne].
      * rewrite Hm in IH. discriminate.
      * by rewrite Hl in IH.
Qed.

(** The loop fails with a [KeyError] only, when both lists are lists and
    the names that it goes through are those of its list. *)
Lemma clean_loop_raises (names : list string) (c : config) (e : exn) :
  Reader.clean_loop key names c = Raise e ->
  (exists l, c !! key = Some (CNames l)) ->
  (exists l, c !! "i3s_modules" = Some (CNames l)) ->
  (forall x, x ∈ names -> x ∈ names_of key c \/ c !! x = None) ->
  exists n, e = KeyError n.
Proof.
  revert c. induction names as [|m names IH]; intros c H [l Hl] [i3s Hi3s] Hin;
    [discriminate|].
  cbn [Reader.clean_loop] in H.
  destruct (valid_config_param m true && negb (truthy (c !! m))) eqn:Hc.
  2:{ apply (IH c H); [by exists l | by exists i3s |].
      intros x Hx. apply Hin. by apply list_elem_of_further. }
  apply andb_true_iff in Hc as [Hv Ht]. apply negb_true_iff in Ht.
  assert (Hmk : m <> key) by (eapply valid_not_key; eassumption).
  assert (Hmi : m <> "i3s_modules") by (intros ->; discriminate Hv).
  destruct (c !! m) as [v|] eqn:Hm; [|injection H as <-; by eexists].
  unfold mbind, result_bind, names_at in H.
  rewrite lookup_delete_ne, Hi3s in H by congruence.
  assert (Hmem : m ∈ l).
  { destruct (Hin m (list_elem_of_here _ _)) as [Hx|Hx]; [|congruence].
    unfold names_of in Hx. by rewrite Hl in Hx. }
  assert (Hkey : forall c0 : config,
             c0 !! key = Some (CNames l) ->
             match c0 !! key with
             | Some (CNames l0) => Ok l0
             | Some _ => Raise (AttributeError "'dict' object has no list methods")
             | None => Raise (KeyError key)
             end = Ok l) by (intros c0 ->; reflexivity).
  set (c1 := if Py.inb m i3s then _ else _) in H.
  assert (Hc1k : c1 !! key = Some (CNames l)).
  { subst c1. destruct (Py.inb m i3s).
    - rewrite lookup_insert_ne by congruence. by rewrite lookup_delete_ne.
    - by rewrite lookup_delete_ne. }
  assert (Hc1i : exists i', c1 !! "i3s_modules" = Some (CNames i')).
  { subst c1. destruct (Py.inb m i3s).
    - eexists. apply lookup_insert_eq.
    - exists i3s. by rewrite lookup_delete_ne. }
  assert (Hc1x : forall x, x <> key -> x <> "i3s_modules" ->
                           c1 !! x = delete m c !! x).
  { intros x ? ?. subst c1. destruct (Py.inb m i3s); [|reflexivity].
    by rewrite lookup_insert_ne. }
  rewrite Hc1k in H.
  destruct (Py.list_remove m l) as [l'|] eqn:Hrm.
  2:{ apply list_remove_None in Hrm. contradiction. }
  apply (IH _ H).
  - eexists. apply lookup_insert_eq.
  - destruct Hc1i as [i' Hi']. exists i'. by rewrite lookup_insert_ne.
  - intros x Hx. unfold names_of at 1. rewrite lookup_insert_eq.
    destruct (decide (x = m)) as [->|Hne].
    + right. rewrite lookup_insert_ne by congruence.
      rewrite Hc1x by assumption. apply lookup_delete_eq.
    + destruct (Hin x (list_elem_of_further _ _ _ Hx)) as [Hxl|Hxn].
      * left. unfold names_of in Hxl. rewrite Hl in Hxl.
        eapply list_remove_elem; eassumption.
      * right. assert (x <> key) by (intros ->; congruence).
        assert (x <> "i3s_modules") by (intros ->; congruence).
        rewrite lookup_insert_ne by congruence.
        rewrite Hc1x by assumption. by rewrite lookup_delete_ne.
Qed.
End clean_loop_more.

(** The three steps of the reader. *)
Lemma reader_inv (config_info : settings) (c' : config) :
  Reader.i3status_config_reader config_info = Ok c' ->
  exists c c1,
    Reader.read_sections config_info = Ok c
    /\ Reader.clean_loop "order" (names_of "order" c) c = Ok c1
    /\ Reader.clean_loop ".group_extras" (names_of ".group_extras" c1) c1 = Ok c'.
Proof.
  unfold Reader.i3status_config_reader, mbind, result_bind.
  destruct (Reader.read_sections config_info) as [c|]; [|discriminate].
  destruct (Reader.clean_i3status_modules "order" c) as [c1|] eqn:H1; [|discriminate].
  intros H2. apply clean_i3status_modules_inv in H1, H2; try discriminate.
  by exists c, c1.
Qed.

(** The two passes of the cleanup, on an entry that has settings or that
    may not be dropped. *)
Lemma cleanup_keeps (c c1 c' : config) (x : string) :
  Reader.clean_loop "order" (names_of "order" c) c = Ok c1 ->
  Reader.clean_loop ".group_extras" (names_of ".group_extras" c1) c1 = Ok c' ->
  valid_config_param x true = false \/ truthy (c !! x) = true ->
  cnt x (names_of "order" c') = cnt x (names_of "order" c)
  /\ cnt x (names_of ".group_extras" c') = cnt x (names_of ".group_extras" c)
  /\ cnt x (names_of "i3s_modules" c') = cnt x (names_of "i3s_modules" c)
  /\ (x ∉ ["order"; ".group_extras"; "i3s_modules"] -> c' !! x = c !! x).
Proof.
  intros H1 H2 Hx.
  assert (Ko : valid_config_param "order" true = false) by reflexivity.
  assert (Ke : valid_config_param ".group_extras" true = false) by reflexivity.
  assert (Kio : "order" <> "i3s_modules") by discriminate.
  assert (Kie : ".group_extras" <> "i3s_modules") by discriminate.
  destruct (clean_loop_frame "order" Ko Kio _ _ _ ".group_extras" H1)
    as (_ & _ & _ & Fe).
  specialize (Fe eq_refl ltac:(discriminate) ltac:(discriminate)).
  destruct (clean_loop_frame ".group_extras" Ke Kie _ _ _ "order" H2)
    as (_ & _ & _ & Fo).
  specialize (Fo eq_refl ltac:(discriminate) ltac:(discriminate)).
  destruct (clean_loop_keeps "order" Ko Kio _ _ _ x H1 Hx) as (A1 & A2 & A3).
  assert (Hx1 : valid_config_param x true = false \/ truthy (c1 !! x) = true).
  { destruct Hx as [Hx|Hx]; [by left|].
    destruct (decide (x = "order")) as [->|]; [by left|].
    destruct (decide (x = "i3s_modules")) as [->|]; [by left|].
    right. by rewrite A3. }
  destruct (clean_loop_keeps ".group_extras" Ke Kie _ _ _ x H2 Hx1) as (B1 & B2 & B3).
  split; [|split; [|split]].
  - rewrite <- A1. unfold names_of. by rewrite Fo.
  - rewrite B1. unfold names_of. by rewrite Fe.
  - by rewrite B2.
  - intros Hn. rewrite !not_elem_of_cons in Hn. destruct Hn as (? & ? & ? & _).
    rewrite B3, A3 by assumption. reflexivity.
Qed.

(** X6.  The cleanup drops nothing else: an entry that has settings when
    the cleanup starts, and an entry whose first word is not one of the
    module names that may be dropped (a module of py3status, or
    [cpu_usage], [ddate], [ipv6], [load], [time]), stands in [order], in
    [.group_extras] and in [i3s_modules] as often as before, with the
    settings that it had. *)
Theorem X6_cleanup_keeps_configured_and_protected_entries
    (config_info : settings) (c c' : config) (name : string) :
  Reader.read_sections config_info = Ok c ->
  Reader.i3status_config_reader config_info = Ok c' ->
  valid_config_param name true = false \/ truthy (c !! name) = true ->
  cnt name (names_of "order" c') = cnt name (names_of "order" c)
  /\ cnt name (names_of ".group_extras" c') = cnt name (names_of ".group_extras" c)
  /\ cnt name (names_of "i3s_modules" c') = cnt name (names_of "i3s_modules" c)
  /\ (name ∉ ["order"; ".group_extras"; "i3s_modules"] -> c' !! name = c !! name).
Proof.
  intros Hread Hreader Hx.
  destruct (reader_inv _ _ Hreader) as (c0 & c1 & Hr0 & H1 & H2).
  rewrite Hread in Hr0. injection Hr0 as <-.
  exact (cleanup_keeps c c1 c' name H1 H2 Hx).
Qed.

(** The entry [battery 0] of the sample has settings. *)
Lemma X6_witness :
  let c := the_config (Reader.read_sections sample_info) in
  let c' := the_config (Reader.i3status_config_reader sample_info) in
  cnt "battery 0" (names_of "order" c') = cnt "battery 0" (names_of "order" c)
  /\ cnt "battery 0" (names_of ".group_extras" c')
     = cnt "battery 0" (names_of ".group_extras" c)
  /\ cnt "battery 0" (names_of "i3s_modules" c')
     = cnt "battery 0" (names_of "i3s_modules" c)
  /\ ("battery 0" ∉ ["order"; ".group_extras"; "i3s_modules"] ->
      c' !! "battery 0" = c !! "battery 0").
Proof.
  apply (X6_cleanup_keeps_configured_and_protected_entries sample_info).
  - apply the_config_eq. vm_compute. reflexivity.
  - apply the_config_eq. vm_compute. reflexivity.
  - right. vm_compute. reflexivity.
Defined.

(** X7.  A module name that may be dropped, without settings, and listed
    twice in [order]: the first turn of the cleanup drops the entry, the
    second looks it up again, and the reader ends with a [KeyError]. *)
Theorem X7_unconfigured_entry_listed_twice_raises
    (config_info : settings) (c : config) (name : string) :
  Reader.read_sections config_info = Ok c ->
  (2 <= cnt name (names_of "order" c))%nat ->
  valid_config_param name true = true ->
  truthy (c !! name) = false ->
  exists n, Reader.i3status_config_reader config_info = Raise (KeyError n).
Proof.
  intros Hread Hcnt Hv Ht.
  assert (Ko : valid_config_param "order" true = false) by reflexivity.
  assert (Kio : "order" <> "i3s_modules") by discriminate.
  destruct (read_sections_shaped _ _ Hread) as [_ Hi3s].
  assert (Hord : exists l, c !! "order" = Some (CNames l)).
  { unfold names_of in Hcnt. destruct (c !! "order") as [[| l | |]|];
      cbn in Hcnt; try lia. by exists l. }
  unfold Reader.i3status_config_reader, mbind, result_bind. rewrite Hread.
  unfold Reader.clean_i3status_modules, mbind, result_bind, Reader.copied_names.
  destruct Hord as [l Hl]. rewrite Hl.
  assert (Hnames : names_of "order" c = l) by (unfold names_of; by rewrite Hl).
  destruct (Reader.clean_loop "order" l c) as [c1|e] eqn:H1.
  - exfalso. rewrite <- Hnames in H1.
    assert (Hin : name ∈ names_of "order" c).
    { apply dec_stable. intros Hn. apply cnt_zero in Hn. lia. }
    destruct (clean_loop_removes "order" Ko Kio _ _ _ name Hv Ht Hin H1) as (E & _).
    lia.
  - destruct (clean_loop_raises "order" Ko Kio l c e H1) as [n ->].
    + by exists l.
    + exact Hi3s.
    + intros x Hx. left. by rewrite Hnames.
    + by exists n.
Qed.

(** [disk /] has no settings and is listed twice. *)
Lemma X7_witness :
  exists n,
    Reader.i3status_config_reader [("order", VList ["disk /"; "disk /"])]
    = Raise (KeyError n).
Proof.
  apply (X7_unconfigured_entry_listed_twice_raises _
           (the_config (Reader.read_sections [("order", VList ["disk /"; "disk /"])]))
           "disk /").
  - apply the_config_eq. vm_compute. reflexivity.
  - vm_compute. lia.
  - reflexivity.
  - vm_compute. reflexivity.
Defined.

(** *** The formats of the clock entries *)

Lemma set_default_formats_format (c c' : config) (name base : string) (d : settings) :
  Reader.set_default_formats c = Ok c' ->
  c' !! name = Some (CDict d) ->
  first_token name = Ok base -> base ∈ TIME_MODULES ->
  is_Some (Py.dict_get "format" d).
Proof.
  unfold Reader.set_default_formats. destruct (bool_decide _); [|discriminate].
  intros [= <-]. rewrite map_lookup_imap.
  destruct (c !! name) as [v|]; [|discriminate]. cbn.
  unfold first_token, Reader.default_format.
  destruct (Py.split name) as [|t ts]; [discriminate|]. cbn [head].
  intros Hd [= <-] Hb. destruct v as [d0| | |]; try discriminate.
  unfold Py.inb in Hd. rewrite (bool_decide_eq_true_2 _ Hb) in Hd. cbn [andb] in Hd.
  unfold Py.dict_has in Hd.
  destruct (bool_decide (is_Some (Py.dict_get "format" d0))) eqn:Hf; cbn in Hd.
  - injection Hd as <-. by apply bool_decide_eq_true in Hf.
  - injection Hd as <-. rewrite dict_get_set_eq. by eexists.
Qed.

Lemma read_sections_format (config_info : settings) (c : config)
    (name base : string) (d : settings) :
  Reader.read_sections config_info = Ok c ->
  c !! name = Some (CDict d) ->
  first_token name = Ok base -> base ∈ TIME_MODULES ->
  is_Some (Py.dict_get "format" d).
Proof.
  unfold Reader.read_sections, mbind, result_bind. intros H.
  repeat lazymatch type of H with
         | match ?x with Ok _ => _ | Raise _ => _ end = Ok _ =>
             destruct x; [|discriminate H]
         end.
  eapply set_default_formats_format, H.
Qed.

(** X8.  In the configuration that the reader returns, every section whose
    first word is [time] or [tztime] has a [format]. *)
Theorem X8_clock_sections_have_a_format
    (config_info : settings) (c : config) (name base : string) (d : settings) :
  Reader.i3status_config_reader config_info = Ok c ->
  c !! name = Some (CDict d) ->
  first_token name = Ok base -> base ∈ TIME_MODULES ->
  is_Some (Py.dict_get "format" d).
Proof.
  intros Hreader Hd Hb Hin.
  destruct (reader_inv _ _ Hreader) as (c0 & c1 & Hr0 & H1 & H2).
  assert (Hne : forall k, k ∈ ["order"; ".group_extras"; "i3s_modules"] -> name <> k).
  { intros k Hk ->. repeat (apply elem_of_cons in Hk as [->|Hk];
      [vm_compute in Hb; injection Hb as <-;
       repeat (apply elem_of_cons in Hin as [Hin|Hin]; [discriminate Hin|]);
       by apply elem_of_nil in Hin|]).
    by apply elem_of_nil in Hk. }
  assert (N1 : name <> "order") by (apply Hne; in_list).
  assert (N2 : name <> ".group_extras") by (apply Hne; in_list).
  assert (N3 : name <> "i3s_modules") by (apply Hne; in_list).
  apply (clean_loop_sub ".group_extras" eq_refl ltac:(discriminate) _ _ _ _ _ H2 N2 N3)
    in Hd.
  apply (clean_loop_sub "order" eq_refl ltac:(discriminate) _ _ _ _ _ H1 N1 N3) in Hd.
  exact (read_sections_format _ _ _ _ _ Hr0 Hd Hb Hin).
Qed.

(** The entry [tztime berlin] of the sample, which the user gave no
    setting. *)
Lemma X8_witness :
  is_Some (Py.dict_get "format" [("format", VStr TZTIME_FORMAT)]).
Proof.
  apply (X8_clock_sections_have_a_format sample_info sample_config
           "tztime berlin" "tztime").
  - apply the_config_eq. vm_compute. reflexivity.
  - vm_compute. reflexivity.
  - reflexivity.
  - in_list.
Defined.

(** *** The two lists of names *)

Lemma process_module_sets (name : string) (module module' : settings)
    (parent : option string) (st st' : Reader.locals) :
  Reader.process_module name module parent st = Ok (module', st') ->
  kept_locals st' = kept_locals st.
Proof.
  unfold Reader.process_module, mbind, result_bind.
  destruct (first_token name); [|discriminate].
  destruct (Reader.parent_given parent) as [p|].
  - destruct (Reader.modules st !! p); [|discriminate].
    destruct (Py.dict_get "items" _) as [[]|]; try discriminate.
    destruct (Reader.get_module_type name); [|discriminate].
    cbn. destruct (Reader.process_clicks _ _ _); [|discriminate].
    by intros [= _ <-].
  - destruct (Reader.process_clicks _ _ _); [|discriminate].
    by intros [= _ <-].
Qed.

Lemma get_modules_at_sets (v : value) :
  forall (k : string) (parent : option string) (st st' : Reader.locals),
    Reader.get_modules_at k v parent st = Ok st' ->
    kept_locals st' = kept_locals st.
Proof.
  revert v. fix IH 1. intros [s|b|n|l|body] k parent st st'; cbn;
    try (by intros [= <-]).
  unfold mbind, result_bind.
  destruct (Reader.process_module k body parent st) as [[module st1]|] eqn:Hp;
    [|discriminate].
  apply process_module_sets in Hp.
  set (st2 := Reader.mk_locals _ _ _ _ _ _ _).
  assert (H2 : kept_locals st2 = kept_locals st) by exact Hp.
  clearbody st2. clear Hp st1. revert st2 H2.
  induction body as [|[k' v'] body IHb]; intros st2 H2.
  - by intros [= <-].
  - destruct (from_option is_module false (Py.dict_get k' module)).
    + destruct (Reader.get_modules_at k' v' (Some k) st2) as [st3|] eqn:H3;
        [|discriminate].
      apply IH in H3. apply IHb. congruence.
    + apply IHb. exact H2.
Qed.

Lemma get_modules_sets (data : settings) (parent : option string)
    (st st' : Reader.locals) :
  Reader.get_modules data parent st = Ok st' ->
  kept_locals st' = kept_locals st.
Proof.
  revert st. induction data as [|[k v] data IH]; intros st; cbn.
  - by intros [= <-].
  - unfold mbind, result_bind.
    destruct (Reader.get_modules_at k v parent st) as [st1|] eqn:H1; [|discriminate].
    intros H. apply IH in H. apply get_modules_at_sets in H1. congruence.
Qed.

Lemma update_configs_by_kind (names : list string) (order : bool)
    (st st' : Reader.locals) :
  Reader.update_configs names order st = Ok st' ->
  sets_by_kind st -> sets_by_kind st'.
Proof.
  revert st. induction names as [|name names IH]; intros st; cbn.
  - by intros [= <-].
  - unfold mbind, result_bind.
    destruct (Reader.update_config name order st) as [st1|] eqn:H1; [|discriminate].
    intros H Hs. apply (IH st1 H). clear H IH.
    unfold Reader.update_config, mbind, result_bind in H1.
    destruct (Reader.get_module_type name) as [ty|] eqn:Hty; [|discriminate].
    destruct (if order then _ else _) as [c|]; [|discriminate].
    injection H1 as <-. destruct Hs as [Hi Hp]. split; cbn; intros n Hn.
    + destruct ty; [|by apply Hi].
      apply elem_of_union in Hn as [->%elem_of_singleton|Hn]; [exact Hty | by apply Hi].
    + destruct ty; [by apply Hp|].
      apply elem_of_union in Hn as [->%elem_of_singleton|Hn]; [exact Hty | by apply Hp].
Qed.

Lemma sorted_ascending (l : list string) :
  NoDup l -> StronglySorted name_lt (Py.sorted l).
Proof.
  intros Hnd. pose proof (sorted_NoDup l Hnd) as Hnd'.
  assert (Hs : StronglySorted String.le (Py.sorted l))
    by (apply StronglySorted_merge_sort; apply _).
  revert Hnd'. induction Hs as [|x l' Hl IH Hx]; intros Hnd'; [constructor|].
  apply NoDup_cons in Hnd' as [Hnin Hnd'].
  constructor; [by apply IH|].
  rewrite Forall_forall in Hx |- *. intros y Hy. split; [by apply Hx|].
  intros ->. contradiction.
Qed.

Lemma list_remove_sublist (m : string) (l : list string) :
  default l (Py.list_remove m l) `sublist_of` l.
Proof.
  induction l as [|y l IH]; cbn; [reflexivity|].
  destruct (decide (y = m)); cbn.
  - by apply sublist_cons.
  - destruct (Py.list_remove m l); cbn in *; [by apply sublist_skip | reflexivity].
Qed.

Lemma StronglySorted_sublist {A} (R : relation A) (l l' : list A) :
  l' `sublist_of` l -> StronglySorted R l -> StronglySorted R l'.
Proof.
  induction 1 as [|x l1 l2 Hs IH|x l1 l2 Hs IH]; intros H.
  - constructor.
  - apply StronglySorted_cons in H as [Hx H]. constructor; [by apply IH|].
    rewrite Forall_forall in Hx |- *. intros y Hy. apply Hx.
    eapply elem_of_sublist; eassumption.
  - apply StronglySorted_cons in H as [_ H]. by apply IH.
Qed.

Lemma clean_loop_ascending (key : string) (names : list string) (c c' : config) :
  valid_config_param key true = false ->
  key <> "i3s_modules" ->
  Reader.clean_loop key names c = Ok c' ->
  names_of "i3s_modules" c' `sublist_of` names_of "i3s_modules" c.
Proof.
  intros Hk Hi. revert c. induction names as [|m names IH]; intros c H.
  - cbn in H. by injection H as <-.
  - apply (clean_loop_cons key Hk Hi) in H as [[_ H]|(Hmv & _ & _ & _ & H)].
    + by apply IH.
    + assert (Hmk : m <> key) by (eapply valid_not_key; eassumption).
      assert (Hmi : m <> "i3s_modules") by (intros ->; discriminate Hmv).
      destruct (dropped_lookup key Hi m m c Hmk Hmi) as (_ & _ & _ & Hd).
      etransitivity; [apply (IH _ H)|]. rewrite Hd. apply list_remove_sublist.
Qed.

Lemma read_sections_lists (config_info : settings) (c : config) :
  Reader.read_sections config_info = Ok c ->
  exists st,
    sets_by_kind st
    /\ names_of "i3s_modules" c = Py.sorted (elements (Reader.i3s_modules st))
    /\ names_of "py3_modules" c = Py.sorted (elements (Reader.py3_modules st)).
Proof.
  unfold Reader.read_sections, mbind, result_bind. intros H.
  destruct (match Py.dict_get "general" config_info with
            | Some (VModule g) => _ | None => _ | _ => _ end) as [general|];
    [|discriminate H].
  destruct (Reader.get_modules _ _ _) as [st|] eqn:Hg; [|discriminate H].
  apply get_modules_sets in Hg. unfold kept_locals in Hg. cbn in Hg.
  injection Hg as Hc Hi Hp.
  destruct (match Py.dict_get "order" config_info with
            | Some (VList l) => _ | None => _ | _ => _ end) as [order|];
    [|discriminate H].
  destruct (Reader.update_configs order true _) as [st1|] eqn:H1; [|discriminate H].
  destruct (Reader.update_configs _ false st1) as [st2|] eqn:H2; [|discriminate H].
  exists st2. split; [|split].
  - apply (update_configs_by_kind _ _ _ _ H2), (update_configs_by_kind _ _ _ _ H1).
    split; cbn; intros n; [rewrite Hi | rewrite Hp]; by intros ?%elem_of_empty.
  - erewrite set_default_formats_names; [reflexivity | exact H |].
    rewrite !lookup_insert_ne by discriminate. apply lookup_insert_eq.
  - erewrite set_default_formats_names; [reflexivity | exact H |].
    rewrite !lookup_insert_ne by discriminate. apply lookup_insert_eq.
Qed.

(** X9.  The two lists of names that the reader returns: [i3s_modules]
    holds names whose first token is a module name of the child,
    [py3_modules] the others; each list is in strictly ascending order, so
    that no name is listed twice, whatever the order in which the user has
    written them. *)
Theorem X9_names_are_listed_by_kind_in_ascending_order
    (config_info : settings) (c : config) :
  Reader.i3status_config_reader config_info = Ok c ->
  StronglySorted name_lt (names_of "i3s_modules" c)
  /\ StronglySorted name_lt (names_of "py3_modules" c)
  /\ (forall n, n ∈ names_of "i3s_modules" c ->
                Reader.get_module_type n = Ok Reader.i3status)
  /\ (forall n, n ∈ names_of "py3_modules" c ->
                Reader.get_module_type n = Ok Reader.py3status).
Proof.
  intros Hreader.
  destruct (reader_inv _ _ Hreader) as (c0 & c1 & Hr0 & H1 & H2).
  destruct (read_sections_lists _ _ Hr0) as (st & [Hki Hkp] & Hi & Hp).
  assert (Ko : valid_config_param "order" true = false) by reflexivity.
  assert (Ke : valid_config_param ".group_extras" true = false) by reflexivity.
  assert (Kio : "order" <> "i3s_modules") by discriminate.
  assert (Kie : ".group_extras" <> "i3s_modules") by discriminate.
  assert (Hsub : names_of "i3s_modules" c `sublist_of` names_of "i3s_modules" c0).
  { etransitivity; [exact (clean_loop_ascending _ _ _ _ Ke Kie H2)|].
    exact (clean_loop_ascending _ _ _ _ Ko Kio H1). }
  assert (Hpy : names_of "py3_modules" c = names_of "py3_modules" c0).
  { destruct (clean_loop_frame "order" Ko Kio _ _ _ "py3_modules" H1)
      as (_ & _ & _ & F1).
    destruct (clean_loop_frame ".group_extras" Ke Kie _ _ _ "py3_modules" H2)
      as (_ & _ & _ & F2).
    unfold names_of.
    rewrite F2, F1 by (reflexivity || discriminate). reflexivity. }
  split; [|split; [|split]].
  - apply (StronglySorted_sublist _ _ _ Hsub). rewrite Hi.
    apply sorted_ascending, NoDup_elements.
  - rewrite Hpy, Hp. apply sorted_ascending, NoDup_elements.
  - intros n Hn. apply Hki. apply (fun H => elem_of_sublist _ _ _ H Hsub) in Hn.
    rewrite Hi in Hn. unfold Py.sorted in Hn. rewrite merge_sort_Permutation in Hn.
    by apply elem_of_elements in Hn.
  - intros n Hn. apply Hkp. rewrite Hpy, Hp in Hn.
    unfold Py.sorted in Hn. rewrite merge_sort_Permutation in Hn.
    by apply elem_of_elements in Hn.
Qed.

(** The lists of the sample. *)
Lemma X9_witness :
  StronglySorted name_lt (names_of "i3s_modules" sample_config)
  /\ StronglySorted name_lt (names_of "py3_modules" sample_config)
  /\ (forall n, n ∈ names_of "i3s_modules" sample_config ->
                Reader.get_module_type n = Ok Reader.i3status)
  /\ (forall n, n ∈ names_of "py3_modules" sample_config ->
                Reader.get_module_type n = Ok Reader.py3status).
Proof.
  apply (X9_names_are_listed_by_kind_in_ascending_order sample_info).
  apply the_config_eq. vm_compute. reflexivity.
Defined.

(** *** The sections of the names of [order] *)

Lemma fix_module_plain (module : settings) : plain (Reader.fix_module module).
Proof.
  unfold plain, Reader.fix_module. apply Forall_forall. intros kv Hkv.
  apply list_elem_of_filter in Hkv as [Hkv _]. by destruct (is_module kv.2).
Qed.

Lemma dict_set_plain (k : string) (v : value) (d : settings) :
  is_module v = false -> plain d -> plain (Py.dict_set k v d).
Proof.
  intros Hv. unfold plain. induction 1 as [|[k' v'] d Hkv Hd IH]; cbn.
  - by repeat constructor.
  - destruct (decide (k' = k)); constructor; assumption.
Qed.

Lemma update_config_sections (name : string) (order : bool)
    (st st' : Reader.locals) :
  Reader.update_config name order st = Ok st' ->
  order_has_sections (Reader.cfg st) -> order_has_sections (Reader.cfg st').
Proof.
  unfold Reader.update_config, mbind, result_bind.
  destruct (Reader.get_module_type name) as [ty|]; [|discriminate].
  set (d := Reader.fix_module _).
  assert (Hnew : forall c0 : config, <[name := CDict d]> c0 !! name = Some (CDict d))
    by (intros; apply lookup_insert_eq).
  intros H J.
  assert (Hcase : exists c1,
             Reader.cfg st' = <[name := CDict d]> c1
             /\ (forall n, n ∉ list_keys -> c1 !! n = Reader.cfg st !! n)
             /\ (forall n, n ∈ names_of "order" c1 ->
                           n ∈ names_of "order" (Reader.cfg st) \/ n = name)).
  { destruct order.
    - unfold Reader.append_name, mbind, result_bind in H.
      destruct (names_at "order" (Reader.cfg st)) as [l|] eqn:Hl; [|discriminate].
      apply names_at_names_of in Hl. injection H as <-. eexists. split; [reflexivity|].
      split.
      + intros n Hn. rewrite lookup_insert_ne; [reflexivity|].
        intros <-. apply Hn. in_list.
      + intros n. unfold names_of at 1. rewrite lookup_insert_eq, Hl.
        intros [?|?%list_elem_of_singleton]%elem_of_app; [by left | by right].
    - destruct ty.
      + unfold Reader.append_name, mbind, result_bind in H.
        destruct (names_at ".group_extras" (Reader.cfg st)) as [l|]; [|discriminate].
        injection H as <-. eexists. split; [reflexivity|]. split.
        * intros n Hn. rewrite lookup_insert_ne; [reflexivity|].
          intros <-. apply Hn. in_list.
        * intros n. unfold names_of at 1.
          rewrite lookup_insert_ne by discriminate. by left.
      + injection H as <-. eexists. split; [reflexivity|]. split; [reflexivity|].
        intros n ?. by left. }
  destruct Hcase as (c1 & -> & Hsame & Hord).
  intros n Hn Hk. destruct (decide (n = name)) as [->|Hne].
  - exists d. split; [apply Hnew | apply fix_module_plain].
  - rewrite lookup_insert_ne by congruence. rewrite Hsame by exact Hk.
    apply J; [|exact Hk].
    assert (Hn1 : n ∈ names_of "order" c1).
    { unfold names_of in Hn |- *. destruct (decide (name = "order")) as [->|Hno].
      - rewrite lookup_insert_eq in Hn. by apply elem_of_nil in Hn.
      - by rewrite lookup_insert_ne in Hn. }
    destruct (Hord n Hn1); [assumption | congruence].
Qed.

Lemma update_configs_sections (names : list string) (order : bool)
    (st st' : Reader.locals) :
  Reader.update_configs names order st = Ok st' ->
  order_has_sections (Reader.cfg st) -> order_has_sections (Reader.cfg st').
Proof.
  revert st. induction names as [|name names IH]; intros st; cbn.
  - by intros [= <-].
  - unfold mbind, result_bind.
    destruct (Reader.update_config name order st) as [st1|] eqn:H1; [|discriminate].
    intros H Hs. apply (IH st1 H). by apply (update_config_sections _ _ _ _ H1).
Qed.

Lemma order_has_sections_insert (k : string) (v : cval) (c : config) :
  k ∈ list_keys -> k <> "order" ->
  order_has_sections c -> order_has_sections (<[k := v]> c).
Proof.
  intros Hk Hko J n Hn Hnk. unfold names_of in Hn.
  rewrite lookup_insert_ne in Hn by exact Hko.
  rewrite lookup_insert_ne by (intros <-; contradiction).
  by apply J.
Qed.

Lemma set_default_formats_sections (c c' : config) :
  Reader.set_default_formats c = Ok c' ->
  order_has_sections c -> order_has_sections c'.
Proof.
  unfold Reader.set_default_formats. destruct (bool_decide _); [|discriminate].
  intros [= <-] J n Hn Hk.
  assert (Hn0 : n ∈ names_of "order" c).
  { unfold names_of in Hn |- *. rewrite map_lookup_imap in Hn.
    destruct (c !! "order") as [[d| | |]|]; cbn in Hn; done. }
  destruct (J n Hn0 Hk) as (d & Hd & Hp).
  rewrite map_lookup_imap, Hd. cbn. unfold Reader.default_format.
  destruct (head (Py.split n)); [|by exists d].
  destruct (_ && _); [|by exists d].
  eexists. split; [reflexivity|]. by apply dict_set_plain.
Qed.

Lemma read_sections_sections (config_info : settings) (c : config) :
  Reader.read_sections config_info = Ok c -> order_has_sections c.
Proof.
  unfold Reader.read_sections, mbind, result_bind. intros H.
  destruct (match Py.dict_get "general" config_info with
            | Some (VModule g) => _ | None => _ | _ => _ end) as [general|];
    [|discriminate H].
  destruct (Reader.get_modules _ _ _) as [st|] eqn:Hg; [|discriminate H].
  apply get_modules_cfg in Hg. cbn in Hg.
  destruct (match Py.dict_get "order" config_info with
            | Some (VList l) => _ | None => _ | _ => _ end) as [order|];
    [|discriminate H].
  destruct (Reader.update_configs order true _) as [st1|] eqn:H1; [|discriminate H].
  destruct (Reader.update_configs _ false st1) as [st2|] eqn:H2; [|discriminate H].
  apply (set_default_formats_sections _ _ H).
  repeat (apply order_has_sections_insert; [in_list | discriminate |]).
  apply (update_configs_sections _ _ _ _ H2), (update_configs_sections _ _ _ _ H1).
  cbn. intros n Hn. unfold names_of in Hn.
  rewrite lookup_insert_ne, lookup_insert_eq in Hn by discriminate.
  by apply elem_of_nil in Hn.
Qed.

(** X10.  In the configuration that the reader returns, every name of
    [order] that is not itself one of the keys of the lists has its
    settings under its name, and these hold no nested module. *)
Theorem X10_names_of_order_have_their_settings
    (config_info : settings) (c : config) (name : string) :
  Reader.i3status_config_reader config_info = Ok c ->
  name ∈ names_of "order" c ->
  name ∉ list_keys ->
  exists d, c !! name = Some (CDict d)
            /\ Forall (fun kv => is_module kv.2 = false) d.
Proof.
  intros Hreader Hn Hk.
  destruct (reader_inv _ _ Hreader) as (c0 & c1 & Hr0 & H1 & H2).
  pose proof (read_sections_sections _ _ Hr0) as J.
  assert (Ko : valid_config_param "order" true = false) by reflexivity.
  assert (Ke : valid_config_param ".group_extras" true = false) by reflexivity.
  assert (Kio : "order" <> "i3s_modules") by discriminate.
  assert (Kie : ".group_extras" <> "i3s_modules") by discriminate.
  destruct (clean_loop_frame ".group_extras" Ke Kie _ _ _ "order" H2)
    as (_ & _ & _ & Fo).
  specialize (Fo eq_refl ltac:(discriminate) ltac:(discriminate)).
  assert (Ho : names_of "order" c = names_of "order" c1)
    by (unfold names_of; by rewrite Fo).
  destruct (clean_loop_frame "order" Ko Kio _ _ _ name H1) as (Hle & _).
  assert (Hn0 : name ∈ names_of "order" c0).
  { rewrite Ho in Hn. apply dec_stable. intros Hx. apply cnt_zero in Hx.
    assert (cnt name (names_of "order" c1) = 0%nat) as Hz by lia.
    by apply cnt_zero in Hz. }
  assert (Hkeep : valid_config_param name true = false \/ truthy (c0 !! name) = true).
  { destruct (valid_config_param name true) eqn:Hv; [|by left].
    destruct (truthy (c0 !! name)) eqn:Ht; [by right|]. exfalso.
    destruct (clean_loop_removes "order" Ko Kio _ _ _ name Hv Ht Hn0 H1)
      as (E0 & _ & E2 & _).
    rewrite Ho in Hn.
    assert (Hz : cnt name (names_of "order" c1) = 0%nat) by lia.
    by apply cnt_zero in Hz. }
  destruct (cleanup_keeps c0 c1 c name H1 H2 Hkeep) as (_ & _ & _ & Hsame).
  rewrite Hsame.
  - exact (J name Hn0 Hk).
  - intros Hin. apply Hk.
    repeat (apply elem_of_cons in Hin as [->|Hin]; [in_list|]).
    by apply elem_of_nil in Hin.
Qed.

(** The name [battery 0] of the sample. *)
Lemma X10_witness :
  exists d, sample_config !! "battery 0" = Some (CDict d)
            /\ Forall (fun kv => is_module kv.2 = false) d.
Proof.
  apply (X10_names_of_order_have_their_settings sample_info sample_config "battery 0").
  - apply the_config_eq. vm_compute. reflexivity.
  - in_list.
  - intros Hin. by repeat (apply elem_of_cons in Hin as [Hin|Hin]; [discriminate Hin|]);
      apply elem_of_nil in Hin.
Defined.

(** ** More on the file of the child *)

Lemma write_section_skipped (k : string) (v : cval) (tmpfile : string) :
  emitted k = false -> Emitter.write_section k v tmpfile = (tmpfile, Ok tt).
Proof.
  unfold emitted. intros [Hi Hv]%orb_false_iff. apply bool_decide_eq_false in Hi.
  unfold Emitter.write_section. destruct (Py.inb k _); [reflexivity|].
  rewrite decide_False by exact Hi. rewrite Hv. reflexivity.
Qed.

Lemma write_sections_emitted (l : list (string * cval)) (tmpfile : string) :
  Emitter.write_sections l tmpfile
  = Emitter.write_sections (filter (fun kv => emitted kv.1 = true) l) tmpfile.
Proof.
  revert tmpfile. induction l as [|[k v] l IH]; intros tmpfile; [reflexivity|].
  rewrite filter_cons. cbn [fst]. destruct (decide (emitted k = true)) as [He|He].
  - cbn [Emitter.write_sections]. monad_unfold.
    destruct (Emitter.write_section k v tmpfile) as [f [[]|e]]; [apply IH | reflexivity].
  - apply not_true_is_false in He.
    cbn [Emitter.write_sections]. monad_unfold.
    rewrite (write_section_skipped k v tmpfile He). apply IH.
Qed.

(** The entries that the emitter looks at, in the order in which it meets
    them, are fixed by what the configuration holds under their keys. *)
Lemma emitted_items (c1 c2 : config) :
  (forall k, emitted k = true -> c1 !! k = c2 !! k) ->
  filter (fun kv => emitted kv.1 = true) (Py.sorted_items (map_to_list c1))
  = filter (fun kv => emitted kv.1 = true) (Py.sorted_items (map_to_list c2)).
Proof.
  intros Hsame.
  assert (Hel : forall (c : config) kv,
             kv ∈ filter (fun kv => emitted kv.1 = true) (Py.sorted_items (map_to_list c))
             <-> emitted kv.1 = true /\ c !! kv.1 = Some kv.2).
  { intros c [k v]. rewrite list_elem_of_filter. unfold Py.sorted_items.
    rewrite merge_sort_Permutation, elem_of_map_to_list. reflexivity. }
  assert (Hnd : forall c : config,
             NoDup (filter (fun kv => emitted kv.1 = true)
                      (Py.sorted_items (map_to_list c)))).
  { intros c. apply NoDup_filter. unfold Py.sorted_items.
    rewrite merge_sort_Permutation. apply NoDup_map_to_list. }
  apply (StronglySorted_unique_strong key_lt).
  - intros [k1 v1] [k2 v2] _ _ [H1 Hne] [H2 _]. cbn in *.
    exfalso. apply Hne. by apply (anti_symm String.le).
  - eapply StronglySorted_sublist; [apply sublist_filter | apply sorted_items_sorted].
  - eapply StronglySorted_sublist; [apply sublist_filter | apply sorted_items_sorted].
  - apply NoDup_Permutation; [apply Hnd | apply Hnd |].
    intros kv. rewrite !Hel. split; intros [He Hk]; (split; [exact He|]).
    + by rewrite <- Hsame.
    + by rewrite Hsame.
Qed.

(** X11.  The file of the child depends on nothing but the list
    [i3s_modules] and the sections whose first word the child knows: two
    configurations that agree on these keys give the same file, and the
    same error if there is one.  The modules of py3status, the click table
    and the groups leave no trace in it. *)
Theorem X11_file_depends_on_the_native_entries_only
    (c1 c2 : config) (tmpfile : string) :
  (forall k, emitted k = true -> c1 !! k = c2 !! k) ->
  Emitter.write_tmp_i3status_config c1 tmpfile
  = Emitter.write_tmp_i3status_config c2 tmpfile.
Proof.
  intros Hsame. unfold Emitter.write_tmp_i3status_config.
  rewrite (write_sections_emitted (Py.sorted_items (map_to_list c1))).
  rewrite (write_sections_emitted (Py.sorted_items (map_to_list c2))).
  by rewrite (emitted_items c1 c2 Hsame).
Qed.

(** The configuration of the sample, and the same with a module of
    py3status and a click on it. *)
Lemma X11_witness :
  Emitter.write_tmp_i3status_config sample_config ""
  = Emitter.write_tmp_i3status_config
      (<["weather" := CDict [("city", VStr "Paris")]]>
         (<["on_click" := COnClick {["weather" := {[1 := VStr "exec xterm"]}]}]>
            sample_config)) "".
Proof.
  apply X11_file_depends_on_the_native_entries_only.
  intros k Hk.
  rewrite !lookup_insert_ne; [reflexivity | by intros <- | by intros <-].
Defined.

(** ** More on the responses *)
Section responses_facts.
Import Supervisor.

Lemma with_i3modules_id (s : I3status) : with_i3modules (i3modules s) s = s.
Proof. by destruct s. Qed.

Lemma set_item_id (m : I3statusModule) : set_item (item m) m = m.
Proof. by destruct m. Qed.

(** One turn of the loop of [set_responses] that returns. *)
Lemma set_response_ok (w : wall) (index : nat) (i : gmap string jvalue)
    (s s1 : I3status) (n : string) (b : bool) :
  set_response w index i s = (s1, Ok (n, b)) ->
  names_of "i3s_modules" (conf s) !! index = Some n
  /\ exists m0 m',
       (i3modules s !! n = Some m0
        \/ i3modules s !! n = None /\ Clock.init n (conf s) = Ok m0)
       /\ update_from_item w i m0 = (m', Ok b)
       /\ s1 = with_i3modules (<[n := m']> (i3modules s)) s.
Proof.
  unfold set_response. monad_unfold.
  destruct (names_at "i3s_modules" (conf s)) as [names|] eqn:Hn; [|discriminate].
  apply names_at_names_of in Hn. rewrite Hn.
  destruct (names !! index) as [conf_name|] eqn:Hc; [|discriminate].
  destruct (i3modules s !! conf_name) as [m|] eqn:Hm.
  - destruct (update_from_item w i m) as [m' [b'|e]] eqn:Hu; [|discriminate].
    cbn. intros [= <- <- <-]. split; [reflexivity|].
    exists m, m'. split; [by left|]. split; [exact Hu | reflexivity].
  - destruct (Clock.init conf_name (conf s)) as [m|] eqn:Hi; [|discriminate].
    cbn. destruct (update_from_item w i m) as [m' [b'|e]] eqn:Hu; [|discriminate].
    cbn. intros [= <- <- <-]. split; [reflexivity|].
    exists m, m'. split; [by right|]. split; [exact Hu|].
    unfold with_i3modules. cbn. by rewrite insert_insert_eq.
Qed.

Lemma update_time_value_kind (w : wall) (m m' : I3statusModule) (r : result bool) :
  update_time_value w m = (m', r) -> is_time_module m' = is_time_module m.
Proof.
  unfold update_time_value, full_text. monad_unfold.
  destruct (now w (tz m)) as [[date zone]|e]; [|by intros [= <- _]].
  destruct (time_format m); try (by intros [= <- _]).
  destruct (item m !! "full_text"); [|by intros [= <- _]].
  destruct (bool_decide _); by intros [= <- _].
Qed.

Lemma set_time_zone_kind (w : wall) (m m' : I3statusModule) (r : result unit) :
  set_time_zone w m = (m', r) -> is_time_module m' = is_time_module m.
Proof.
  unfold set_time_zone, full_text. monad_unfold.
  destruct (item m !! "full_text") as [[s| | |]|]; try (by intros [= <- _]).
  destruct (Py.split s !! 2%nat); [|by intros [= <- _]].
  destruct (Py.strptime _ _); [|by intros [= <- _]].
  unfold now. cbv beta iota.
  destruct (Py.datetime_new _ _ _ _ _ _); [|by intros [= <- _]].
  destruct (Py.datetime_new _ _ _ _ _ _); [|by intros [= <- _]].
  by intros [= <- _].
Qed.

Lemma update_from_item_kind (w : wall) (i : gmap string jvalue)
    (m m' : I3statusModule) (r : result bool) :
  update_from_item w i m = (m', r) -> is_time_module m' = is_time_module m.
Proof.
  unfold update_from_item. monad_unfold.
  destruct (is_time_module m) eqn:Ht; [|by intros [= <- _]].
  destruct (time_zone_due w (set_item i m)).
  - destruct (set_time_zone w (set_item i m)) as [m1 [[]|e]] eqn:Hz.
    + intros Hu. apply update_time_value_kind in Hu. apply set_time_zone_kind in Hz.
      cbn in Hz. congruence.
    + intros [= <- _]. apply set_time_zone_kind in Hz. cbn in Hz. congruence.
  - intros Hu. apply update_time_value_kind in Hu. cbn in Hu. congruence.
Qed.

(** An entry that is no clock takes the snapshot entry as it is. *)
Lemma update_from_item_plain (w : wall) (i : gmap string jvalue) (m : I3statusModule) :
  is_time_module m = false ->
  update_from_item w i m = (set_item i m, Ok (bool_decide (item m ≠ i))).
Proof. intros Ht. unfold update_from_item. monad_unfold. by rewrite Ht. Qed.

(** The loop of [set_responses], when it returns: the names reported are
    among those of the positions gone through, in their order; the entries
    of these names exist; nothing else of the state is changed. *)
Lemma set_responses_loop_ok (w : wall) (l : list (gmap string jvalue)) :
  forall (index : nat) (updates ups : list string) (s s' : I3status),
    set_responses_loop w index l updates s = (s', Ok ups) ->
    let names := names_of "i3s_modules" (conf s) in
    (l = [] \/ (index + length l <= length names)%nat)
    /\ (exists new, ups = updates ++ new
                    /\ new `sublist_of` take (length l) (drop index names))
    /\ s' = with_i3modules (i3modules s') s
    /\ (forall n, n ∉ take (length l) (drop index names) ->
                  i3modules s' !! n = i3modules s !! n)
    /\ (forall n, n ∈ take (length l) (drop index names)
                  \/ is_Some (i3modules s !! n) ->
                  is_Some (i3modules s' !! n))
    /\ (NoDup names ->
        forall k i, l !! k = Some i ->
          exists n m, names !! (index + k)%nat = Some n
                      /\ i3modules s' !! n = Some m
                      /\ (is_time_module m = false -> item m = i)).
Proof.
  induction l as [|i l IH]; intros index updates ups s s' H names.
  - cbn in H. injection H as <- <-. cbn [length take].
    split; [by left|]. split; [exists []; by rewrite app_nil_r|].
    split; [by rewrite with_i3modules_id|]. split; [reflexivity|].
    split; [by intros n [?%elem_of_nil|?]|].
    intros _ k i Hk. by rewrite lookup_nil in Hk.
  - cbn [set_responses_loop] in H. revert H. monad_unfold.
    destruct (set_response w index i s) as [s1 [[n b]|e]] eqn:Hr; [|discriminate].
    intros H. apply set_response_ok in Hr as (Hn & m0 & m' & Hm0 & Hu & ->).
    fold names in Hn.
    destruct (IH _ _ _ _ _ H) as (Hlen & (new & -> & Hsub) & Hs' & Hframe & Hdom & Hent).
    cbn [conf with_i3modules] in Hlen, Hsub, Hframe, Hdom, Hent.
    fold names in Hlen, Hsub, Hframe, Hdom, Hent.
    cbn [i3modules with_i3modules] in Hframe, Hdom.
    assert (Hdrop : drop index names = n :: drop (S index) names).
    { by apply drop_S. }
    cbn [length]. rewrite Hdrop. cbn [take].
    split.
    { right. apply lookup_lt_Some in Hn. destruct Hlen as [->|Hlen]; cbn; lia. }
    split; [|split; [|split; [|split]]].
    + destruct b.
      * exists (n :: new). split; [by rewrite <- app_assoc|]. by apply sublist_skip.
      * exists new. split; [reflexivity|]. by apply sublist_cons.
    + rewrite Hs'. reflexivity.
    + intros x Hx. apply not_elem_of_cons in Hx as [Hxn Hx].
      rewrite (Hframe x Hx). by rewrite lookup_insert_ne.
    + intros x Hx. apply Hdom.
      destruct Hx as [[->|Hx]%elem_of_cons|Hx]; [|by left|].
      * right. rewrite lookup_insert_eq. by eexists.
      * right. destruct (decide (n = x)) as [->|Hne].
        -- rewrite lookup_insert_eq. by eexists.
        -- by rewrite lookup_insert_ne.
    + intros Hnd k j Hk. destruct k as [|k].
      * injection Hk as <-. rewrite Nat.add_0_r. exists n.
        assert (Hnin : n ∉ take (length l) (drop (S index) names)).
        { intros Hin. apply elem_of_take in Hin as (k & Hk & _).
          rewrite lookup_drop in Hk.
          pose proof (NoDup_lookup _ _ _ _ Hnd Hn Hk). lia. }
        rewrite (Hframe n Hnin), lookup_insert_eq. exists m'.
        split; [exact Hn|]. split; [reflexivity|].
        intros Ht. pose proof (update_from_item_kind _ _ _ _ _ Hu) as Hk0.
        rewrite Ht in Hk0. symmetry in Hk0.
        rewrite (update_from_item_plain w i m0 Hk0) in Hu. by injection Hu as <- _.
      * cbn in Hk. destruct (Hent Hnd k j Hk) as (x & m & Hx & Hm & Hi).
        exists x, m. replace (index + S k)%nat with (S index + k)%nat by lia.
        by repeat split.
Qed.

Lemma set_responses_inv (w : wall) (s s' : I3status) (r : result unit) :
  set_responses w s = (s', r) ->
  let s0 := with_i3modules (i3modules s) (mk_I3status (error s) (i3modules s)
              (last_output s) (last_output s) (last_prefix s) (ready s) (conf s)
              (events s)) in
  match last_output s with
  | None => s' = s0 /\ exists e, r = Raise e
  | Some l =>
      match set_responses_loop w 0 l [] s0 with
      | (s1, Ok updates) => s' = (notify_update updates s1).1 /\ r = Ok tt
      | (s1, Raise e) => s' = s1 /\ r = Raise e
      end
  end.
Proof.
  unfold set_responses, update_json_list. monad_unfold. cbn [json_list].
  destruct (last_output s) as [l|]; cbv zeta.
  - unfold with_i3modules. cbn.
    destruct (set_responses_loop w 0 l [] _) as [s1 [ups|e]]; by intros [= <- <-].
  - intros [= <- <-]. split; [reflexivity | by eexists].
Qed.

(** X12.  When [set_responses] returns, the snapshot was no longer than
    the list of native names, [notify_update] has been called once, also
    when nothing has changed, with names of the positions of the snapshot
    in their order; every such position has its entry; the snapshot, the
    configuration, the error and the flag [ready] are as before. *)
Theorem X12_set_responses_notifies_once
    (w : wall) (s s' : I3status) :
  set_responses w s = (s', Ok tt) ->
  exists l updates,
    last_output s = Some l
    /\ (length l <= length (names_of "i3s_modules" (conf s)))%nat
    /\ updates `sublist_of` take (length l) (names_of "i3s_modules" (conf s))
    /\ events s' = events s ++ [ENotify updates]
    /\ (forall n, n ∈ take (length l) (names_of "i3s_modules" (conf s)) ->
                  is_Some (i3modules s' !! n))
    /\ last_output s' = Some l /\ conf s' = conf s
    /\ error s' = error s /\ ready s' = ready s.
Proof.
  intros H. apply set_responses_inv in H. cbv zeta in H.
  destruct (last_output s) as [l|] eqn:Hl; [|by destruct H as [_ [e ?]]].
  destruct (set_responses_loop w 0 l [] _) as [s1 [ups|e]] eqn:Hloop;
    [|by destruct H as [_ ?]].
  destruct H as [-> _].
  destruct (set_responses_loop_ok _ _ _ _ _ _ _ Hloop)
    as (Hlen & (new & -> & Hsub) & Hs1 & _ & Hdom & _).
  cbn [conf with_i3modules] in Hlen, Hsub, Hdom. rewrite drop_0 in Hsub, Hdom.
  exists l, new. split; [reflexivity|]. split.
  { destruct Hlen as [->|Hlen]; cbn; lia. }
  split; [exact Hsub|].
  rewrite Hs1. cbn. repeat split; try reflexivity.
  intros n Hn. apply Hdom. by left.
Qed.

(** A snapshot of one entry under the configuration of the sample. *)
Lemma X12_witness :
  let s := (set_last [ {["full_text" := JStr "98%"]} ] "," (init sample_config)).1 in
  let s' := (set_responses (mk_wall 1709289015 0) s).1 in
  exists l updates,
    last_output s = Some l
    /\ (length l <= length (names_of "i3s_modules" (conf s)))%nat
    /\ updates `sublist_of` take (length l) (names_of "i3s_modules" (conf s))
    /\ events s' = events s ++ [ENotify updates]
    /\ (forall n, n ∈ take (length l) (names_of "i3s_modules" (conf s)) ->
                  is_Some (i3modules s' !! n))
    /\ last_output s' = Some l /\ conf s' = conf s
    /\ error s' = error s /\ ready s' = ready s.
Proof.
  intros s s'.
  assert (H2 : (set_responses (mk_wall 1709289015 0) s).2 = Ok tt)
    by (vm_compute; reflexivity).
  apply (X12_set_responses_notifies_once (mk_wall 1709289015 0) s s').
  rewrite <- H2. apply surjective_pairing.
Defined.
End responses_facts.

(** ** The clocks between two snapshots *)
Section update_times_facts.
Import Supervisor.

Variable values : gmap string I3statusModule -> list (string * I3statusModule).

(** The dictionary yields every entry once, in an order of its own. *)
Hypothesis values_items : forall M, values M ≡ₚ map_to_list M.

Lemma values_lookup (M : gmap string I3statusModule) (k : string) (m : I3statusModule) :
  (k, m) ∈ values M <-> M !! k = Some m.
Proof. rewrite values_items. apply elem_of_map_to_list. Qed.

Lemma values_NoDup (M : gmap string I3statusModule) : NoDup (values M).*1.
Proof. rewrite values_items. apply NoDup_fst_map_to_list. Qed.

Lemma NoDup_fst_head {A} (k : string) (m m' : A) (l : list (string * A)) :
  NoDup ((k, m) :: l).*1 -> (k, m') ∈ (k, m) :: l -> m' = m.
Proof.
  cbn. intros [Hk _]%NoDup_cons [E|Hin]%elem_of_cons; [congruence|].
  exfalso. apply Hk. apply list_elem_of_fmap. by exists (k, m').
Qed.

(** The loop of [update_times], when it returns. *)
Lemma update_times_loop_ok (w : wall) (l : list (string * I3statusModule)) :
  forall (updated ups : list string) (s s' : I3status),
    NoDup l.*1 ->
    update_times_loop w l updated s = (s', Ok ups) ->
    ups = updated ++ ticked_names w l
    /\ s' = with_i3modules (i3modules s') s
    /\ (forall k, k ∉ l.*1 -> i3modules s' !! k = i3modules s !! k)
    /\ (forall k m, (k, m) ∈ l -> i3modules s !! k = Some m ->
                    i3modules s' !! k = Some (tick w m))
    /\ (forall k m, (k, m) ∈ l -> is_time_module m = true ->
                    exists b, (update_time_value w m).2 = Ok b).
Proof.
  induction l as [|[k0 m0] l IH]; intros updated ups s s' Hnd H.
  - cbn in H. injection H as <- <-. unfold ticked_names. cbn.
    rewrite app_nil_r. split; [reflexivity|]. split; [by rewrite with_i3modules_id|].
    split; [reflexivity|]. split; by intros k m ?%elem_of_nil.
  - pose proof Hnd as Hnd0. cbn [fmap list_fmap fst] in Hnd.
    apply NoDup_cons in Hnd as [Hk0 Hnd].
    cbn [update_times_loop] in H. unfold ticked_names, tick, ticked in *.
    rewrite filter_cons. cbn [snd].
    destruct (is_time_module m0) eqn:Ht.
    + revert H. monad_unfold.
      destruct (update_time_value w m0) as [m1 [b|e]] eqn:Hu; [|discriminate].
      cbn [fst snd]. intros H.
      destruct (IH _ _ _ _ Hnd H) as (-> & Hs' & Hout & Hin & Hok).
      cbn [i3modules] in Hout, Hin. cbn [andb].
      split; [|split; [|split; [|split]]].
      * destruct b.
        -- rewrite decide_True by reflexivity. cbn. by rewrite <- app_assoc.
        -- rewrite decide_False by discriminate. reflexivity.
      * rewrite Hs'. reflexivity.
      * intros k [Hne Hk]%not_elem_of_cons. rewrite (Hout k Hk).
        by rewrite lookup_insert_ne.
      * intros k m [E|Hkm]%elem_of_cons Hm.
        -- injection E as -> ->. rewrite Ht, Hu. rewrite (Hout k0 Hk0).
           by rewrite lookup_insert_eq.
        -- assert (Hne : k0 <> k).
           { intros ->. apply Hk0. apply list_elem_of_fmap. by exists (k, m). }
           apply (Hin k m Hkm). by rewrite lookup_insert_ne.
      * intros k m [E|Hkm]%elem_of_cons Hm.
        -- injection E as -> ->. rewrite Hu. by exists b.
        -- exact (Hok k m Hkm Hm).
    + destruct (IH _ _ _ _ Hnd H) as (-> & Hs' & Hout & Hin & Hok). cbn [andb].
      rewrite decide_False by discriminate.
      split; [reflexivity|]. split; [exact Hs'|]. split; [|split].
      * intros k [Hne Hk]%not_elem_of_cons. exact (Hout k Hk).
      * intros k m [E|Hkm]%elem_of_cons Hm.
        -- injection E as -> ->. rewrite Ht. rewrite (Hout k0 Hk0). exact Hm.
        -- exact (Hin k m Hkm Hm).
      * intros k m [E|Hkm]%elem_of_cons Hm.
        -- injection E as -> ->. congruence.
        -- exact (Hok k m Hkm Hm).
Qed.


(** The loop of [update_times], when it stops at a clock. *)
Lemma update_times_loop_raises (w : wall) (l : list (string * I3statusModule)) :
  forall (updated : list string) (s s' : I3status) (e : exn),
    update_times_loop w l updated s = (s', Raise e) ->
    events s' = events s /\ conf s' = conf s /\ last_output s' = last_output s
    /\ exists k m m', (k, m) ∈ l /\ is_time_module m = true
                      /\ update_time_value w m = (m', Raise e).
Proof.
  induction l as [|[k0 m0] l IH]; intros updated s s' e H; [discriminate|].
  cbn [update_times_loop] in H. destruct (is_time_module m0) eqn:Ht.
  - revert H. monad_unfold.
    destruct (update_time_value w m0) as [m1 [b|e0]] eqn:Hu; cbn [fst snd].
    + intros H. destruct (IH _ _ _ _ H) as (He & Hc & Hl & k & m & m' & Hkm & Hm).
      split; [exact He|]. split; [exact Hc|]. split; [exact Hl|].
      exists k, m, m'. split; [by apply list_elem_of_further | exact Hm].
    + intros [= <- <-]. split; [reflexivity|]. split; [reflexivity|].
      split; [reflexivity|].
      exists k0, m0, m1. split; [apply list_elem_of_here | by split].
  - destruct (IH _ _ _ _ H) as (He & Hc & Hl & k & m & m' & Hkm & Hm).
    split; [exact He|]. split; [exact Hc|]. split; [exact Hl|].
    exists k, m, m'. split; [by apply list_elem_of_further | exact Hm].
Qed.

(** X14.  [update_times] raises only what the update of one of its clock
    entries raises, and then [notify_update] is not called, also for the
    clocks formatted before; the exception is none that [run] catches. *)
Theorem X14_update_times_raises_with_a_clock
    (w : wall) (s s' : I3status) (e : exn) :
  update_times values w s = (s', Raise e) ->
  events s' = events s
  /\ is_IOError e = false
  /\ exists k m m', i3modules s !! k = Some m /\ is_time_module m = true
                    /\ update_time_value w m = (m', Raise e).
Proof.
  unfold update_times. monad_unfold.
  destruct (update_times_loop w (values (i3modules s)) [] s) as [s1 [ups|e0]] eqn:Hl.
  - destruct (bool_decide (ups = [])); discriminate.
  - intros [= <- <-].
    destruct (update_times_loop_raises w _ _ _ _ _ Hl)
      as (He & _ & _ & k & m & m' & Hkm & Ht & Hu).
    split; [exact He|]. split; [eapply update_time_value_raises, Hu|].
    exists k, m, m'. split; [by apply values_lookup | by split].
Qed.

(** The loop of [update_times] over entries that are settled. *)
Lemma update_times_loop_settled (w : wall) (l : list (string * I3statusModule)) :
  forall (updated : list string) (s : I3status),
    (forall k m, (k, m) ∈ l ->
       i3modules s !! k = Some m
       /\ (is_time_module m = true -> update_time_value w m = (m, Ok false))) ->
    update_times_loop w l updated s = (s, Ok updated).
Proof.
  induction l as [|[k0 m0] l IH]; intros updated s Hl; [reflexivity|].
  cbn [update_times_loop].
  destruct (Hl k0 m0 (list_elem_of_here _ _)) as [Hm Hu].
  assert (Hl' : forall k m, (k, m) ∈ l ->
            i3modules s !! k = Some m
            /\ (is_time_module m = true -> update_time_value w m = (m, Ok false))).
  { intros k m Hkm. apply Hl. by apply list_elem_of_further. }
  destruct (is_time_module m0); [|by apply IH].
  rewrite (Hu eq_refl). unfold set_i3module. monad_unfold. cbn [fst snd].
  assert (Hs : mk_I3status (error s) (<[k0 := m0]> (i3modules s)) (json_list s)
                 (last_output s) (last_prefix s) (ready s) (conf s) (events s) = s).
  { rewrite insert_id by exact Hm. by destruct s. }
  rewrite Hs. by apply IH.
Qed.

(** X15.  [update_times] settles: once it has returned, a second call at
    the same reading of the clock changes nothing and calls
    [notify_update] no more. *)
Theorem X15_update_times_settles (w : wall) (s s' : I3status) :
  update_times values w s = (s', Ok tt) ->
  update_times values w s' = (s', Ok tt).
Proof.
  intros H. unfold update_times in H. revert H. monad_unfold.
  destruct (update_times_loop w (values (i3modules s)) [] s) as [s1 [ups|e]] eqn:Hl;
    [|discriminate].
  destruct (update_times_loop_ok w _ _ _ _ _ (values_NoDup _) Hl)
    as (_ & _ & Hout & Hin & Hok).
  intros H.
  assert (HM : i3modules s' = i3modules s1).
  { destruct (bool_decide (ups = [])); by injection H as <-. }
  clear H. unfold update_times. monad_unfold.
  rewrite (update_times_loop_settled w (values (i3modules s')) [] s'); [reflexivity|].
  intros k m' Hkm. apply values_lookup in Hkm. split; [exact Hkm|].
  rewrite HM in Hkm. intros Ht.
  destruct (i3modules s !! k) as [m|] eqn:Hm.
  - rewrite (Hin k m) in Hkm; [|by apply values_lookup | exact Hm].
    injection Hkm as <-. unfold tick in Ht |- *.
    destruct (is_time_module m) eqn:Htm.
    + destruct (update_time_value w m) as [m1 [b|e]] eqn:Hu.
      * cbn [fst] in Ht |- *. eapply update_time_value_again, Hu.
      * exfalso. destruct (Hok k m) as [b Hb]; [by apply values_lookup | exact Htm|].
        rewrite Hu in Hb. discriminate Hb.
    + congruence.
  - rewrite Hout in Hkm; [congruence|].
    intros ([k' m0] & -> & Hk)%list_elem_of_fmap. apply values_lookup in Hk.
    cbn in Hm. congruence.
Qed.

End update_times_facts.

Section update_times_examples.
Import Supervisor.


(** A clock whose zone lies two days from UTC. *)
Lemma X14_witness :
  let w := mk_wall 1709289015 0 in
  let m := mk_module "tztime far" true {["full_text" := JStr "10:29"]}
             (Some (mk_Tz "FAR" 172800)) (VStr "%H:%M") in
  let s := mk_I3status None {["tztime far" := m]} None None None false ∅ [] in
  let s' := (update_times map_to_list w s).1 in
  let e := ValueError
             "offset must be a timedelta strictly between -timedelta(hours=24) and timedelta(hours=24)" in
  events s' = events s
  /\ is_IOError e = false
  /\ exists k m m', i3modules s !! k = Some m /\ is_time_module m = true
                    /\ update_time_value w m = (m', Raise e).
Proof.
  intros w m s s' e.
  assert (H2 : (update_times map_to_list w s).2 = Raise e) by (vm_compute; reflexivity).
  apply (X14_update_times_raises_with_a_clock map_to_list
           (fun M => reflexivity (map_to_list M)) w s s' e).
  rewrite <- H2. apply surjective_pairing.
Defined.

(** The two entries of the example above, formatted at 10:30:15. *)
Lemma X15_witness :
  let w := mk_wall 1709289015 0 in
  let s := mk_I3status None
             (<["tztime berlin" := mk_module "tztime berlin" true
                                     {["full_text" := JStr "10:29"]}
                                     (Some (mk_Tz "ZZZ" 0)) (VStr "%H:%M")]>
                {["battery 0" := mk_module "battery 0" false
                                   {["full_text" := JStr "98%"]} None (VStr "")]})
             None None None false ∅ [] in
  let s' := (update_times map_to_list w s).1 in
  update_times map_to_list w s' = (s', Ok tt).
Proof.
  intros w s s'.
  assert (H2 : (update_times map_to_list w s).2 = Ok tt) by (vm_compute; reflexivity).
  apply (X15_update_times_settles map_to_list
           (fun M => reflexivity (map_to_list M)) w s s').
  rewrite <- H2. apply surjective_pairing.
Defined.
End update_times_examples.

(** ** More on the loop *)
Section loop_facts.
Import Supervisor.

Variable loads : string -> result (list (gmap string jvalue)).
Variable loads_header : string -> result (gmap string jvalue).
Variable dumps : gmap string jvalue -> string.

(** One turn of the loop, case by case. *)
Lemma run_step_eq (c : cycle) (s : I3status) :
  run_step loads loads_header dumps c s
  = if bool_decide (line c = "")
    then match poll c with
         | Some code => (s, Raise (IOError (died code (err c))))
         | None => (s, Ok tt)
         end
    else if Py.startswith "[{" (line c)
    then match jsonify loads (line c) with
         | Ok (p, l) =>
             match set_responses (clock c)
                     (set_last l "," (print_line (line c) s).1).1 with
             | (s1, Ok _) => ((set_ready s1).1, Ok tt)
             | (s1, Raise e) => (s1, Raise e)
             end
         | Raise e => ((print_line (line c) s).1, Raise e)
         end
    else if Py.startswith "," (line c)
    then match jsonify loads (line c) with
         | Ok (p, l) => set_responses (clock c) (set_last l p s).1
         | Raise e => (s, Raise e)
         end
    else if Py.contains "version" (line c)
    then match loads_header (line c) with
         | Ok header =>
             ((print_line (dumps (<["click_events" := JBool true]> header)) s).1, Ok tt)
         | Raise e => (s, Raise e)
         end
    else ((print_line (line c) s).1, Ok tt).
Proof.
  unfold run_step. monad_unfold.
  destruct (bool_decide (line c = "")); cbn [negb]; [by destruct (poll c)|].
  destruct (Py.startswith "[{" (line c)).
  - cbn. destruct (jsonify loads (line c)) as [[p l]|]; [|reflexivity]. cbn.
    by destruct (set_responses _ _) as [s1 [[]|e]].
  - destruct (Py.startswith "," (line c)); cbn [negb].
    + destruct (jsonify loads (line c)) as [[p l]|]; [|reflexivity]. cbn.
      by destruct (set_responses _ _) as [s1 [[]|e]].
    + destruct (Py.contains "version" (line c)); cbn; [|reflexivity].
      by destruct (loads_header (line c)).
Qed.

(** What [set_responses] leaves of the snapshot, in every outcome. *)
Lemma set_responses_snapshot (w : wall) (s : I3status) :
  let s' := (set_responses w s).1 in
  json_list s' = last_output s /\ last_output s' = last_output s
  /\ last_prefix s' = last_prefix s /\ ready s' = ready s /\ error s' = error s.
Proof.
  cbv zeta. split; [|repeat split; apply kept_set_responses; reflexivity].
  unfold set_responses, update_json_list. monad_unfold. cbn [json_list].
  destruct (last_output s) as [l|] eqn:Hl; [|reflexivity].
  set (s0 := mk_I3status _ _ _ _ _ _ _ _).
  pose proof (kept_set_responses_loop json_list
                ltac:(reflexivity) w l 0 [] s0) as K.
  destruct (set_responses_loop w 0 l [] s0) as [s1 [ups|e]]; cbn in K |- *;
    rewrite K; reflexivity.
Qed.

Lemma set_last_responses (l : list (gmap string jvalue)) (p : string) (w : wall)
    (s s1 : I3status) (r : result unit) :
  set_responses w (set_last l p s).1 = (s1, r) ->
  json_list s1 = Some l /\ last_output s1 = Some l /\ last_prefix s1 = Some p
  /\ ready s1 = ready s /\ error s1 = error s.
Proof.
  intros H. pose proof (set_responses_snapshot w (set_last l p s).1) as K.
  cbv zeta in K. rewrite H in K. exact K.
Qed.

Lemma coherent_snapshot (s : I3status) (l : list (gmap string jvalue)) (p : string) :
  json_list s = Some l -> last_output s = Some l -> last_prefix s = Some p ->
  coherent s /\ coherent (set_ready s).1.
Proof.
  intros H1 H2 H3. unfold coherent. cbn. rewrite H1, H2, H3.
  repeat split; by eexists.
Qed.

(** One turn of the loop keeps the snapshot coherent, in every outcome. *)
Lemma coherent_run_step (c : cycle) (s : I3status) :
  coherent s -> coherent (run_step loads loads_header dumps c s).1.
Proof.
  intros Hs. rewrite run_step_eq.
  destruct (bool_decide (line c = "")); [by destruct (poll c)|].
  destruct (Py.startswith "[{" (line c)).
  - destruct (jsonify loads (line c)) as [[p l]|]; [|exact Hs].
    destruct (set_responses _ _) as [s1 [[]|e]] eqn:Hr;
      apply set_last_responses in Hr as (H1 & H2 & H3 & _);
      by destruct (coherent_snapshot s1 l "," H1 H2 H3).
  - destruct (Py.startswith "," (line c)).
    + destruct (jsonify loads (line c)) as [[p l]|]; [|exact Hs].
      destruct (set_responses _ _) as [s1 r] eqn:Hr.
      apply set_last_responses in Hr as (H1 & H2 & H3 & _).
      by destruct (coherent_snapshot s1 l p H1 H2 H3).
    + destruct (Py.contains "version" (line c)); [|exact Hs].
      by destruct (loads_header (line c)).
Qed.

Lemma coherent_run_loop (cycles : list cycle) (s : I3status) :
  coherent s -> coherent (run_loop loads loads_header dumps cycles s).1.
Proof.
  revert s. induction cycles as [|c cycles IH]; intros s Hs; [exact Hs|].
  cbn [run_loop]. destruct (lock_is_set c); [|exact Hs]. monad_unfold.
  pose proof (coherent_run_step c s Hs) as K.
  destruct (run_step loads loads_header dumps c s) as [s1 [[]|e]]; cbn in K.
  - by apply IH.
  - exact K.
Qed.


(** The lines of one turn. *)
Lemma printed_run_step (c : cycle) (s : I3status) :
  printed (run_step loads loads_header dumps c s).1
  = printed s ++ option_list (echoed loads_header dumps c).
Proof.
  rewrite run_step_eq. unfold echoed. cbv zeta.
  destruct (bool_decide (line c = "")).
  { rewrite app_nil_r. by destruct (poll c). }
  destruct (Py.startswith "[{" (line c)).
  - destruct (jsonify loads (line c)) as [[p l]|]; [|apply printed_print_line].
    pose proof (printed_set_responses (clock c)
                  (set_last l "," (print_line (line c) s).1).1) as K.
    destruct (set_responses _ _) as [s1 [[]|e]]; cbn [fst] in K |- *.
    + transitivity (printed s1); [reflexivity|]. rewrite K. apply printed_print_line.
    + rewrite K. apply printed_print_line.
  - destruct (Py.startswith "," (line c)).
    + rewrite app_nil_r.
      destruct (jsonify loads (line c)) as [[p l]|]; [|reflexivity].
      exact (printed_set_responses (clock c) (set_last l p s).1).
    + destruct (Py.contains "version" (line c)); [|apply printed_print_line].
      destruct (loads_header (line c)); cbn [fst option_list];
        [apply printed_print_line | by rewrite app_nil_r].
Qed.

Lemma printed_run_loop (cycles : list cycle) (s : I3status) :
  exists done,
    done `prefix_of` turns cycles
    /\ printed (run_loop loads loads_header dumps cycles s).1
       = printed s ++ omap (echoed loads_header dumps) done
    /\ ((run_loop loads loads_header dumps cycles s).2 = Ok tt ->
        done = turns cycles).
Proof.
  revert s. induction cycles as [|c cycles IH]; intros s.
  - exists []. cbn. by rewrite app_nil_r.
  - cbn [run_loop turns]. destruct (lock_is_set c).
    2:{ exists []. cbn. by rewrite app_nil_r. }
    monad_unfold. pose proof (printed_run_step c s) as K.
    destruct (run_step loads loads_header dumps c s) as [s1 [[]|e]]; cbn in K.
    + destruct (IH s1) as (done & Hp & Hd & Hall).
      exists (c :: done). split; [by apply prefix_cons|]. split.
      * rewrite Hd, K. cbn [omap list_omap].
        destruct (echoed loads_header dumps c); cbn; by rewrite <- app_assoc.
      * intros Hr. by rewrite (Hall Hr).
    + exists [c]. split; [apply prefix_cons, prefix_nil|]. split; [|discriminate].
      cbn. rewrite K. destruct (echoed loads_header dumps c); reflexivity.
Qed.

(** X17.  What [run] hands to [print_line]: the echo of the turns that it
    makes, in their order, and nothing else.  A continuation frame, an
    empty read and a header that cannot be decoded print nothing; a first
    frame is printed even when it cannot be decoded.  The turns made are
    the first turns before the lock is cleared, all of them when the loop
    ends without an exception. *)
Theorem X17_run_prints_the_echo_of_its_turns (cycles : list cycle) (s : I3status) :
  exists done,
    done `prefix_of` turns cycles
    /\ printed (run loads loads_header dumps cycles s).1.2
       = printed s ++ omap (echoed loads_header dumps) done
    /\ ((Emitter.write_tmp_i3status_config (conf s) "").2 = Ok tt ->
        (run_loop loads loads_header dumps cycles s).2 = Ok tt ->
        done = turns cycles).
Proof.
  unfold run.
  destruct (Emitter.write_tmp_i3status_config (conf s) "") as [tmpfile [[]|e]].
  - destruct (printed_run_loop cycles s) as (done & Hp & Hd & Hall).
    exists done. split; [exact Hp|]. split; [|by intros _].
    destruct (run_loop loads loads_header dumps cycles s) as [s1 [[]|e]]; cbn in Hd.
    + exact Hd.
    + destruct (is_IOError e); exact Hd.
  - exists []. split; [apply prefix_nil|]. split; [|discriminate].
    cbn. by rewrite app_nil_r.
Qed.

(** The error of one turn. *)
Lemma error_run_step (c : cycle) (s : I3status) :
  error (run_step loads loads_header dumps c s).1 = error s.
Proof.
  rewrite run_step_eq.
  destruct (bool_decide (line c = "")); [by destruct (poll c)|].
  destruct (Py.startswith "[{" (line c)).
  - destruct (jsonify loads (line c)) as [[p l]|]; [|reflexivity].
    destruct (set_responses _ _) as [s1 [[]|e]] eqn:Hr;
      by apply set_last_responses in Hr as (_ & _ & _ & _ & K).
  - destruct (Py.startswith "," (line c)).
    + destruct (jsonify loads (line c)) as [[p l]|]; [|reflexivity].
      destruct (set_responses _ _) as [s1 r] eqn:Hr.
      by apply set_last_responses in Hr as (_ & _ & _ & _ & K).
    + destruct (Py.contains "version" (line c)); [|reflexivity].
      by destruct (loads_header (line c)).
Qed.

(** The exceptions of the codec are those of [json]: none is an
    [IOError]. *)
Hypothesis loads_raises : forall x e, loads x = Raise e -> is_IOError e = false.
Hypothesis loads_header_raises :
  forall x e, loads_header x = Raise e -> is_IOError e = false.

Lemma set_responses_raises (w : wall) (s s' : I3status) (e : exn) :
  set_responses w s = (s', Raise e) -> is_IOError e = false.
Proof.
  unfold set_responses, update_json_list. monad_unfold. cbn [json_list].
  destruct (last_output s) as [l|]; [|by intros [= _ <-]].
  destruct (set_responses_loop w 0 l [] _) as [s1 [ups|e0]] eqn:Hl; [discriminate|].
  intros [= _ <-]. eapply set_responses_loop_raises, Hl.
Qed.

Lemma jsonify_raises (x : string) (e : exn) :
  jsonify loads x = Raise e -> is_IOError e = false.
Proof.
  unfold jsonify. monad_unfold.
  destruct x as [|a x]; [|destruct (decide (a = ","%char)) as [->|Hne]].
  - destruct (loads "") eqn:H; [discriminate|]. intros [= <-]. eapply loads_raises, H.
  - destruct (loads x) eqn:H; [discriminate|]. intros [= <-]. eapply loads_raises, H.
  - assert (H : forall r : result (string * list (gmap string jvalue)),
               match a with
               | ","%char => r
               | _ => match loads (String a x) with
                      | Ok l => Ok ("", l) | Raise e0 => Raise e0 end
               end = Raise e -> is_IOError e = false).
    { intros r Hr.
      assert (Hl : match loads (String a x) with
                   | Ok l => Ok ("", l) | Raise e0 => Raise e0 end
                   = (Raise e : result (string * list (gmap string jvalue)))).
      { revert Hr Hne. destruct a as [[] [] [] [] [] [] [] []]; try (intros ? _; assumption).
        intros _ Hne. by destruct Hne. }
      destruct (loads (String a x)) eqn:H; [discriminate|].
      injection Hl as <-. eapply loads_raises, H. }
    apply H.
Qed.

(** An [IOError] of a turn is the death of the child. *)
Lemma run_step_IOError (c : cycle) (s s' : I3status) (e : exn) :
  run_step loads loads_header dumps c s = (s', Raise e) ->
  is_IOError e = true ->
  line c = "" /\ exists code, poll c = Some code /\ e = IOError (died code (err c)).
Proof.
  rewrite run_step_eq.
  destruct (bool_decide (line c = "")) eqn:Hline.
  { apply bool_decide_eq_true in Hline. destruct (poll c) as [code|]; [|discriminate].
    intros [= _ <-] _. split; [exact Hline|]. by exists code. }
  intros H He. exfalso.
  assert (Hno : is_IOError e = false); [|congruence]. clear He. revert H.
  destruct (Py.startswith "[{" (line c)).
  - destruct (jsonify loads (line c)) as [[p l]|e0] eqn:Hj.
    2:{ intros [= _ <-]. eapply jsonify_raises, Hj. }
    destruct (set_responses _ _) as [s1 [[]|e0]] eqn:Hr; [discriminate|].
    intros [= _ <-]. eapply set_responses_raises, Hr.
  - destruct (Py.startswith "," (line c)).
    + destruct (jsonify loads (line c)) as [[p l]|e0] eqn:Hj.
      2:{ intros [= _ <-]. eapply jsonify_raises, Hj. }
      apply set_responses_raises.
    + destruct (Py.contains "version" (line c)); [|discriminate].
      destruct (loads_header (line c)) eqn:Hh; [discriminate|].
      intros [= _ <-]. eapply loads_header_raises, Hh.
Qed.

Lemma run_loop_outcome (cycles : list cycle) (s s' : I3status) (r : result unit) :
  run_loop loads loads_header dumps cycles s = (s', r) ->
  error s' = error s
  /\ forall e, r = Raise e -> is_IOError e = true ->
       exists c code, c ∈ turns cycles /\ line c = "" /\ poll c = Some code
                      /\ e = IOError (died code (err c)).
Proof.
  revert s. induction cycles as [|c cycles IH]; intros s.
  - intros [= <- <-]. split; [reflexivity | discriminate].
  - cbn [run_loop turns]. destruct (lock_is_set c).
    2:{ intros [= <- <-]. split; [reflexivity | discriminate]. }
    monad_unfold. pose proof (error_run_step c s) as K.
    destruct (run_step loads loads_header dumps c s) as [s1 [[]|e0]] eqn:Hs; cbn in K.
    + intros H. destruct (IH _ H) as [He Hr]. split; [congruence|].
      intros e E1 E2. destruct (Hr e E1 E2) as (c' & code & Hc & Hx).
      exists c', code. split; [by apply list_elem_of_further | exact Hx].
    + intros [= <- <-]. split; [exact K|]. intros e [= <-] He.
      destruct (run_step_IOError c s s1 e0 Hs He) as (Hl & code & Hp & ->).
      exists c, code. split; [apply list_elem_of_here | by repeat split].
Qed.

(** X18.  The error that [run] stores is the death of the child and
    nothing else: when [run] returns, the error is the one held before, or
    the [IOError] of a turn at which the reader had no line and the child
    had exited; when [run] raises, the error is the one held before.  The
    exceptions of the decoder and of the responses leave [run]. *)
Theorem X18_run_stores_the_death_of_the_child_only
    (cycles : list cycle) (s s' : I3status) (tmpfile : string) (r : result unit) :
  run loads loads_header dumps cycles s = ((tmpfile, s'), r) ->
  match r with
  | Ok _ =>
      error s' = error s
      \/ exists c code,
           c ∈ turns cycles /\ line c = "" /\ poll c = Some code
           /\ error s' = Some (IOError (died code (err c)))
  | Raise e => error s' = error s
  end.
Proof.
  unfold run.
  destruct (Emitter.write_tmp_i3status_config (conf s) "") as [tmp [[]|e]];
    [|by intros [= _ <- <-]].
  destruct (run_loop loads loads_header dumps cycles s) as [s1 [[]|e]] eqn:Hl.
  - intros [= _ <- <-]. left. by destruct (run_loop_outcome _ _ _ _ Hl).
  - destruct (run_loop_outcome _ _ _ _ Hl) as [He Hr].
    destruct (is_IOError e) eqn:Hio.
    + intros [= _ <- <-]. right.
      destruct (Hr e eq_refl Hio) as (c & code & Hc & Hline & Hp & ->).
      exists c, code. by repeat split.
    + intros [= _ <- <-]. exact He.
Qed.

(** X19.  The loop of [run] makes no turn once the lock is cleared: what
    the readers would give afterwards changes nothing. *)
Theorem X19_run_stops_when_the_lock_is_cleared (cycles : list cycle) (s : I3status) :
  run loads loads_header dumps cycles s
  = run loads loads_header dumps (turns cycles) s.
Proof.
  unfold run.
  destruct (Emitter.write_tmp_i3status_config (conf s) "") as [tmp [[]|e]];
    [|reflexivity].
  assert (H : forall s0, run_loop loads loads_header dumps cycles s0
                         = run_loop loads loads_header dumps (turns cycles) s0).
  { induction cycles as [|c cycles IH]; intros s0; [reflexivity|].
    cbn [turns run_loop]. destruct (lock_is_set c) eqn:Hc; [|reflexivity].
    cbn [run_loop]. rewrite Hc. monad_unfold.
    destruct (run_step loads loads_header dumps c s0) as [s1 [[]|e]]; [apply IH|reflexivity]. }
  by rewrite H.
Qed.
End loop_facts.

Section loop_examples.
Import Supervisor.


(** A child that opens the stream and then exits. *)
Lemma X18_witness :
  let cycles := [mk_cycle true "[" "" None (mk_wall 1709289015 0);
                 mk_cycle true "" "" (Some 1) (mk_wall 1709289016 0)] in
  let r := run no_frames no_header no_dumps cycles (init sample_config) in
  match r.2 with
  | Ok _ =>
      error r.1.2 = error (init sample_config)
      \/ exists c code,
           c ∈ turns cycles /\ line c = "" /\ poll c = Some code
           /\ error r.1.2 = Some (IOError (died code (err c)))
  | Raise e => error r.1.2 = error (init sample_config)
  end.
Proof.
  intros cycles r.
  apply (X18_run_stores_the_death_of_the_child_only no_frames no_header no_dumps
           ltac:(by intros x e [= <-]) ltac:(by intros x e [= <-])
           cycles (init sample_config) r.1.2 r.1.1 r.2).
  subst r. by destruct (run _ _ _ _ _) as [[? ?] ?].
Defined.
End loop_examples.

(** ** The same snapshot again, and the mock *)
Section snapshot_again.
Import Supervisor.

(** The loop of [set_responses] over a snapshot whose entries are held
    already, none of them by a clock. *)
Lemma set_responses_loop_settled (w : wall) (l : list (gmap string jvalue)) :
  forall (index : nat) (updates : list string) (s : I3status),
    (forall k i, l !! k = Some i ->
       exists n m, names_of "i3s_modules" (conf s) !! (index + k)%nat = Some n
                   /\ i3modules s !! n = Some m
                   /\ is_time_module m = false /\ item m = i) ->
    set_responses_loop w index l updates s = (s, Ok updates).
Proof.
  induction l as [|i l IH]; intros index updates s Hl; [reflexivity|].
  destruct (Hl 0%nat i eq_refl) as (n & m & Hn & Hm & Ht & Hi).
  rewrite Nat.add_0_r in Hn.
  assert (Hnames : names_at "i3s_modules" (conf s)
                   = Ok (names_of "i3s_modules" (conf s))).
  { unfold names_at, names_of in *.
    destruct (conf s !! "i3s_modules") as [[]|];
      first [reflexivity | by rewrite lookup_nil in Hn]. }
  assert (Hstep : set_response w index i s = (s, Ok (n, false))).
  { unfold set_response. monad_unfold. rewrite Hnames, Hn, Hm.
    rewrite (update_from_item_plain w i m Ht). cbn.
    rewrite bool_decide_eq_false_2 by (intros K; by apply K).
    rewrite <- Hi, set_item_id, insert_id by exact Hm. by destruct s. }
  cbn [set_responses_loop]. monad_unfold. rewrite Hstep. apply IH.
  intros k j Hk. replace (S index + k)%nat with (index + S k)%nat by lia.
  by apply Hl.
Qed.

(** X20.  The same snapshot again: when [set_responses] has returned and
    the entries of the snapshot are no clocks, a second call on the state
    that it has left, at any time, changes no entry and hands
    [notify_update] an empty list.  The names of [i3s_modules] are all
    different, as the reader leaves them. *)
Theorem X20_same_snapshot_again_reports_no_change
    (w w' : wall) (s s' : I3status) (l : list (gmap string jvalue)) :
  set_responses w s = (s', Ok tt) ->
  last_output s = Some l ->
  NoDup (names_of "i3s_modules" (conf s)) ->
  (forall n m, n ∈ take (length l) (names_of "i3s_modules" (conf s)) ->
               i3modules s' !! n = Some m -> is_time_module m = false) ->
  set_responses w' s' = ((notify_update [] s').1, Ok tt).
Proof.
  intros H Hl Hnd Hplain. apply set_responses_inv in H. cbv zeta in H.
  rewrite Hl in H.
  destruct (set_responses_loop w 0 l [] _) as [s1 [ups|e]] eqn:Hloop;
    [|by destruct H as [_ ?]].
  destruct H as [-> _].
  destruct (set_responses_loop_ok _ _ _ _ _ _ _ Hloop)
    as (_ & _ & Hs1 & _ & _ & Hent).
  cbn [conf with_i3modules] in Hent. specialize (Hent Hnd).
  cbn [notify_update emit modify fst i3modules] in Hplain.
  set (s2 := (notify_update ups s1).1).
  assert (Hc : conf s2 = conf s) by (subst s2; rewrite Hs1; reflexivity).
  assert (Hj : json_list s2 = Some l /\ last_output s2 = Some l)
    by (subst s2; rewrite Hs1; cbn; rewrite ?Hl; by split).
  destruct Hj as [Hj Ho].
  assert (Hi2 : i3modules s2 = i3modules s1) by reflexivity.
  clearbody s2.
  assert (Hu : update_json_list s2 = (s2, Ok tt)).
  { unfold update_json_list. monad_unfold. clear -Hj Ho.
    destruct s2. cbn in Hj, Ho |- *. by rewrite Hj, Ho. }
  unfold set_responses. monad_unfold. rewrite Hu, Hj.
  rewrite (set_responses_loop_settled w' l 0 [] s2); [reflexivity|].
  intros k i Hk. destruct (Hent k i Hk) as (n & m & Hn & Hm & Hi).
  exists n, m. rewrite Hc, Hi2. split; [exact Hn|]. split; [exact Hm|].
  assert (Ht : is_time_module m = false).
  { apply (Hplain n m); [|exact Hm].
    apply elem_of_take. exists k. split; [exact Hn|].
    by apply lookup_lt_Some in Hk. }
  split; [exact Ht | by apply Hi].
Qed.

(** A snapshot of one entry under the configuration of the sample. *)
Lemma X20_witness :
  let l : list (gmap string jvalue) := [ {["full_text" := JStr "98%"]} ] in
  let s := (set_last l "," (init sample_config)).1 in
  let s' := (set_responses (mk_wall 1709289015 0) s).1 in
  set_responses (mk_wall 1709289020 0) s' = ((notify_update [] s').1, Ok tt).
Proof.
  intros l s s'.
  assert (H2 : (set_responses (mk_wall 1709289015 0) s).2 = Ok tt)
    by (vm_compute; reflexivity).
  apply (X20_same_snapshot_again_reports_no_change (mk_wall 1709289015 0)
           (mk_wall 1709289020 0) s s' l).
  - rewrite <- H2. apply surjective_pairing.
  - reflexivity.
  - apply (bool_decide_unpack _). vm_compute. exact I.
  - intros n m Hn Hm.
    assert (Hb : n = "battery 0").
    { vm_compute in Hn. by apply list_elem_of_singleton in Hn. }
    subst n. vm_compute in Hm. by injection Hm as <-.
Defined.

End snapshot_again.
